(** * Vantal Links configuration wizard (config.py): model and properties

    A shallow embedding of [config.py].  The script edits the list stored
    under the key "links" of [config.json] through menu prompts, writes the
    file back and can run git add / commit / push.

    Modelling choices.
    - A Python [str] is a sequence of Unicode code points ([str]).
      [str.strip], [str.split] and [int] are those of CPython 3.11: white
      space and decimal digits as in its Unicode tables (Unicode 14.0), and
      at most 4300 digits in an integer.
    - The terminal takes and gives UTF-8 with strict error handling, Python's
      default.  [stdin] is what the coming calls of [input()] find: a line
      of text, which then holds no surrogate code point, or bytes that do
      not decode, on which [input()] raises [UnicodeDecodeError]; reading
      past the end raises [EOFError].  The text that [print] writes is not
      part of the model, but [print] raises [UnicodeEncodeError] when given
      a [str] with a surrogate, which [json.load] can return; the messages
      of the script hold none, so only the values shown matter.
    - Every Python dict is an object of the [store], designated by its
      position there ([VRef a]); the statement [link['name'] = x] updates the
      object in place, so two list positions holding the same object change
      together.  Lists and scalars are carried by value: the only list the
      script mutates is the one under "links", which nothing else refers to.
    - A function of the script is a computation [M A]: it takes the [world]
      and gives back a [result] (a returned value or a raised exception)
      together with the new world.
    - config.json is either absent or a readable text; [json.load],
      [json.dump], the clock and what the system does with a command are
      parameters.  [subprocess.run] itself refuses an argument that the file
      system encoding (UTF-8, surrogateescape) cannot encode, or that holds a
      NUL.  Interrupts, and input/output errors other than a missing file,
      are left out. *)

From Stdlib Require Import ZArith NArith List SpecFloat.
From Stdlib.Strings Require Byte.
From stdpp Require Import base option list gmap.

Set Warnings "-register-all".
Local Open Scope list_scope.
Local Open Scope Z_scope.

(** ** Strings: [str.strip], [str.split(',')], [int(str)] *)

(** A [str]: its code points, first to last. *)
Inductive str : Set :=
  | EmptyStr
  | Str (c : N) (s : str).

(** String literals stand for a [str] when they are ASCII. *)
Fixpoint str_of_bytes (bs : list Byte.byte) : option str :=
  match bs with
  | [] => Some EmptyStr
  | b :: bs' =>
      if (Byte.to_N b <? 128)%N
      then Str (Byte.to_N b) <$> str_of_bytes bs'
      else None
  end.

Fixpoint bytes_of_str (s : str) : option (list Byte.byte) :=
  match s with
  | EmptyStr => Some []
  | Str c s' =>
      if (c <? 128)%N
      then match Byte.of_N c, bytes_of_str s' with
           | Some b, Some bs => Some (b :: bs)
           | _, _ => None
           end
      else None
  end.

Declare Scope str_scope.
Delimit Scope str_scope with str.
Bind Scope str_scope with str.
String Notation str str_of_bytes bytes_of_str : str_scope.
Local Open Scope str_scope.

#[global] Instance str_eq_dec : EqDecision str.
Proof. solve_decision. Defined.

Module PyStr.

(** [s == t] *)
Fixpoint eqb (s t : str) : bool :=
  match s, t with
  | EmptyStr, EmptyStr => true
  | Str c s', Str d t' => (c =? d)%N && eqb s' t'
  | _, _ => false
  end.

(** [len(s)], [list(s)] as code points, and [s + t]. *)
Fixpoint length (s : str) : nat :=
  match s with
  | EmptyStr => O
  | Str _ s' => S (length s')
  end.

Fixpoint codes (s : str) : list N :=
  match s with
  | EmptyStr => []
  | Str c s' => c :: codes s'
  end.

Fixpoint append (s t : str) : str :=
  match s with
  | EmptyStr => t
  | Str c s' => Str c (append s' t)
  end.

(** [sep.join(ss)] *)
Fixpoint join (sep : str) (ss : list str) : str :=
  match ss with
  | [] => EmptyStr
  | [s] => s
  | s :: ss' => append s (append sep (join sep ss'))
  end.

(** The code points for which [str.isspace] holds, which are those that
    [str.strip] removes: TAB..CR, FS..US, SPACE, NEL, NO-BREAK SPACE and the
    spaces and separators beyond Latin-1. *)
Definition isspace (c : N) : bool :=
  let n := Z.of_N c in
  ((9 <=? n) && (n <=? 13)) || ((28 <=? n) && (n <=? 32)) ||
  (n =? 133) || (n =? 160) || (n =? 5760) ||
  ((8192 <=? n) && (n <=? 8202)) || (n =? 8232) || (n =? 8233) ||
  (n =? 8239) || (n =? 8287) || (n =? 12288).

Fixpoint lstrip (s : str) : str :=
  match s with
  | EmptyStr => EmptyStr
  | Str c s' => if isspace c then lstrip s' else s
  end.

Fixpoint rstrip (s : str) : str :=
  match s with
  | EmptyStr => EmptyStr
  | Str c s' =>
      match rstrip s' with
      | EmptyStr => if isspace c then EmptyStr else Str c EmptyStr
      | r => Str c r
      end
  end.

(** [s.strip()] *)
Definition strip (s : str) : str := rstrip (lstrip s).

(** [s.split(sep)] for a one-character separator: always at least one piece. *)
Fixpoint split (sep : N) (s : str) : list str :=
  match s with
  | EmptyStr => [EmptyStr]
  | Str c s' =>
      if (c =? sep)%N then EmptyStr :: split sep s'
      else match split sep s' with
           | p :: ps => Str c p :: ps
           | [] => [Str c EmptyStr]
           end
  end.

Definition comma : N := 44.
Definition underscore : N := 95.

(** The code points of value zero of the decimal digits (category Nd); the
    nine that follow each are the digits one to nine. *)
Definition zeros : list Z :=
  [48; 1632; 1776; 1984; 2406; 2534; 2662; 2790; 2918; 3046; 3174; 3302;
   3430; 3558; 3664; 3792; 3872; 4160; 4240; 6112; 6160; 6470; 6608; 6784;
   6800; 6992; 7088; 7232; 7248; 42528; 43216; 43264; 43472; 43504; 43600;
   44016; 65296; 66720; 68912; 69734; 69872; 69942; 70096; 70384; 70736;
   70864; 71248; 71360; 71472; 71904; 72016; 72784; 73040; 73120; 92768;
   92864; 93008; 120782; 120792; 120802; 120812; 120822; 123200; 123632;
   125264; 130032].

(** The value of a decimal digit, ASCII or not. *)
Definition decimal (c : N) : option Z :=
  let n := Z.of_N c in
  (fun z => n - z) <$> find (fun z => (z <=? n) && (n <=? z + 9)) zeros.

(** The white space that [int] skips at both ends: that of [str.isspace]
    less FS..US, which it leaves in place and then refuses. *)
Definition int_space (c : N) : bool :=
  let n := Z.of_N c in
  isspace c && negb ((28 <=? n) && (n <=? 31)).

Fixpoint skip_spaces (s : str) : str :=
  match s with
  | EmptyStr => EmptyStr
  | Str c s' => if int_space c then skip_spaces s' else s
  end.

(** The digits of a literal, up to its end or to the white space that ends
    it: the value read and the number of digits.  Single underscores may
    separate digits ([int("1_000") == 1000]); [after_digit] tells whether
    the previous character was a digit, which is what an underscore or the
    end needs. *)
Fixpoint digits (acc : Z) (count : nat) (after_digit : bool) (s : str) : option (Z * nat) :=
  match s with
  | EmptyStr => if after_digit then Some (acc, count) else None
  | Str c s' =>
      match decimal c with
      | Some d => digits (10 * acc + d) (S count) true s'
      | None =>
          if (c =? underscore)%N && after_digit then digits acc count false s'
          else if after_digit && forallb int_space (codes s) then Some (acc, count)
          else None
      end
  end.

(** [sys.int_info.default_max_str_digits]: a literal of more digits is
    refused. *)
Definition max_str_digits : nat := 4300.

Definition number (s : str) : option Z :=
  match digits 0 0 false s with
  | Some (n, count) => if (max_str_digits <? count)%nat then None else Some n
  | None => None
  end.

(** [int(s)] in base ten: [None] stands for [ValueError]. *)
Definition int (s : str) : option Z :=
  match skip_spaces s with
  | Str 43 r => number r
  | Str 45 r => Z.opp <$> number r
  | r => number r
  end.

(** A surrogate code point (U+D800..U+DFFF): no part of a text in UTF-8. *)
Definition surrogate (c : N) : bool :=
  let n := Z.of_N c in (55296 <=? n) && (n <=? 57343).

Fixpoint has_surrogate (s : str) : bool :=
  match s with
  | EmptyStr => false
  | Str c s' => surrogate c || has_surrogate s'
  end.

End PyStr.

(** A text as the terminal delivers it: a [str] without surrogates. *)
Record text : Set := Text {
  chars :> str;
  chars_decoded : PyStr.has_surrogate chars = false;
}.

(** The text of a [str]: the [str] itself when it holds no surrogate. *)
Definition text_of (s : str) : text :=
  match PyStr.has_surrogate s as b return PyStr.has_surrogate s = b -> text with
  | false => fun H => Text s H
  | true => fun _ => Text EmptyStr eq_refl
  end eq_refl.

(** What a call of [input()] finds on the terminal. *)
Inductive typed : Set :=
  | Line (t : text)    (* a line of text, without its newline *)
  | Undecodable.       (* bytes that are no UTF-8 *)

(** The lines of text that are typed, one for each [str]. *)
Definition typing (ss : list str) : list typed := (fun s => Line (text_of s)) <$> ss.

(** ** Values, objects and the world *)

(** A parsed JSON document, as [json.load] sees it.  A number is an [int]
    or a [float], the latter given by its IEEE 754 form. *)
Inductive json : Type :=
  | JNull
  | JBool (b : bool)
  | JInt (n : Z)
  | JFloat (x : spec_float)
  | JStr (s : str)
  | JArr (xs : list json)
  | JObj (kvs : list (str * json)).

(** Objects are designated by their position in the store. *)
Abbreviation loc := nat.

(** A Python value.  A dict is always an object of the store: [VRef a]. *)
Inductive value : Type :=
  | VNone
  | VBool (b : bool)
  | VInt (n : Z)
  | VFloat (x : spec_float)
  | VStr (s : str)
  | VList (xs : list value)
  | VRef (a : loc).

(** The contents of a dict object: its items in insertion order. *)
Abbreviation dict := (list (str * value)).

(** [d.get(k)] *)
Fixpoint dict_get (k : str) (d : dict) : option value :=
  match d with
  | [] => None
  | (k', v) :: d' => if PyStr.eqb k k' then Some v else dict_get k d'
  end.

(** [d[k] = v]: an existing key keeps its place, a new key goes last. *)
Fixpoint dict_set (k : str) (v : value) (d : dict) : dict :=
  match d with
  | [] => [(k, v)]
  | (k', v') :: d' =>
      if PyStr.eqb k k' then (k', v) :: d' else (k', v') :: dict_set k v d'
  end.

(** [list(d)]: the keys in insertion order. *)
Definition keys (d : dict) : list str := d.*1.

(** The exceptions the script can meet.  [DanglingRef] has no Python
    counterpart: it is what the model answers to a [VRef] that designates no
    object of the store, which no run of the script produces. *)
Inductive exn : Type :=
  | EOFError
  | KeyError
  | IndexError
  | TypeError
  | AttributeError
  | ValueError
  | JSONDecodeError
  | UnicodeDecodeError
  | UnicodeEncodeError
  | OSError
  | FileNotFoundError
  | CalledProcessError
  | SystemExit (code : Z)
  | DanglingRef.

Inductive result (A : Type) : Type :=
  | Val (a : A)
  | Exc (e : exn).
Arguments Val {A} a.
Arguments Exc {A} e.

Record world : Type := World {
  stdin : list typed;              (* what the coming calls of input() find *)
  store : list dict;               (* the dict objects *)
  config_file : option str;        (* text of config.json, [None] if absent *)
  writes : list str;               (* what each writing of config.json left in it *)
  commands : list (list str);      (* every argv that subprocess.run tried to run *)
}.

Definition with_stdin (ls : list typed) (w : world) : world :=
  World ls (store w) (config_file w) (writes w) (commands w).
Definition with_store (st : list dict) (w : world) : world :=
  World (stdin w) st (config_file w) (writes w) (commands w).

Definition with_commands (cs : list (list str)) (w : world) : world :=
  World (stdin w) (store w) (config_file w) (writes w) cs.

Definition M (A : Type) : Type := world -> result A * world.

Definition ret {A} (a : A) : M A := fun w => (Val a, w).
Definition raise {A} (e : exn) : M A := fun w => (Exc e, w).
Definition bind {A B} (m : M A) (k : A -> M B) : M B :=
  fun w => match m w with
           | (Val a, w') => k a w'
           | (Exc e, w') => (Exc e, w')
           end.

Declare Scope py_scope.
Delimit Scope py_scope with py.
Notation "x <- m ;; k" := (bind m (fun x => k))
  (at level 100, m at next level, right associativity) : py_scope.
Notation "m ;;; k" := (bind m (fun _ => k))
  (at level 100, right associativity) : py_scope.
Local Open Scope py_scope.

(** [try: body  except ...]: [handlers e] is the handler of the first
    [except] clause that matches [e], if any; an exception raised by a handler
    is not caught by its sibling clauses. *)
Definition try_except {A} (body : M A) (handlers : exn -> option (M A)) : M A :=
  fun w => match body w with
           | (Exc e, w') => match handlers e with
                            | Some h => h w'
                            | None => (Exc e, w')
                            end
           | r => r
           end.

(** One [except <classes>: handler] clause, the classes given as a test. *)
Definition except {A} (classes : exn -> bool) (handler : M A) : exn -> option (M A) :=
  fun e => if classes e then Some handler else None.

(** Exception classes named by the [except] clauses.  [JSONDecodeError],
    [UnicodeDecodeError] and [UnicodeEncodeError] are subclasses of
    [ValueError]. *)
Definition is_ValueError (e : exn) : bool :=
  match e with
  | ValueError | JSONDecodeError | UnicodeDecodeError | UnicodeEncodeError => true
  | _ => false
  end.
Definition is_IndexError (e : exn) : bool :=
  match e with IndexError => true | _ => false end.
Definition is_CalledProcessError (e : exn) : bool :=
  match e with CalledProcessError => true | _ => false end.
Definition is_FileNotFoundError (e : exn) : bool :=
  match e with FileNotFoundError => true | _ => false end.

(** [input(prompt)] for a prompt of fixed text: the next line, without its
    newline. *)
Definition input : M str :=
  fun w => match stdin w with
           | [] => (Exc EOFError, w)
           | Line t :: ls => (Val (chars t), with_stdin ls w)
           | Undecodable :: ls => (Exc UnicodeDecodeError, with_stdin ls w)
           end.

(** Reading and replacing the objects. *)
Definition get_store : M (list dict) := fun w => (Val (store w), w).
Definition put_store (st : list dict) : M unit :=
  fun w => (Val tt, with_store st w).

(** The dict object a value designates, for [x[k]]: subscripting anything
    but a dict with a string is a [TypeError]. *)
Definition as_dict (v : value) : M (loc * dict) :=
  match v with
  | VRef a => st <- get_store ;;
              match st !! a with
              | Some d => ret (a, d)
              | None => raise DanglingRef
              end
  | _ => raise TypeError
  end.

(** [v[k]] *)
Definition subscript (v : value) (k : str) : M value :=
  ad <- as_dict v ;;
  match dict_get k ad.2 with
  | Some x => ret x
  | None => raise KeyError
  end.

(** [v.get(k)]: only a dict has the method. *)
Definition dot_get (v : value) (k : str) : M (option value) :=
  match v with
  | VRef a => ad <- as_dict v ;; ret (dict_get k ad.2)
  | _ => raise AttributeError
  end.

(** [v[k] = x] *)
Definition assign (v : value) (k : str) (x : value) : M unit :=
  ad <- as_dict v ;;
  st <- get_store ;;
  put_store (<[ad.1 := dict_set k x ad.2]> st).

(** A new dict object. *)
Definition new_dict (d : dict) : M value :=
  st <- get_store ;;
  put_store (st ++ [d]) ;;;
  ret (VRef (length st)).

(** Truth value of an object, as [not v] and [if v] use it. *)
Definition truthy (st : list dict) (v : value) : bool :=
  match v with
  | VNone => false
  | VBool b => b
  | VInt n => negb (n =? 0)
  | VFloat x => match x with S754_zero _ => false | _ => true end
  | VStr s => negb (PyStr.eqb s "")
  | VList xs => match xs with [] => false | _ => true end
  | VRef a => match st !! a with Some [] => false | _ => true end
  end.

(** [for x in xs: body x] *)
Fixpoint for_each {A} (xs : list A) (body : A -> M unit) : M unit :=
  match xs with
  | [] => ret tt
  | x :: xs' => body x ;;; for_each xs' body
  end.

(** [[f x for x in xs]] *)
Fixpoint comprehension {A B} (f : A -> M B) (xs : list A) : M (list B) :=
  match xs with
  | [] => ret []
  | x :: xs' => y <- f x ;; ys <- comprehension f xs' ;; ret (y :: ys)
  end.

(** The elements a [for] loop over [v] visits: the items of a list, the
    one-character strings of a string, the keys of a dict. *)
Definition iterate (v : value) : M (list value) :=
  match v with
  | VList xs => ret xs
  | VStr s => ret ((fun c => VStr (Str c EmptyStr)) <$> PyStr.codes s)
  | VRef _ => ad <- as_dict v ;; ret (VStr <$> keys ad.2)
  | _ => raise TypeError
  end.

(** [len(v)] *)
Definition len (v : value) : M Z :=
  match v with
  | VList xs => ret (Z.of_nat (length xs))
  | VStr s => ret (Z.of_nat (PyStr.length s))
  | VRef _ => ad <- as_dict v ;; ret (Z.of_nat (length ad.2))
  | _ => raise TypeError
  end.

(** Position designated by a Python index [i] in a sequence of length [n]:
    a negative index counts from the end. *)
Definition position (n : nat) (i : Z) : option nat :=
  if (0 <=? i) && (i <? Z.of_nat n) then Some (Z.to_nat i)
  else if (- Z.of_nat n <=? i) && (i <? 0) then Some (Z.to_nat (i + Z.of_nat n))
  else None.

(** [v[i]] for an integer [i].  A string gives a one-character string; a
    dict of this model has string keys only, so an integer is a missing key. *)
Definition index (v : value) (i : Z) : M value :=
  match v with
  | VList xs =>
      match position (length xs) i ≫= (xs !!.) with
      | Some x => ret x
      | None => raise IndexError
      end
  | VStr s =>
      match position (PyStr.length s) i ≫= (PyStr.codes s !!.) with
      | Some c => ret (VStr (Str c EmptyStr))
      | None => raise IndexError
      end
  | VRef _ => _ <- as_dict v ;; raise KeyError
  | _ => raise TypeError
  end.

(** ** The functions of config.py that edit the list *)

Definition default_icon : str := "fas fa-link".

(** Whether [print] can write [str(v)] to the terminal, which takes UTF-8:
    a [str] must hold no surrogate; the text of any other value is ASCII but
    for the strings in it, and those are shown by [repr], which escapes
    surrogates. *)
Definition encodable (v : value) : bool :=
  match v with
  | VStr s => negb (PyStr.has_surrogate s)
  | _ => true
  end.

(** [print(f"...{v}...")], for the values [vs] shown among fixed text. *)
Definition print (vs : list value) : M unit :=
  if forallb encodable vs then ret tt else raise UnicodeEncodeError.

(** [display_current_links(config)] *)
Definition display_current_links (config : value) : M unit :=
  links <- dot_get config "links" ;;
  st <- get_store ;;
  if negb (from_option (truthy st) false links) then ret tt
  else
    links <- subscript config "links" ;;
    items <- iterate links ;;
    for_each items (fun link =>
      name <- subscript link "name" ;;
      print [name] ;;;
      url <- subscript link "url" ;;
      print [url] ;;;
      icon <- dot_get link "icon" ;;
      print [default (VStr default_icon) icon]).

(** [config["links"].append(x)]: the list object under "links" grows in
    place.  Only a list has [append]. *)
Definition links_append (config : value) (x : value) : M unit :=
  links <- subscript config "links" ;;
  match links with
  | VList xs => assign config "links" (VList (xs ++ [x]))
  | _ => raise AttributeError
  end.

(** [config["links"].pop(i)].  [dict.pop(i)] exists too and finds no integer
    key. *)
Definition links_pop (config : value) (i : Z) : M value :=
  links <- subscript config "links" ;;
  match links with
  | VList xs =>
      match position (length xs) i with
      | Some p =>
          match xs !! p with
          | Some x => assign config "links" (VList (delete p xs)) ;;; ret x
          | None => raise IndexError
          end
      | None => raise IndexError
      end
  | VRef _ => _ <- as_dict links ;; raise KeyError
  | _ => raise AttributeError
  end.

(** [int(s)] as a computation. *)
Definition int (s : str) : M Z :=
  match PyStr.int s with
  | Some n => ret n
  | None => raise ValueError
  end.

(** [input(prompt).strip()] *)
Definition stripped_input : M str :=
  s <- input ;; ret (PyStr.strip s).

(** [input(f"...{v}...").strip()]: the prompt is written before the line
    is read. *)
Definition stripped_input_showing (v : value) : M str :=
  print [v] ;;; stripped_input.

Definition add_new_link (config : value) : M bool :=
  name <- stripped_input ;;
  if PyStr.eqb name "" then ret false
  else
    url <- stripped_input ;;
    if PyStr.eqb url "" then ret false
    else
      icon <- stripped_input ;;
      let icon := if PyStr.eqb icon "" then default_icon else icon in
      new_link <- new_dict [("name", VStr name); ("url", VStr url); ("icon", VStr icon)] ;;
      links_append config new_link ;;;
      print [VStr name] ;;;
      ret true.

(** [if not config.get("links")] *)
Definition no_links (config : value) : M bool :=
  links <- dot_get config "links" ;;
  st <- get_store ;;
  ret (negb (from_option (truthy st) false links)).

(** [1 <= choice <= len(config["links"])]: the right-hand comparison is
    evaluated only when the left-hand one holds. *)
Definition valid_choice (config : value) (choice : Z) : M bool :=
  if 1 <=? choice then
    links <- subscript config "links" ;;
    n <- len links ;;
    ret (choice <=? n)
  else ret false.

Definition remove_link (config : value) : M bool :=
  empty <- no_links config ;;
  if empty then ret false
  else
    display_current_links config ;;;
    try_except
      (line <- input ;;
       choice <- int line ;;
       valid <- valid_choice config choice ;;
       if valid then
         removed <- links_pop config (choice - 1) ;;
         name <- subscript removed "name" ;;
         print [name] ;;;
         ret true
       else ret false)
      (except is_ValueError (ret false)).

Definition edit_link (config : value) : M bool :=
  empty <- no_links config ;;
  if empty then ret false
  else
    display_current_links config ;;;
    try_except
      (line <- input ;;
       choice <- int line ;;
       valid <- valid_choice config choice ;;
       if valid then
         links <- subscript config "links" ;;
         link <- index links (choice - 1) ;;
         name <- subscript link "name" ;;
         print [name] ;;;
         name <- subscript link "name" ;;
         new_name <- stripped_input_showing name ;;
         (if PyStr.eqb new_name "" then ret tt
          else assign link "name" (VStr new_name)) ;;;
         url <- subscript link "url" ;;
         new_url <- stripped_input_showing url ;;
         (if PyStr.eqb new_url "" then ret tt
          else assign link "url" (VStr new_url)) ;;;
         icon <- dot_get link "icon" ;;
         new_icon <- stripped_input_showing (default (VStr default_icon) icon) ;;
         (if PyStr.eqb new_icon "" then ret tt
          else assign link "icon" (VStr new_icon)) ;;;
         name <- subscript link "name" ;;
         print [name] ;;;
         ret true
       else ret false)
      (except is_ValueError (ret false)).

(** [set(order_indices) != set(range(n))] *)
Definition order_mismatch (order_indices : list Z) (n : Z) : bool :=
  negb (bool_decide ((list_to_set order_indices : gset Z) = list_to_set (seqZ 0 n))).

Definition reorder_links (config : value) : M bool :=
  empty <- no_links config ;;
  if empty then ret false
  else
    display_current_links config ;;;
    try_except
      (links <- subscript config "links" ;;
       _ <- len links ;;
       order_input <- stripped_input ;;
       order_indices <- comprehension
                          (fun i => k <- int (PyStr.strip i) ;; ret (k - 1))
                          (PyStr.split PyStr.comma order_input) ;;
       links <- subscript config "links" ;;
       n <- len links ;;
       if order_mismatch order_indices n then ret false
       else
         new_links <- comprehension
                        (fun i => links <- subscript config "links" ;; index links i)
                        order_indices ;;
         assign config "links" (VList new_links) ;;;
         ret true)
      (except (fun e => is_ValueError e || is_IndexError e) (ret false)).


(** ** Between JSON documents and objects *)

(** The objects [json.load] builds for a document: every JSON object becomes
    a new dict of the store.  [json] stands for the document as Python holds
    it, so the items of a [JObj] are those of the dict. *)
Fixpoint alloc (j : json) (st : list dict) : value * list dict :=
  match j with
  | JNull => (VNone, st)
  | JBool b => (VBool b, st)
  | JInt n => (VInt n, st)
  | JFloat x => (VFloat x, st)
  | JStr s => (VStr s, st)
  | JArr xs =>
      let '(vs, st') :=
        (fix alloc_items (xs : list json) (st : list dict) : list value * list dict :=
           match xs with
           | [] => ([], st)
           | x :: xs' =>
               let '(v, st1) := alloc x st in
               let '(vs, st2) := alloc_items xs' st1 in
               (v :: vs, st2)
           end) xs st in
      (VList vs, st')
  | JObj kvs =>
      let '(d, st') :=
        (fix alloc_fields (kvs : list (str * json)) (st : list dict) : dict * list dict :=
           match kvs with
           | [] => ([], st)
           | (k, x) :: kvs' =>
               let '(v, st1) := alloc x st in
               let '(d, st2) := alloc_fields kvs' st1 in
               ((k, v) :: d, st2)
           end) kvs st in
      (VRef (length st'), st' ++ [d])
  end.

(** The document [json.dump] writes for a value.  [fuel] bounds the number
    of dicts entered along one path: [None] when it runs out, which with
    [fuel] above the size of the store means a circular structure, or when a
    reference designates no object. *)
Fixpoint denote (fuel : nat) (st : list dict) (v : value) : option json :=
  match fuel with
  | O => None
  | S fuel' =>
      (fix walk (v : value) : option json :=
         match v with
         | VNone => Some JNull
         | VBool b => Some (JBool b)
         | VInt n => Some (JInt n)
         | VFloat x => Some (JFloat x)
         | VStr s => Some (JStr s)
         | VList xs =>
             JArr <$>
               (fix walk_items (xs : list value) : option (list json) :=
                  match xs with
                  | [] => Some []
                  | x :: xs' =>
                      match walk x, walk_items xs' with
                      | Some j, Some js => Some (j :: js)
                      | _, _ => None
                      end
                  end) xs
         | VRef a =>
             match st !! a with
             | None => None
             | Some d =>
                 JObj <$>
                   (fix walk_fields (d : dict) : option (list (str * json)) :=
                      match d with
                      | [] => Some []
                      | (k, x) :: d' =>
                          match denote fuel' st x, walk_fields d' with
                          | Some j, Some js => Some ((k, j) :: js)
                          | _, _ => None
                          end
                      end) d
             end
         end) v
  end.

(** The list parts of [alloc] and [denote], named. *)
Fixpoint alloc_items (xs : list json) (st : list dict) : list value * list dict :=
  match xs with
  | [] => ([], st)
  | x :: xs' =>
      let '(v, st1) := alloc x st in
      let '(vs, st2) := alloc_items xs' st1 in
      (v :: vs, st2)
  end.

Fixpoint alloc_fields (kvs : list (str * json)) (st : list dict) : dict * list dict :=
  match kvs with
  | [] => ([], st)
  | (k, x) :: kvs' =>
      let '(v, st1) := alloc x st in
      let '(d, st2) := alloc_fields kvs' st1 in
      ((k, v) :: d, st2)
  end.

Definition denote_items (den : value -> option json) : list value -> option (list json) :=
  fix walk_items (xs : list value) : option (list json) :=
    match xs with
    | [] => Some []
    | x :: xs' =>
        match den x, walk_items xs' with
        | Some j, Some js => Some (j :: js)
        | _, _ => None
        end
    end.

Definition denote_fields (den : value -> option json) : dict -> option (list (str * json)) :=
  fix walk_fields (d : dict) : option (list (str * json)) :=
    match d with
    | [] => Some []
    | (k, x) :: d' =>
        match den x, walk_fields d' with
        | Some j, Some js => Some ((k, j) :: js)
        | _, _ => None
        end
    end.

(** ** Files, git and the menu *)

(** What the system does with a command it is asked to start. *)
Inductive proc_result : Type :=
  | Completed        (* exit status 0 *)
  | NonZeroExit      (* [check=True] raises CalledProcessError *)
  | NotFound         (* no such program: FileNotFoundError *)
  | OSFailure.       (* the program cannot be started for another reason, as
                        with an argument longer than the system takes:
                        OSError, or a subclass of it other than
                        FileNotFoundError *)

(** What [subprocess.run(argv, check=True)] can come to: the answer of the
    system, or an argument refused before the system is asked. *)
Inductive run_result : Type :=
  | Ran (r : proc_result)
  | Unencodable      (* an argument that the file system encoding refuses:
                        UnicodeEncodeError *)
  | EmbeddedNull.    (* an argument with a NUL character: ValueError *)

Coercion Ran : proc_result >-> run_result.

(** The exception that [subprocess.run] raises for an outcome, and whether
    the system was asked: it is not for an argument refused. *)
Definition raised (r : run_result) : option exn :=
  match r with
  | Ran Completed => None
  | Ran NonZeroExit => Some CalledProcessError
  | Ran NotFound => Some FileNotFoundError
  | Ran OSFailure => Some OSError
  | Unencodable => Some UnicodeEncodeError
  | EmbeddedNull => Some ValueError
  end.

Definition tried (r : run_result) : bool :=
  match r with
  | Ran _ => true
  | Unencodable | EmbeddedNull => false
  end.

(** An argument is encoded for the system (UTF-8 with surrogateescape, which
    takes the surrogates U+DC80..U+DCFF and refuses the others) and may then
    hold no NUL; the first argument at fault decides. *)
Definition refused_by_fs (c : N) : bool :=
  let n := Z.of_N c in
  PyStr.surrogate c && negb ((56448 <=? n) && (n <=? 56575)).

Definition argument_error (arg : str) : option run_result :=
  if existsb refused_by_fs (PyStr.codes arg) then Some Unencodable
  else if existsb (fun c => (c =? 0)%N) (PyStr.codes arg) then Some EmbeddedNull
  else None.

Fixpoint argv_error (argv : list str) : option run_result :=
  match argv with
  | [] => None
  | arg :: argv' =>
      match argument_error arg with
      | Some r => Some r
      | None => argv_error argv'
      end
  end.

Section Script.

(** What lies outside the script: the JSON reader and writer of the standard
    library, the clock, and what the system does with a command given the
    commands run before it. *)
Variable json_loads : str -> option json.
Variable json_dumps : json -> str.
Variable strftime_now : str.
Variable subprocess_outcome : list (list str) -> list str -> proc_result.

Definition CONFIG_FILE : str := "config.json".

(** [open(CONFIG_FILE, 'r')] and reading the text. *)
Definition read_config_file : M str :=
  fun w => match config_file w with
           | Some text => (Val text, w)
           | None => (Exc FileNotFoundError, w)
           end.

(** [with open(CONFIG_FILE, 'w') as f: ...] leaving [text] in the file. *)
Definition write_config_file (text : str) : M unit :=
  fun w => (Val tt, World (stdin w) (store w) (Some text) (writes w ++ [text]) (commands w)).

(** [json.load(f)] *)
Definition json_load (text : str) : M value :=
  match json_loads text with
  | Some j =>
      st <- get_store ;;
      let '(v, st') := alloc j st in
      put_store st' ;;;
      ret v
  | None => raise JSONDecodeError
  end.

Definition load_config : M value :=
  try_except
    (text <- read_config_file ;;
     json_load text)
    (fun e => match e with
              | FileNotFoundError => Some (new_dict [("links", VList [])])
              | JSONDecodeError => Some (raise (SystemExit 1))
              | _ => None
              end).

(** [save_config(config)].  [json.dump] raises [ValueError] on a circular
    structure, after the file was opened for writing; what it has written by
    then is not modelled, the file is shown empty. *)
Definition save_config (config : value) : M unit :=
  st <- get_store ;;
  match denote (S (length st)) st config with
  | Some j => write_config_file (json_dumps j)
  | None => write_config_file "" ;;; raise ValueError
  end.

(** What [subprocess.run(argv, check=True)] comes to after the commands
    [h]: the arguments are looked at first, then the system has its say. *)
Definition run_outcome (h : list (list str)) (argv : list str) : run_result :=
  match argv_error argv with
  | Some r => r
  | None => subprocess_outcome h argv
  end.

(** [subprocess.run(argv, check=True)] *)
Definition subprocess_run (argv : list str) : M unit :=
  fun w =>
    let r := run_outcome (commands w) argv in
    let w' := if tried r then with_commands (commands w ++ [argv]) w else w in
    match raised r with
    | None => (Val tt, w')
    | Some e => (Exc e, w')
    end.

Definition default_commit_msg : str :=
  PyStr.append "Update Vantal Links configuration - " strftime_now.

Definition git_operations : M bool :=
  status <- try_except
              (subprocess_run ["git"; "status"] ;;; ret true)
              (except (fun e => is_CalledProcessError e || is_FileNotFoundError e)
                      (ret false)) ;;
  if negb status then ret false
  else
    commit_msg <- stripped_input ;;
    let commit_msg := if PyStr.eqb commit_msg "" then default_commit_msg else commit_msg in
    try_except
      (subprocess_run ["git"; "add"; CONFIG_FILE] ;;;
       subprocess_run ["git"; "commit"; "-m"; commit_msg] ;;;
       subprocess_run ["git"; "push"] ;;;
       ret true)
      (except is_CalledProcessError (ret false)).

(** [if op(config): save_config(config)] *)
Definition save_if (op : M bool) (config : value) : M unit :=
  ok <- op ;;
  if ok then save_config config else ret tt.

(** One round of the [while True] loop of [main_menu]; [false] is [break]. *)
Definition menu_round (config : value) : M bool :=
  links <- dot_get config "links" ;;
  _ <- len (default (VList []) links) ;;
  choice <- stripped_input ;;
  continue <-
    (if PyStr.eqb choice "1" then display_current_links config ;;; ret true
     else if PyStr.eqb choice "2" then save_if (add_new_link config) config ;;; ret true
     else if PyStr.eqb choice "3" then save_if (edit_link config) config ;;; ret true
     else if PyStr.eqb choice "4" then save_if (remove_link config) config ;;; ret true
     else if PyStr.eqb choice "5" then save_if (reorder_links config) config ;;; ret true
     else if PyStr.eqb choice "6" then save_config config ;;; ret true
     else if PyStr.eqb choice "7" then
       save_config config ;;;
       _ <- git_operations ;;
       ret true
     else if PyStr.eqb choice "8" then ret false
     else ret true) ;;
  if continue then _ <- input ;; ret true else ret false.

(** The loop, unrolled at most [fuel] times; [None] when that is not enough. *)
Fixpoint menu_loop (fuel : nat) (config : value) (w : world) : option (result unit * world) :=
  match fuel with
  | O => None
  | S fuel' =>
      match menu_round config w with
      | (Val true, w') => menu_loop fuel' config w'
      | (Val false, w') => Some (Val tt, w')
      | (Exc e, w') => Some (Exc e, w')
      end
  end.

Definition main_menu (fuel : nat) (w : world) : option (result unit * world) :=
  match load_config w with
  | (Val config, w') => menu_loop fuel config w'
  | (Exc e, w') => Some (Exc e, w')
  end.

(** The [if __name__ == "__main__":] block: a missing config.json is
    created with no links, then the menu runs. *)
Definition script (fuel : nat) (w : world) : option (result unit * world) :=
  match config_file w with
  | Some _ => main_menu fuel w
  | None =>
      main_menu fuel
        (snd (write_config_file (json_dumps (JObj [("links", JArr [])])) w))
  end.

End Script.

(** ** Vocabulary of the properties *)

(** The list under "links" of the configuration, when there is one. *)
Definition links_of (st : list dict) (config : value) : option (list value) :=
  match config with
  | VRef c =>
      match st !! c with
      | Some d =>
          match dict_get "links" d with
          | Some (VList items) => Some items
          | _ => None
          end
      | None => None
      end
  | _ => None
  end.

(** A list item the wizard can show: a dict with a name and a URL. *)
Definition is_link (st : list dict) (v : value) : bool :=
  match v with
  | VRef a =>
      match st !! a with
      | Some r => bool_decide (is_Some (dict_get "name" r))
                  && bool_decide (is_Some (dict_get "url" r))
      | None => false
      end
  | _ => false
  end.

(** A list item that the display shows in full: a dict with a name and a
    URL, whose name, URL and icon (the default when it has none) can be
    written to the terminal. *)
Definition shown (st : list dict) (v : value) : bool :=
  match v with
  | VRef a =>
      match st !! a with
      | Some r =>
          match dict_get "name" r, dict_get "url" r with
          | Some name, Some url =>
              encodable name && encodable url &&
              encodable (default (VStr default_icon) (dict_get "icon" r))
          | _, _ => false
          end
      | None => false
      end
  | _ => false
  end.

(** Neither a list nor a dict. *)
Definition is_scalar (v : value) : bool :=
  match v with
  | VList _ | VRef _ => false
  | _ => true
  end.

(** A record without nesting: a dict whose fields are all scalars. *)
Definition is_flat_record (st : list dict) (v : value) : bool :=
  match v with
  | VRef a =>
      match st !! a with
      | Some r => forallb (fun kv => is_scalar kv.2) r
      | None => false
      end
  | _ => false
  end.

(** "links" is a list, and each of its items is a flat record. *)
Definition flat_links (st : list dict) (config : value) : bool :=
  match links_of st config with
  | Some items => forallb (is_flat_record st) items
  | None => false
  end.

(** Every object of [st] is still there in [st'], its fields in the same
    order, new fields if any coming after them. *)
Definition fields_kept (st st' : list dict) : Prop :=
  forall a r, st !! a = Some r ->
    exists r', st' !! a = Some r' /\ keys r `prefix_of` keys r'.

(** The record that [add_new_link] builds from the three lines entered. *)
Definition new_record (name url icon : str) : dict :=
  [("name", VStr (PyStr.strip name)); ("url", VStr (PyStr.strip url));
   ("icon", VStr (if PyStr.eqb (PyStr.strip icon) "" then default_icon
                  else PyStr.strip icon))].

(** What an entry at an edit prompt does to a field. *)
Definition entered (k : str) (line : str) (r : dict) : dict :=
  if PyStr.eqb (PyStr.strip line) "" then r
  else dict_set k (VStr (PyStr.strip line)) r.

(** [r'] is [r] after some assignments to fields of stripped lines that are
    not empty. *)
Inductive edited : dict -> dict -> Prop :=
  | edited_refl r : edited r r
  | edited_assign r r1 k (line : text) :
      PyStr.strip line <> "" ->
      edited r r1 -> edited r (dict_set k (VStr (PyStr.strip line)) r1).

(** What each function may do to the store, whatever way it ends. *)
Definition add_effect (config : value) (st st' : list dict) : Prop :=
  st' = st \/
  exists name url icon : text,
    st' = st ++ [new_record name url icon] \/
    exists c d items,
      config = VRef c /\ st !! c = Some d /\ dict_get "links" d = Some (VList items) /\
      st' = <[c := dict_set "links" (VList (items ++ [VRef (length st)])) d]>
              (st ++ [new_record name url icon]).

Definition edit_effect (config : value) (st st' : list dict) : Prop :=
  st' = st \/
  exists a r r',
    st !! a = Some r /\
    (forall items, links_of st config = Some items -> VRef a ∈ items) /\
    edited r r' /\
    st' = <[a := r']> st.

Definition relink_effect (config : value) (st st' : list dict) : Prop :=
  st' = st \/
  exists c d items',
    config = VRef c /\ st !! c = Some d /\
    (forall items, dict_get "links" d = Some (VList items) -> items' ⊆ items) /\
    st' = <[c := dict_set "links" (VList items') d]> st.

(** What holds when [remove_link] or [reorder_links] ends: a [False] answer
    goes with an unchanged store. *)
Definition relink_post (config : value) (w : world) (r : result bool) (w' : world) : Prop :=
  (r = Val false -> store w' = store w) /\ relink_effect config (store w) (store w').

(** The zero-based indices that [reorder_links] reads from the line typed,
    [None] when a piece is no integer. *)
Definition entered_order (line : str) : option (list Z) :=
  mapM (fun piece => (fun k => k - 1) <$> PyStr.int (PyStr.strip piece))
       (PyStr.split PyStr.comma (PyStr.strip line)).

(** The items at the given positions, in that order. *)
Definition picked (items : list value) (order : list Z) : list value :=
  omap (fun i => items !! Z.to_nat i) order.

(** The four git commands of the script, in order. *)
Definition git_status : list str := ["git"; "status"].
Definition git_add : list str := ["git"; "add"; CONFIG_FILE].
Definition git_commit (msg : str) : list str := ["git"; "commit"; "-m"; msg].
Definition git_push : list str := ["git"; "push"].

(** The message [git_operations] commits with, for the line typed. *)
Definition commit_message (strftime_now : str) (line : str) : str :=
  if PyStr.eqb (PyStr.strip line) "" then default_commit_msg strftime_now
  else PyStr.strip line.

(** The three steps that follow the status check. *)
Definition git_steps (msg : str) : list (list str) :=
  [git_add; git_commit msg; git_push].

(** What the [i]-th step does when the steps before it have been run after
    the commands [h]. *)
Definition step_outcome (subprocess_outcome : list (list str) -> list str -> proc_result)
    (h : list (list str)) (msg : str) (i : nat) : run_result :=
  match git_steps msg !! i with
  | Some argv =>
      run_outcome subprocess_outcome (h ++ git_status :: take i (git_steps msg)) argv
  | None => Completed
  end.

(** How a step that did not complete ends [git_operations]: with [False]
    for a non-zero exit status, which the function catches, and with the
    exception itself otherwise. *)
Definition step_failure (e : exn) : result bool :=
  if is_CalledProcessError e then Val false else Exc e.

(** The text [save_config] leaves in config.json for the objects [st]. *)
Definition dump_text (json_dumps : json -> str) (config : value) (st : list dict) : str :=
  match denote (S (length st)) st config with
  | Some j => json_dumps j
  | None => ""
  end.

(** From [w] to [w'] config.json was written exactly once, with the
    configuration as the objects [st] give it. *)
Definition saved_once (json_dumps : json -> str) (config : value) (st : list dict)
    (w w' : world) : Prop :=
  writes w' = writes w ++ [dump_text json_dumps config st] /\
  config_file w' = Some (dump_text json_dumps config st).

(** The way [edit_link] leaves a field: as entered, or as it was when the
    entry is empty. *)
Definition field_after (line : str) (old : option value) : option value :=
  if PyStr.eqb (PyStr.strip line) "" then old else Some (VStr (PyStr.strip line)).

(** Outcome and world after running [m]. *)
Definition outcome {A} (m : M A) (w : world) : result A := (m w).1.
Definition after {A} (m : M A) (w : world) : world := (m w).2.

(** Running [m] takes every world to one that [R] relates to it. *)
Definition preserves (R : relation world) {A} (m : M A) : Prop :=
  forall w, R w (after m w).

(** config.json is as it was. *)
Definition same_files : relation world :=
  fun w w' => config_file w' = config_file w /\ writes w' = writes w.

(** No line was put back on the input. *)
Definition fewer_lines : relation world :=
  fun w w' => (length (stdin w') <= length (stdin w))%nat.

(** [m] leaves config.json alone. *)
Definition keeps_files {A} (m : M A) : Prop := preserves same_files m.

(** [wp m w Q]: running [m] in [w] ends in an outcome and a world that
    satisfy [Q]. *)
Definition wp {A} (m : M A) (w : world) (Q : result A -> world -> Prop) : Prop :=
  Q (m w).1 (m w).2.

(** After an edit run in [w1]: from [w] to [w'] the file is written if and
    only if the edit returned [True]. *)
Definition written_iff_true (json_dumps : json -> str) (config : value) (op : M bool)
    (w1 w w' : world) : Prop :=
  (outcome op w1 = Val true ->
     saved_once json_dumps config (store (after op w1)) w w') /\
  (outcome op w1 <> Val true -> writes w' = writes w).

(** [alloc] only adds objects, and what it returns reads back as the
    document, in any larger store, with fuel above the number of objects
    it added. *)
Definition reads_back (j : json) (st : list dict) (v : value) (st' : list dict) : Prop :=
  exists ext,
    st' = st ++ ext /\
    forall more fuel, (length ext < fuel)%nat ->
      denote fuel (st ++ ext ++ more) v = Some j.

(** ** Sample data *)

Definition link (name url icon : str) : dict :=
  [("name", VStr name); ("url", VStr url); ("icon", VStr icon)].

(** Two links, and the configuration that lists them. *)
Definition sample_store : list dict :=
  [link "Docs" "https://docs.example" "fas fa-book";
   link "Blog" "https://blog.example" "fas fa-pen";
   [("links", VList [VRef 0%nat; VRef 1%nat])]].

Definition sample_config : value := VRef 2%nat.

Definition sample_world (lines : list str) : world :=
  World (typing lines) sample_store None [] [].

(** A JSON reader and a JSON writer that know two documents. *)
Definition sample_loads (text : str) : option json :=
  if PyStr.eqb text "{}" then Some (JObj [])
  else if PyStr.eqb text "{links:[]}" then Some (JObj [("links", JArr [])])
  else None.

Definition sample_dumps (j : json) : str :=
  match j with
  | JObj [] => "{}"
  | JObj [("links", JArr [])] => "{links:[]}"
  | JObj _ => "{...}"
  | _ => "..."
  end.

(** git at hand, in a repository, where every command succeeds. *)
Definition git_fine (h : list (list str)) (argv : list str) : proc_result :=
  Completed.

(** No git. *)
Definition git_missing (h : list (list str)) (argv : list str) : proc_result :=
  NotFound.

(** git at hand for the status check, gone afterwards. *)
Definition git_vanishes (h : list (list str)) (argv : list str) : proc_result :=
  match h with
  | [] => Completed
  | _ => NotFound
  end.

(** A line that holds one NUL character, and a commit message of it. *)
Definition nul_line : text := text_of (Str 0 "").

(** A repository where the push is refused. *)
Definition push_refused (h : list (list str)) (argv : list str) : proc_result :=
  if bool_decide (argv = git_push) then NonZeroExit else Completed.



(** ** Vocabulary of the further properties *)

(** What a round of the menu does once the number of links is shown: it
    reads the choice, acts on it and, unless the choice is 8, waits for
    Enter ([main_menu], from [choice = input(...)] on). *)
Definition menu_choice (json_dumps : json -> str) (strftime_now : str)
    (subprocess_outcome : list (list str) -> list str -> proc_result)
    (config : value) : M bool :=
  choice <- stripped_input ;;
  continue <-
    (if PyStr.eqb choice "1" then display_current_links config ;;; ret true
     else if PyStr.eqb choice "2" then save_if json_dumps (add_new_link config) config ;;; ret true
     else if PyStr.eqb choice "3" then save_if json_dumps (edit_link config) config ;;; ret true
     else if PyStr.eqb choice "4" then save_if json_dumps (remove_link config) config ;;; ret true
     else if PyStr.eqb choice "5" then save_if json_dumps (reorder_links config) config ;;; ret true
     else if PyStr.eqb choice "6" then save_config json_dumps config ;;; ret true
     else if PyStr.eqb choice "7" then
       save_config json_dumps config ;;;
       _ <- git_operations strftime_now subprocess_outcome ;;
       ret true
     else if PyStr.eqb choice "8" then ret false
     else ret true) ;;
  if continue then _ <- input ;; ret true else ret false.

(** A field of the configuration that [json.dump] writes without surprise:
    a scalar, or a list of flat records. *)
Definition is_field (st : list dict) (v : value) : bool :=
  match v with
  | VList xs => forallb (is_flat_record st) xs
  | VRef _ => false
  | _ => true
  end.

(** A configuration as the wizard writes it: a dict of such fields, where
    "links" is a list of records that each have a name and a URL. *)
Definition wizard_config (st : list dict) (config : value) : bool :=
  match config with
  | VRef c =>
      match st !! c with
      | Some d =>
          forallb (fun kv => is_field st kv.2) d &&
          match dict_get "links" d with
          | Some (VList items) => forallb (is_link st) items
          | _ => false
          end
      | None => false
      end
  | _ => false
  end.

(** Such a configuration whose links the display can all show. *)
Definition shown_config (st : list dict) (config : value) : bool :=
  wizard_config st config &&
  match links_of st config with
  | Some items => forallb (shown st) items
  | None => false
  end.

(** A function ends with a result, or with one of the exceptions [es]. *)
Definition ends_with {A} (es : list exn) (r : result A) : Prop :=
  match r with
  | Val _ => True
  | Exc e => e ∈ es
  end.

(** The exceptions of a prompt that finds nothing it can read: the input is
    at its end, or what comes are bytes that do not decode. *)
Definition prompt_errors : list exn := [EOFError; UnicodeDecodeError].

(** The exceptions with which [git_operations] gives up a step that could
    not be started: no git program, a command that the system refuses, a
    commit message with a NUL character. *)
Definition git_errors : list exn := [FileNotFoundError; OSError; ValueError].

(** A run ends cleanly when it ends with a result, at a prompt, or because
    git could not be started. *)
Definition ends_cleanly {A} (r : result A) : Prop :=
  ends_with (prompt_errors ++ git_errors) r.

(** [m] keeps the configuration as the wizard writes and shows it, and ends
    cleanly. *)
Definition runs_cleanly (config : value) {A} (m : M A) : Prop :=
  forall w, shown_config (store w) config = true ->
    shown_config (store (after m w)) config = true /\ ends_cleanly (outcome m w).

(** The body of the loop of [display_current_links], for one item. *)
Definition show_link (link : value) : M unit :=
  name <- subscript link "name" ;;
  print [name] ;;;
  url <- subscript link "url" ;;
  print [url] ;;;
  icon <- dot_get link "icon" ;;
  print [default (VStr default_icon) icon].

(** On the side of the documents: a JSON value that is neither an array nor
    an object. *)
Definition json_scalar (j : json) : bool :=
  match j with
  | JArr _ | JObj _ => false
  | _ => true
  end.

(** [d.get(k)] and [d[k] = j] on the items of a JSON object, as [dict_get]
    and [dict_set]. *)
Fixpoint json_get (k : str) (kvs : list (str * json)) : option json :=
  match kvs with
  | [] => None
  | (k', j) :: kvs' => if PyStr.eqb k k' then Some j else json_get k kvs'
  end.

Fixpoint json_set (k : str) (j : json) (kvs : list (str * json)) : list (str * json) :=
  match kvs with
  | [] => [(k, j)]
  | (k', j') :: kvs' =>
      if PyStr.eqb k k' then (k', j) :: kvs' else (k', j') :: json_set k j kvs'
  end.

(** The array under "links" of a JSON object, empty when there is none. *)
Definition json_links (kvs : list (str * json)) : list json :=
  match json_get "links" kvs with
  | Some (JArr js) => js
  | _ => []
  end.

(** The JSON values that have no length: null, a boolean, a number. *)
Definition json_sizeless (j : json) : bool :=
  match j with
  | JNull | JBool _ | JInt _ | JFloat _ => true
  | _ => false
  end.

(** An object whose members are all scalars. *)
Definition json_record (j : json) : bool :=
  match j with
  | JObj kvs => forallb (fun kv => json_scalar kv.2) kvs
  | _ => false
  end.

(** An object with a "name" and a "url". *)
Definition json_link (j : json) : bool :=
  match j with
  | JObj kvs => bool_decide (is_Some (json_get "name" kvs))
                && bool_decide (is_Some (json_get "url" kvs))
  | _ => false
  end.

(** A member as the wizard handles it: a scalar, or an array of records. *)
Definition json_field (j : json) : bool :=
  match j with
  | JArr xs => forallb json_record xs
  | JObj _ => false
  | _ => true
  end.

(** The documents of the form [{"links": [{"name": .., "url": .., ..}, ..], ..}]:
    an object whose members are scalars or arrays of records, "links" being
    an array of records with a name and a URL. *)
Definition wizard_document (j : json) : bool :=
  match j with
  | JObj kvs =>
      forallb (fun kv => json_field kv.2) kvs &&
      match json_get "links" kvs with
      | Some (JArr xs) => forallb json_link xs
      | _ => false
      end
  | _ => false
  end.

(** A JSON value that can be printed once loaded, and a record that the
    display can show, as [encodable] and [shown]. *)
Definition json_encodable (j : json) : bool :=
  match j with
  | JStr s => negb (PyStr.has_surrogate s)
  | _ => true
  end.

Definition json_shown (j : json) : bool :=
  match j with
  | JObj kvs =>
      match json_get "name" kvs, json_get "url" kvs with
      | Some name, Some url =>
          json_encodable name && json_encodable url &&
          json_encodable (default (JStr default_icon) (json_get "icon" kvs))
      | _, _ => false
      end
  | _ => false
  end.

(** The documents of the form above whose links can all be shown: no name,
    URL or icon is a text with a surrogate (an escape such as \ud800 without
    its pair in the file). *)
Definition shown_document (j : json) : bool :=
  wizard_document j &&
  match j with
  | JObj kvs => forallb json_shown (json_links kvs)
  | _ => false
  end.

(** The document of a scalar, of a flat record, of a list item and of a
    field of the configuration; [document_of st d] is what [json.dump]
    writes for a configuration [d] of the kind above. *)
Definition json_of_scalar (v : value) : json :=
  match v with
  | VBool b => JBool b
  | VInt n => JInt n
  | VFloat x => JFloat x
  | VStr s => JStr s
  | _ => JNull
  end.

Definition json_of_record (r : dict) : json :=
  JObj ((fun kv => (kv.1, json_of_scalar kv.2)) <$> r).

Definition json_of_item (st : list dict) (v : value) : json :=
  match v with
  | VRef a => json_of_record (default [] (st !! a))
  | _ => JNull
  end.

Definition json_of_field (st : list dict) (v : value) : json :=
  match v with
  | VList xs => JArr (json_of_item st <$> xs)
  | _ => json_of_scalar v
  end.

Definition document_of (st : list dict) (d : dict) : json :=
  JObj ((fun kv => (kv.1, json_of_field st kv.2)) <$> d).

(** The record that [add_new_link] builds, as a document. *)
Definition new_record_json (name url icon : str) : json :=
  JObj [("name", JStr (PyStr.strip name)); ("url", JStr (PyStr.strip url));
        ("icon", JStr (if PyStr.eqb (PyStr.strip icon) "" then default_icon
                       else PyStr.strip icon))].

(** What an entry at an edit prompt does to a member of a record, as
    [entered]. *)
Definition json_entered (k : str) (line : str) (fs : list (str * json)) :
    list (str * json) :=
  if PyStr.eqb (PyStr.strip line) "" then fs
  else json_set k (JStr (PyStr.strip line)) fs.

(** A text as the wizard stores it: not empty, and without white space at
    either end. *)
Definition trimmed (v : option value) : Prop :=
  exists s, v = Some (VStr s) /\ s <> "" /\ PyStr.strip s = s.

(** The commands the script runs. *)
Definition git_command (argv : list str) : Prop :=
  argv = git_status \/ argv = git_add \/ (exists msg, argv = git_commit msg) \/
  argv = git_push.

(** From [w] to [w']: config.json, if it was there, still is, and what was
    run in between are git commands. *)
Definition wizard_footprint : relation world :=
  fun w w' =>
    (is_Some (config_file w) -> is_Some (config_file w')) /\
    exists cs, commands w' = commands w ++ cs /\ Forall git_command cs.

(** A JSON reader for which every file holds the document [j]. *)
Definition loads_as (j : json) (text : str) : option json := Some j.

(** A JSON writer that shows the names of the links, and nothing else. *)
Definition dumps_names (j : json) : str :=
  match j with
  | JObj kvs =>
      PyStr.join ","
        (omap (fun x => match x with
                        | JObj fs => match json_get "name" fs with
                                     | Some (JStr s) => Some s
                                     | _ => None
                                     end
                        | _ => None
                        end)
              (json_links kvs))
  | _ => ""
  end.



(** * Properties *)

(** ** Small checks of the string functions *)

Example strip_ex : PyStr.strip "  a b  " = "a b".
Proof. reflexivity. Qed.
Example split_ex : PyStr.split PyStr.comma "1,,2," = ["1"; ""; "2"; ""].
Proof. reflexivity. Qed.
Example int_ex : map PyStr.int [" 12 "; "-3"; "+0_7"; "1__0"; "_1"; "1_"; ""; "2.0"; "- 1"; "1 2"]
  = [Some 12; Some (-3); Some 7; None; None; None; None; None; None; None].
Proof. reflexivity. Qed.

(** A NO-BREAK SPACE is white space for [strip] and for [int]; FILE
    SEPARATOR is for [strip] only; the digits of other scripts count. *)
Example strip_no_break_space : PyStr.strip (Str 160 "a") = "a".
Proof. reflexivity. Qed.
Example int_no_break_space : PyStr.int (Str 160 "2") = Some 2.
Proof. reflexivity. Qed.
Example strip_file_separator : PyStr.strip (Str 28 "2") = "2".
Proof. reflexivity. Qed.
Example int_file_separator : PyStr.int (Str 28 "2") = None.
Proof. reflexivity. Qed.
Example int_fullwidth_digit : PyStr.int (Str 65298 "") = Some 2.
Proof. reflexivity. Qed.

(** 4300 digits are read, 4301 are refused. *)
Example int_max_str_digits :
  PyStr.int (Nat.iter 4299 (Str 48) "1") = Some 1 /\
  PyStr.int (Nat.iter 4300 (Str 48) "1") = None.
Proof. split; by vm_compute. Qed.

(** ** Equality of strings *)

Lemma str_eqb_spec s t : reflect (s = t) (PyStr.eqb s t).
Proof.
  revert t. induction s as [|c s IH]; intros [|d t]; simpl; try by constructor.
  destruct (N.eqb_spec c d) as [->|Hne]; simpl.
  - destruct (IH t) as [->|Hne]; constructor; congruence.
  - constructor. congruence.
Qed.

Lemma str_eqb_refl s : PyStr.eqb s s = true.
Proof. by destruct (str_eqb_spec s s). Qed.

Lemma str_eqb_eq s t : PyStr.eqb s t = true <-> s = t.
Proof. by destruct (str_eqb_spec s t). Qed.

Lemma str_eqb_neq s t : PyStr.eqb s t = false <-> s <> t.
Proof. by destruct (str_eqb_spec s t). Qed.

(** A text typed, stripped, can be shown. *)
Lemma rstrip_decoded s : PyStr.has_surrogate s = false -> PyStr.has_surrogate (PyStr.rstrip s) = false.
Proof.
  induction s as [|c s IH]; [done|]. cbn [PyStr.has_surrogate PyStr.rstrip].
  intros [Hc Hs]%orb_false_elim. specialize (IH Hs).
  destruct (PyStr.rstrip s) as [|c' r].
  - destruct (PyStr.isspace c); [done|]. simpl. by rewrite Hc.
  - cbn [PyStr.has_surrogate] in *. by rewrite Hc, IH.
Qed.

Lemma lstrip_decoded s : PyStr.has_surrogate s = false -> PyStr.has_surrogate (PyStr.lstrip s) = false.
Proof.
  induction s as [|c s IH]; [done|]. cbn [PyStr.has_surrogate PyStr.lstrip].
  intros H. destruct (PyStr.isspace c); [|done].
  apply orb_false_elim in H as [_ Hs]. by apply IH.
Qed.

Lemma encodable_strip (line : text) : encodable (VStr (PyStr.strip line)) = true.
Proof.
  unfold encodable, PyStr.strip.
  by rewrite rstrip_decoded by apply lstrip_decoded, chars_decoded.
Qed.

(** ** Rules for running a computation *)

Section Rules.
Context {A : Type}.
Implicit Types (w : world) (Q : result A -> world -> Prop).

Lemma wp_ret (a : A) w Q : Q (Val a) w -> wp (ret a) w Q.
Proof. done. Qed.

Lemma wp_raise e w Q : Q (Exc e) w -> wp (raise e) w Q.
Proof. done. Qed.

Lemma wp_bind {B} (m : M B) (k : B -> M A) w Q :
  wp m w (fun r w' => match r with
                      | Val b => wp (k b) w' Q
                      | Exc e => Q (Exc e) w'
                      end) ->
  wp (bind m k) w Q.
Proof. unfold wp, bind. by destruct (m w) as [[b|e] w']. Qed.

Lemma wp_try_except (body : M A) handlers w Q :
  wp body w (fun r w' => match r with
                         | Val a => Q (Val a) w'
                         | Exc e => match handlers e with
                                    | Some h => wp h w' Q
                                    | None => Q (Exc e) w'
                                    end
                         end) ->
  wp (try_except body handlers) w Q.
Proof.
  unfold wp, try_except. destruct (body w) as [[a|e] w']; [done|].
  simpl. by destruct (handlers e).
Qed.

Lemma wp_mono (m : M A) w Q Q' :
  (forall r w', Q r w' -> Q' r w') -> wp m w Q -> wp m w Q'.
Proof. unfold wp. auto. Qed.

End Rules.

Lemma wp_input w Q :
  match stdin w with
  | [] => Q (Exc EOFError) w
  | Line t :: ls => Q (Val (chars t)) (with_stdin ls w)
  | Undecodable :: ls => Q (Exc UnicodeDecodeError) (with_stdin ls w)
  end ->
  wp input w Q.
Proof. unfold wp, input. by destruct (stdin w) as [|[t|] ls]. Qed.

Lemma wp_print vs w Q :
  (if forallb encodable vs then Q (Val tt) w else Q (Exc UnicodeEncodeError) w) ->
  wp (print vs) w Q.
Proof. unfold wp, print. by destruct (forallb encodable vs). Qed.

Lemma wp_get_store w Q : Q (Val (store w)) w -> wp get_store w Q.
Proof. done. Qed.

Lemma wp_put_store st w Q : Q (Val tt) (with_store st w) -> wp (put_store st) w Q.
Proof. done. Qed.

(** One step of symbolic execution. *)
Ltac wp_step :=
  lazymatch goal with
  | |- wp (bind _ _) _ _ => apply wp_bind
  | |- wp (ret _) _ _ => apply wp_ret
  | |- wp (raise _) _ _ => apply wp_raise
  | |- wp (try_except _ _) _ _ => apply wp_try_except
  | |- wp input _ _ => apply wp_input
  | |- wp (print _) _ _ => apply wp_print
  | |- wp get_store _ _ => apply wp_get_store
  | |- wp (put_store _) _ _ => apply wp_put_store
  end; cbv beta iota.

(** The projections of a world, and the tests of the [except] clauses,
    computed. *)
Ltac wp_simpl :=
  cbn [stdin store config_file writes commands with_stdin with_store
       with_commands fst snd
       except is_ValueError is_IndexError is_CalledProcessError
       is_FileNotFoundError orb negb].

(** The operations on values, unfolded to the rules above. *)
Ltac wp_prim :=
  unfold stripped_input_showing, stripped_input, int, no_links, valid_choice,
    links_append, links_pop,
    new_dict, assign, subscript, dot_get, len, iterate, index, as_dict.

(** Execution up to the next choice. *)
Ltac wp_run := repeat (wp_step; wp_simpl).

(** Every path of the execution. *)
Ltac wp_all := repeat (wp_run; try case_match).

(** From a property of the run to its result, and from a known result to
    the property. *)
Lemma wp_eq {A} (m : M A) w r w' :
  wp m w (fun r0 w0 => r0 = r /\ w0 = w') -> m w = (r, w').
Proof. unfold wp. destruct (m w). simpl. by intros [-> ->]. Qed.

Lemma wp_from_run {A} (m : M A) w r w' Q : m w = (r, w') -> Q r w' -> wp m w Q.
Proof. unfold wp. by intros ->. Qed.

Lemma wp_from_eq {A} (m : M A) w x Q : m w = x -> Q x.1 x.2 -> wp m w Q.
Proof. unfold wp. by intros ->. Qed.

(** A computation that leaves the world as it is can end in any way. *)
Lemma wp_readonly {A} (m : M A) w Q :
  after m w = w -> (forall r, Q r w) -> wp m w Q.
Proof. unfold wp, after. intros -> HQ. apply HQ. Qed.

Ltac as_wp :=
  lazymatch goal with
  | |- after ?m ?w = ?w => change (wp m w (fun _ w' => w' = w))
  end.

(** ** Facts on dicts and on the store *)

#[local] Arguments PyStr.strip : simpl never.
#[local] Arguments PyStr.int : simpl never.

Lemma eqb_empty_false s : s <> "" -> PyStr.eqb s "" = false.
Proof. intros H. by apply str_eqb_neq. Qed.

Lemma dict_get_set_eq k v d : dict_get k (dict_set k v d) = Some v.
Proof.
  induction d as [|[k' v'] d IH]; simpl.
  - by rewrite str_eqb_refl.
  - destruct (PyStr.eqb k k') eqn:E; simpl; rewrite E; [done | apply IH].
Qed.

Lemma dict_get_set_ne k k' v d : k <> k' -> dict_get k' (dict_set k v d) = dict_get k' d.
Proof.
  intros Hne. induction d as [|[k0 v0] d IH]; simpl.
  - destruct (PyStr.eqb k' k) eqn:E; [|done].
    apply str_eqb_eq in E. congruence.
  - destruct (PyStr.eqb k k0) eqn:E; simpl.
    + apply str_eqb_eq in E. subst k0.
      destruct (PyStr.eqb k' k) eqn:E'; [|done].
      apply str_eqb_eq in E'. congruence.
    + by rewrite IH.
Qed.

(** An assignment to a key that is there leaves the order of the keys as it
    was; a new key goes last. *)
Lemma keys_dict_set k v d :
  keys (dict_set k v d) =
    match dict_get k d with Some _ => keys d | None => keys d ++ [k] end.
Proof.
  unfold keys. induction d as [|[k' v'] d IH]; [done|].
  cbn [dict_set dict_get]. destruct (PyStr.eqb k k') eqn:E; [done|].
  rewrite !fmap_cons, IH. by destruct (dict_get k d).
Qed.

Lemma keys_dict_set_prefix k v d : keys d `prefix_of` keys (dict_set k v d).
Proof.
  rewrite keys_dict_set. destruct (dict_get k d); [done|].
  by apply prefix_app_r.
Qed.


(** ** add_new_link *)

Lemma encodable_stripped (line : text) : forallb encodable [VStr (PyStr.strip line)] = true.
Proof. cbn [forallb]. by rewrite encodable_strip. Qed.

Lemma add_new_link_empty_name config w (name : text) rest :
  stdin w = Line name :: rest -> PyStr.strip name = "" ->
  add_new_link config w = (Val false, with_stdin rest w).
Proof.
  intros Hin Hn. apply wp_eq. unfold add_new_link. wp_prim.
  wp_run. rewrite Hin. wp_run. rewrite Hn. by wp_run.
Qed.

Lemma add_new_link_empty_url config w (name url : text) rest :
  stdin w = Line name :: Line url :: rest ->
  PyStr.strip name <> "" -> PyStr.strip url = "" ->
  add_new_link config w = (Val false, with_stdin rest w).
Proof.
  intros Hin Hn Hu. apply wp_eq. unfold add_new_link. wp_prim.
  wp_run. rewrite Hin. wp_run. rewrite (eqb_empty_false _ Hn).
  wp_run. rewrite Hu. by wp_run.
Qed.

Lemma add_new_link_run c d items w (name url icon : text) rest :
  store w !! c = Some d -> dict_get "links" d = Some (VList items) ->
  stdin w = Line name :: Line url :: Line icon :: rest ->
  PyStr.strip name <> "" -> PyStr.strip url <> "" ->
  add_new_link (VRef c) w =
    (Val true,
     with_store
       (<[c := dict_set "links" (VList (items ++ [VRef (length (store w))])) d]>
          (store w ++ [new_record name url icon]))
       (with_stdin rest w)).
Proof.
  intros Hc Hl Hin Hn Hu. apply wp_eq.
  unfold add_new_link. wp_prim.
  wp_run. rewrite Hin. wp_run. rewrite (eqb_empty_false _ Hn).
  wp_run. rewrite (eqb_empty_false _ Hu). wp_run.
  rewrite (lookup_app_l_Some _ _ _ _ Hc). wp_run. rewrite Hl. wp_run.
  rewrite (lookup_app_l_Some _ _ _ _ Hc). wp_run.
  by rewrite encodable_stripped.
Qed.

Lemma links_of_inv st config items :
  links_of st config = Some items ->
  exists c d, config = VRef c /\ st !! c = Some d /\ dict_get "links" d = Some (VList items).
Proof.
  unfold links_of. intros H.
  destruct config as [| | | | | |c]; try done.
  destruct (st !! c) as [d|] eqn:Hc; [|done].
  destruct (dict_get "links" d) as [[| | | | |xs|]|] eqn:Hl; try done.
  injection H as <-. eauto.
Qed.

Lemma links_of_insert st c d items :
  st !! c = Some d ->
  links_of (<[c := dict_set "links" (VList items) d]> st) (VRef c) = Some items.
Proof.
  intros Hc. unfold links_of.
  rewrite list_lookup_insert_eq by (by eapply lookup_lt_Some).
  by rewrite dict_get_set_eq.
Qed.

(** What a successful [add_new_link] leaves behind: one more object, the new
    record, designated by the new last item of the list. *)
Lemma add_new_link_effect config items w (name url icon : text) rest :
  links_of (store w) config = Some items ->
  stdin w = Line name :: Line url :: Line icon :: rest ->
  PyStr.strip name <> "" -> PyStr.strip url <> "" ->
  let w' := after (add_new_link config) w in
  let a := length (store w) in
  outcome (add_new_link config) w = Val true /\
  stdin w' = rest /\
  links_of (store w') config = Some (items ++ [VRef a]) /\
  store w !! a = None /\
  store w' !! a = Some (new_record name url icon) /\
  (forall b, VRef b <> config -> b <> a -> store w' !! b = store w !! b).
Proof.
  intros Hl Hin Hn Hu.
  destruct (links_of_inv _ _ _ Hl) as (c & d & -> & Hc & Hd).
  cbv zeta. unfold outcome, after.
  rewrite (add_new_link_run c d items w name url icon rest) by done.
  wp_simpl. pose proof (lookup_lt_Some _ _ _ Hc) as Hlt.
  split_and!; [done|done| | | |].
  - apply links_of_insert. by apply lookup_app_l_Some.
  - by apply lookup_ge_None_2.
  - rewrite list_lookup_insert_ne by lia.
    by rewrite lookup_app_r, Nat.sub_diag by lia.
  - intros b Hb Hba. rewrite list_lookup_insert_ne by congruence.
    destruct (decide (b < length (store w))%nat).
    + by rewrite lookup_app_l.
    + rewrite !lookup_ge_None_2; [done|lia|]. rewrite length_app. simpl. lia.
Qed.

(** ** display_current_links *)

Lemma for_each_pure {A} (xs : list A) (body : A -> M unit) w :
  Forall (fun x => body x w = (Val tt, w)) xs ->
  for_each xs body w = (Val tt, w).
Proof.
  induction 1 as [|x xs Hx _ IH]; [done|].
  simpl. unfold bind. by rewrite Hx.
Qed.

Lemma forallb_elem_of {A} (f : A -> bool) (xs : list A) x :
  forallb f xs = true -> x ∈ xs -> f x = true.
Proof.
  intros H Hx. apply list_elem_of_In in Hx.
  by apply (proj1 (forallb_forall f xs) H).
Qed.

Lemma forallb_intro {A} (f : A -> bool) (xs : list A) :
  (forall x, x ∈ xs -> f x = true) -> forallb f xs = true.
Proof.
  intros H. apply forallb_forall. intros x Hx. by apply H, list_elem_of_In.
Qed.

Lemma is_link_inv st v :
  is_link st v = true ->
  exists a r n u, v = VRef a /\ st !! a = Some r /\
    dict_get "name" r = Some n /\ dict_get "url" r = Some u.
Proof.
  unfold is_link. destruct v as [| | | | | |a]; try done.
  destruct (st !! a) as [r|] eqn:Ha; [|done].
  intros [H1 H2]%andb_true_iff.
  apply bool_decide_eq_true_1 in H1 as [n Hn].
  apply bool_decide_eq_true_1 in H2 as [u Hu]. by exists a, r, n, u.
Qed.

Lemma no_links_run st_w config items :
  links_of (store st_w) config = Some items ->
  no_links config st_w = (Val (bool_decide (items = [])), st_w).
Proof.
  intros Hl. destruct (links_of_inv _ _ _ Hl) as (c & d & -> & Hc & Hd).
  apply wp_eq. wp_prim. wp_run. rewrite Hc. wp_run. rewrite Hd. simpl.
  by destruct items.
Qed.

Lemma shown_inv st v :
  shown st v = true ->
  exists a r n u, v = VRef a /\ st !! a = Some r /\
    dict_get "name" r = Some n /\ dict_get "url" r = Some u /\
    encodable n = true /\ encodable u = true /\
    encodable (default (VStr default_icon) (dict_get "icon" r)) = true.
Proof.
  unfold shown. destruct v as [| | | | | |a]; try done.
  destruct (st !! a) as [r|] eqn:Ha; [|done].
  destruct (dict_get "name" r) as [n|] eqn:Hn; [|done].
  destruct (dict_get "url" r) as [u|] eqn:Hu; [|done].
  intros [[H1 H2]%andb_true_iff H3]%andb_true_iff. by exists a, r, n, u.
Qed.

Lemma shown_is_link st v : shown st v = true -> is_link st v = true.
Proof.
  intros H. destruct (shown_inv _ _ H) as (a & r & n & u & -> & Ha & Hn & Hu & _).
  unfold is_link. rewrite Ha, Hn, Hu. done.
Qed.

(** One value shown: [print] goes through. *)
Lemma print_encodable v w : encodable v = true -> print [v] w = (Val tt, w).
Proof. intros H. unfold print. cbn [forallb]. by rewrite H. Qed.

(** After [print vs], when the value shown is known to go through. *)
Ltac printed H := cbn [forallb]; rewrite H; cbn [andb]; wp_run.

Lemma show_link_run st_w link :
  shown (store st_w) link = true -> show_link link st_w = (Val tt, st_w).
Proof.
  intros H. destruct (shown_inv _ _ H) as (a & r & n & u & -> & Ha & Hn & Hu & En & Eu & Ei).
  apply wp_eq. unfold show_link. wp_prim.
  wp_run. rewrite Ha. wp_run. rewrite Hn. wp_run. printed En.
  rewrite Ha. wp_run. rewrite Hu. wp_run. printed Eu.
  rewrite Ha. wp_run. by printed Ei.
Qed.

Lemma display_current_links_run w config items :
  links_of (store w) config = Some items ->
  forallb (shown (store w)) items = true ->
  display_current_links config w = (Val tt, w).
Proof.
  intros Hl Hall. destruct (links_of_inv _ _ _ Hl) as (c & d & -> & Hc & Hd).
  apply wp_eq. unfold display_current_links. fold show_link. wp_prim.
  wp_run. rewrite Hc. wp_run. rewrite Hd. simpl.
  destruct items as [|x items']; [by wp_run|]. set (items := x :: items') in *.
  simpl negb. cbv iota. wp_run. rewrite Hc. wp_run. rewrite Hd. wp_run.
  unfold wp. rewrite for_each_pure; [done|].
  apply Forall_forall. intros v Hv. apply show_link_run.
  by apply (forallb_elem_of _ _ _ Hall).
Qed.

Lemma with_store_id w : with_store (store w) w = w.
Proof. by destruct w. Qed.

Lemma position_in_range n i :
  0 <= i < Z.of_nat n -> position n i = Some (Z.to_nat i).
Proof.
  intros H. unfold position.
  assert (((0 <=? i) && (i <? Z.of_nat n)) = true) as ->; [|done].
  apply andb_true_iff. split; [apply Z.leb_le | apply Z.ltb_lt]; lia.
Qed.

Lemma is_Some_dict_get_set k k' v d :
  is_Some (dict_get k d) -> is_Some (dict_get k (dict_set k' v d)).
Proof.
  intros H. destruct (decide (k' = k)) as [->|Hne].
  - rewrite dict_get_set_eq. eauto.
  - by rewrite dict_get_set_ne.
Qed.

Lemma is_Some_dict_get_entered k k' line d :
  is_Some (dict_get k d) -> is_Some (dict_get k (entered k' line d)).
Proof.
  intros H. unfold entered. destruct (PyStr.eqb _ _); [done|].
  by apply is_Some_dict_get_set.
Qed.

(** ** remove_link *)

Lemma remove_link_run c d items w (line : text) rest k :
  store w !! c = Some d -> dict_get "links" d = Some (VList items) ->
  forallb (shown (store w)) items = true ->
  stdin w = Line line :: rest -> PyStr.int line = Some k ->
  1 <= k <= Z.of_nat (length items) ->
  remove_link (VRef c) w =
    (Val true,
     with_store
       (<[c := dict_set "links" (VList (delete (Z.to_nat (k - 1)) items)) d]> (store w))
       (with_stdin rest w)).
Proof.
  intros Hc Hd Hall Hin Hk Hr.
  assert (links_of (store w) (VRef c) = Some items) as Hl.
  { unfold links_of. by rewrite Hc, Hd. }
  assert (items <> []) as Hne by (intros ->; simpl in Hr; lia).
  apply wp_eq. unfold remove_link.
  wp_step. eapply wp_from_run; [by apply no_links_run|].
  rewrite bool_decide_eq_false_2 by done.
  wp_step. eapply wp_from_run; [by eapply display_current_links_run|].
  wp_prim. wp_run. rewrite Hin. wp_run. rewrite Hk. wp_run.
  assert ((1 <=? k) = true) as -> by (apply Z.leb_le; lia).
  wp_run. rewrite Hc. wp_run. rewrite Hd. wp_run.
  assert ((k <=? Z.of_nat (length items)) = true) as -> by (apply Z.leb_le; lia).
  wp_run. rewrite Hc. wp_run. rewrite Hd. wp_run.
  rewrite position_in_range by lia.
  destruct (lookup_lt_is_Some_2 items (Z.to_nat (k - 1))) as [x Hx]; [lia|].
  rewrite Hx. wp_run. rewrite Hc. wp_run.
  apply list_elem_of_lookup_2 in Hx as Hxin.
  apply (forallb_elem_of _ _ _ Hall) in Hxin.
  destruct (shown_inv _ _ Hxin) as (a & r & n & u & -> & Ha & Hn & Hu & En & _).
  pose proof (lookup_lt_Some _ _ _ Hc) as Hlt. wp_run.
  destruct (decide (a = c)) as [->|Hac].
  - rewrite list_lookup_insert_eq by done. wp_run.
    assert (r = d) as -> by congruence.
    rewrite dict_get_set_ne, Hn by done. wp_run. by printed En.
  - rewrite list_lookup_insert_ne by done. rewrite Ha. wp_run. rewrite Hn. wp_run.
    by printed En.
Qed.

Lemma remove_link_not_a_number config items w (line : text) rest :
  links_of (store w) config = Some items -> items <> [] ->
  forallb (shown (store w)) items = true ->
  stdin w = Line line :: rest -> PyStr.int line = None ->
  remove_link config w = (Val false, with_stdin rest w).
Proof.
  intros Hl Hne Hall Hin Hk.
  apply wp_eq. unfold remove_link.
  wp_step. eapply wp_from_run; [by apply no_links_run|].
  rewrite bool_decide_eq_false_2 by done.
  wp_step. eapply wp_from_run; [by eapply display_current_links_run|].
  wp_prim. wp_run. rewrite Hin. wp_run. rewrite Hk. by wp_run.
Qed.

Lemma valid_choice_out_of_range config items w k :
  links_of (store w) config = Some items ->
  ~ (1 <= k <= Z.of_nat (length items)) ->
  valid_choice config k w = (Val false, w).
Proof.
  intros Hl Hr. destruct (links_of_inv _ _ _ Hl) as (c & d & -> & Hc & Hd).
  apply wp_eq. wp_prim. destruct (1 <=? k) eqn:E1; [|by wp_run].
  apply Z.leb_le in E1.
  wp_run. rewrite Hc. wp_run. rewrite Hd. wp_run. split; [|done].
  f_equal. apply Z.leb_gt. lia.
Qed.

Lemma remove_link_out_of_range config items w (line : text) rest k :
  links_of (store w) config = Some items -> items <> [] ->
  forallb (shown (store w)) items = true ->
  stdin w = Line line :: rest -> PyStr.int line = Some k ->
  ~ (1 <= k <= Z.of_nat (length items)) ->
  remove_link config w = (Val false, with_stdin rest w).
Proof.
  intros Hl Hne Hall Hin Hk Hr.
  apply wp_eq. unfold remove_link.
  wp_step. eapply wp_from_run; [by apply no_links_run|].
  rewrite bool_decide_eq_false_2 by done.
  wp_step. eapply wp_from_run; [by eapply display_current_links_run|].
  unfold int. wp_run. rewrite Hin. wp_run. rewrite Hk. wp_run.
  eapply wp_from_run; [by eapply valid_choice_out_of_range|]. by wp_run.
Qed.

(** ** edit_link *)

(** [if new: link[k] = new], for a line typed at the prompt. *)
Lemma wp_entered a r k (line : str) w Q :
  store w !! a = Some r ->
  Q (Val tt) (with_store (<[a := entered k line r]> (store w)) w) ->
  wp (if PyStr.eqb (PyStr.strip line) "" then ret tt
      else assign (VRef a) k (VStr (PyStr.strip line))) w Q.
Proof.
  intros Ha HQ. unfold entered in HQ.
  destruct (PyStr.eqb (PyStr.strip line) "").
  - rewrite list_insert_id, with_store_id in HQ by done. by wp_run.
  - wp_prim. wp_run. rewrite Ha. by wp_run.
Qed.

Lemma dict_get_entered_eq k (line : str) r :
  dict_get k (entered k line r) = field_after line (dict_get k r).
Proof.
  unfold entered, field_after. destruct (PyStr.eqb (PyStr.strip line) ""); [done|].
  apply dict_get_set_eq.
Qed.

Lemma dict_get_entered_ne k k' (line : str) r :
  k <> k' -> dict_get k (entered k' line r) = dict_get k r.
Proof.
  intros Hne. unfold entered. destruct (PyStr.eqb (PyStr.strip line) ""); [done|].
  by apply dict_get_set_ne.
Qed.

(** A field that could be shown can be shown after an entry. *)
Lemma field_after_encodable (line : text) v :
  encodable v = true ->
  exists v', field_after line (Some v) = Some v' /\ encodable v' = true.
Proof.
  intros Hv. unfold field_after. destruct (PyStr.eqb (PyStr.strip line) "").
  - by exists v.
  - eexists. split; [done|]. apply encodable_strip.
Qed.

Lemma edit_link_run c d items w (line n1 n2 n3 : text) rest k a r :
  store w !! c = Some d -> dict_get "links" d = Some (VList items) ->
  forallb (shown (store w)) items = true ->
  stdin w = Line line :: Line n1 :: Line n2 :: Line n3 :: rest ->
  PyStr.int line = Some k ->
  1 <= k <= Z.of_nat (length items) ->
  items !! Z.to_nat (k - 1) = Some (VRef a) -> store w !! a = Some r ->
  edit_link (VRef c) w =
    (Val true,
     with_store
       (<[a := entered "icon" n3 (entered "url" n2 (entered "name" n1 r))]> (store w))
       (with_stdin rest w)).
Proof.
  intros Hc Hd Hall Hin Hk Hr Hx Ha.
  assert (links_of (store w) (VRef c) = Some items) as Hl.
  { unfold links_of. by rewrite Hc, Hd. }
  assert (items <> []) as Hne by (intros ->; simpl in Hr; lia).
  apply list_elem_of_lookup_2 in Hx as Hxin.
  apply (forallb_elem_of _ _ _ Hall) in Hxin.
  destruct (shown_inv _ _ Hxin) as (a' & r' & n & u & [= <-] & Ha' & Hn & Hu & En & Eu & Ei).
  assert (r' = r) as -> by congruence. clear Ha'.
  pose proof (lookup_lt_Some _ _ _ Ha) as Hlt.
  pose (r1 := entered "name" n1 r). pose (r2 := entered "url" n2 r1).
  pose (r3 := entered "icon" n3 r2).
  assert (dict_get "url" r1 = Some u) as Hu1.
  { unfold r1. by rewrite dict_get_entered_ne. }
  assert (dict_get "icon" r2 = dict_get "icon" r) as Hi2.
  { unfold r2, r1. by rewrite !dict_get_entered_ne. }
  assert (exists n', dict_get "name" r3 = Some n' /\ encodable n' = true) as (n' & Hn' & En').
  { unfold r3, r2, r1. rewrite !dict_get_entered_ne, dict_get_entered_eq, Hn by done.
    by apply field_after_encodable. }
  apply wp_eq. unfold edit_link.
  wp_step. eapply wp_from_run; [by apply no_links_run|].
  rewrite bool_decide_eq_false_2 by done.
  wp_step. eapply wp_from_run; [by eapply display_current_links_run|].
  cbv beta iota. wp_step. unfold int at 1. wp_run. rewrite Hin. wp_run. rewrite Hk. wp_run.
  unfold valid_choice, len, index.
  assert ((1 <=? k) = true) as -> by (apply Z.leb_le; lia).
  unfold subscript at 1, as_dict. wp_run. rewrite Hc. wp_run. rewrite Hd. wp_run.
  assert ((k <=? Z.of_nat (length items)) = true) as -> by (apply Z.leb_le; lia).
  unfold subscript at 1, as_dict. wp_run. rewrite Hc. wp_run. rewrite Hd. wp_run.
  rewrite position_in_range by lia. simpl. rewrite Hx. wp_run.
  unfold subscript at 1, as_dict. wp_run. rewrite Ha. wp_run. rewrite Hn. wp_run. printed En.
  unfold subscript at 1, as_dict. wp_run. rewrite Ha. wp_run. rewrite Hn. wp_run.
  unfold stripped_input_showing at 1, stripped_input at 1. wp_run. printed En.
  apply (wp_entered a r "name" n1); [done|]. wp_simpl. fold r1.
  unfold subscript at 1, as_dict. wp_run.
  rewrite list_lookup_insert_eq by done. wp_run. rewrite Hu1. wp_run.
  unfold stripped_input_showing at 1, stripped_input at 1. wp_run. printed Eu.
  apply (wp_entered a r1 "url" n2); wp_simpl; [by rewrite list_lookup_insert_eq|].
  rewrite list_insert_insert_eq. fold r2.
  unfold dot_get, as_dict. wp_run.
  rewrite list_lookup_insert_eq by done. wp_run.
  unfold stripped_input_showing at 1, stripped_input at 1. wp_run.
  rewrite Hi2. printed Ei.
  apply (wp_entered a r2 "icon" n3); wp_simpl; [by rewrite list_lookup_insert_eq|].
  rewrite list_insert_insert_eq. fold r3.
  unfold subscript, as_dict. wp_run.
  rewrite list_lookup_insert_eq by done. wp_run.
  rewrite Hn'. wp_run. by printed En'.
Qed.


(** ** Computations that only read *)

Lemma subscript_readonly v k w : after (subscript v k) w = w.
Proof. as_wp. wp_prim. by wp_all. Qed.

Lemma dot_get_readonly v k w : after (dot_get v k) w = w.
Proof. as_wp. wp_prim. by wp_all. Qed.

Lemma len_readonly v w : after (len v) w = w.
Proof. as_wp. wp_prim. by wp_all. Qed.

Lemma index_readonly v i w : after (index v i) w = w.
Proof. as_wp. wp_prim. by wp_all. Qed.

Lemma iterate_readonly v w : after (iterate v) w = w.
Proof. as_wp. wp_prim. by wp_all. Qed.

Lemma no_links_readonly config w : after (no_links config) w = w.
Proof. as_wp. wp_prim. by wp_all. Qed.

Lemma valid_choice_readonly config k w : after (valid_choice config k) w = w.
Proof. as_wp. wp_prim. by wp_all. Qed.

Lemma for_each_readonly {A} (xs : list A) (body : A -> M unit) w :
  (forall x w, after (body x) w = w) -> after (for_each xs body) w = w.
Proof.
  intros Hbody. induction xs as [|x xs IH]; [done|].
  unfold after in *. simpl. unfold bind.
  specialize (Hbody x w). destruct (body x w) as [[[]|e] w1]; simpl in *; by subst.
Qed.

Lemma print_readonly vs w : after (print vs) w = w.
Proof. unfold after, print. by destruct (forallb encodable vs). Qed.

Lemma show_link_readonly link w : after (show_link link) w = w.
Proof.
  as_wp. unfold show_link.
  wp_step. apply wp_readonly; [apply subscript_readonly|]. intros [v|e]; [|done].
  wp_step. apply wp_readonly; [apply print_readonly|]. intros [[]|e]; [|done].
  wp_step. apply wp_readonly; [apply subscript_readonly|]. intros [v'|e]; [|done].
  wp_step. apply wp_readonly; [apply print_readonly|]. intros [[]|e]; [|done].
  wp_step. apply wp_readonly; [apply dot_get_readonly|]. intros [v''|e]; [|done].
  apply wp_readonly; [apply print_readonly|]. done.
Qed.

Lemma display_current_links_readonly config w :
  after (display_current_links config) w = w.
Proof.
  as_wp.
  unfold display_current_links. fold show_link.
  wp_step. apply wp_readonly; [apply dot_get_readonly|]. intros [links|e]; [|done].
  wp_run. case_match; [by wp_run|].
  wp_step. apply wp_readonly; [apply subscript_readonly|]. intros [v|e]; [|done].
  wp_step. apply wp_readonly; [apply iterate_readonly|]. intros [items|e]; [|done].
  apply wp_readonly; [|done]. apply for_each_readonly. apply show_link_readonly.
Qed.

(** ** What the display shows *)

Lemma show_link_ok link w :
  outcome (show_link link) w = Val tt <-> shown (store w) link = true.
Proof.
  split; [|intros H; unfold outcome; by rewrite show_link_run].
  unfold show_link, subscript, dot_get, as_dict, print, bind, get_store, ret, raise,
    shown, outcome.
  destruct link as [| | | | | |a]; try (simpl; discriminate).
  destruct (store w !! a) as [r|] eqn:Ha; simpl; [|discriminate].
  destruct (dict_get "name" r) as [n|]; simpl; [|discriminate].
  destruct (encodable n); simpl; [|discriminate].
  rewrite Ha. simpl.
  destruct (dict_get "url" r) as [u|]; simpl; [|discriminate].
  destruct (encodable u); simpl; [|discriminate].
  rewrite Ha. simpl.
  by destruct (encodable (default (VStr default_icon) (dict_get "icon" r))).
Qed.

Lemma for_each_ok {A} (xs : list A) (body : A -> M unit) w :
  (forall x w, after (body x) w = w) ->
  outcome (for_each xs body) w = Val tt <->
  Forall (fun x => outcome (body x) w = Val tt) xs.
Proof.
  intros Hro. induction xs as [|x xs IH]; [by split|].
  rewrite Forall_cons, <- IH. unfold outcome in *. simpl. unfold bind.
  specialize (Hro x w). unfold after in Hro.
  destruct (body x w) as [[[]|e] w1]; simpl in *; subst; [tauto|].
  split; [discriminate|]. by intros [? _].
Qed.

(** When the display ends normally, every item of the list was shown. *)
Lemma display_current_links_ok config w items :
  links_of (store w) config = Some items ->
  outcome (display_current_links config) w = Val tt ->
  forallb (shown (store w)) items = true.
Proof.
  intros Hl Hok. destruct (links_of_inv _ _ _ Hl) as (c & d & -> & Hc & Hd).
  destruct items as [|x items']; [done|]. set (items := x :: items') in *.
  assert (display_current_links (VRef c) w = for_each items show_link w) as Hrun.
  { unfold display_current_links. fold show_link.
    unfold dot_get, subscript, iterate, as_dict, bind at 1 2 3 4 5 6, get_store, ret.
    rewrite Hc. simpl. rewrite Hd. simpl. unfold bind at 1 2 3. simpl.
    rewrite Hc. simpl. rewrite Hd. simpl. done. }
  unfold outcome in Hok. rewrite Hrun in Hok.
  apply for_each_ok in Hok; [|apply show_link_readonly].
  apply forallb_intro. intros y Hy. rewrite Forall_forall in Hok.
  by apply show_link_ok, Hok.
Qed.

Lemma display_current_links_spec config w :
  wp (display_current_links config) w (fun r w' =>
    w' = w /\
    (r = Val tt -> forall items, links_of (store w) config = Some items ->
       forallb (shown (store w)) items = true)).
Proof.
  unfold wp. split; [apply display_current_links_readonly|].
  intros Hok items Hl. by apply (display_current_links_ok config w items).
Qed.

(** ** What the editing functions may do to the store *)

Lemma edited_entered r r1 k (line : text) : edited r r1 -> edited r (entered k line r1).
Proof.
  intros H. unfold entered. destruct (str_eqb_spec (PyStr.strip line) ""); [done|].
  by apply edited_assign.
Qed.

Lemma subscript_spec v k w :
  wp (subscript v k) w (fun r w' =>
    w' = w /\
    match r with
    | Val x => exists a d, v = VRef a /\ store w !! a = Some d /\ dict_get k d = Some x
    | Exc e => is_ValueError e = false /\ is_IndexError e = false
    end).
Proof. wp_prim. wp_all; (split; [done|]); eauto. Qed.

Lemma dot_get_spec v k w :
  wp (dot_get v k) w (fun r w' =>
    w' = w /\
    match r with
    | Val x => exists a d, v = VRef a /\ store w !! a = Some d /\ x = dict_get k d
    | Exc e => is_ValueError e = false /\ is_IndexError e = false
    end).
Proof. wp_prim. wp_all; (split; [done|]); eauto. Qed.

Lemma index_spec v i w :
  wp (index v i) w (fun r w' =>
    w' = w /\
    match r with
    | Val x => forall items, v = VList items -> x ∈ items
    | Exc e => is_ValueError e = false
    end).
Proof.
  wp_prim. wp_all; (split; [done|]); try done; intros items [= <-].
  destruct (position _ _) as [p|]; [|done]. simpl in *.
  by eapply list_elem_of_lookup_2.
Qed.

Lemma subscript_links_of config w d c :
  config = VRef c -> store w !! c = Some d ->
  forall x items, dict_get "links" d = Some x ->
    links_of (store w) config = Some items -> x = VList items.
Proof.
  intros -> Hc x items Hx. unfold links_of. rewrite Hc, Hx.
  destruct x; by intros [= <-].
Qed.

Ltac unchanged :=
  lazymatch goal with
  | |- relink_post _ _ _ _ => unfold relink_post
  | |- _ => idtac
  end; wp_simpl; split; [done | by left].

(** A step that only reads or shows: the run goes on in the same world, or
    ends there with an exception, for which [tac] has to do. *)
Ltac wp_pure lem tac :=
  wp_step; apply wp_readonly; [apply lem|]; intros [?|?]; [|tac].

(** The statements of [edit_link] after a valid selection: whatever way
    they end, the selected record alone has changed, by assignments of
    stripped lines. *)
Lemma edit_link_selected config k w :
  wp (links <- subscript config "links" ;;
      link <- index links (k - 1) ;;
      name <- subscript link "name" ;;
      print [name] ;;;
      name <- subscript link "name" ;;
      new_name <- stripped_input_showing name ;;
      (if PyStr.eqb new_name "" then ret tt
       else assign link "name" (VStr new_name)) ;;;
      url <- subscript link "url" ;;
      new_url <- stripped_input_showing url ;;
      (if PyStr.eqb new_url "" then ret tt
       else assign link "url" (VStr new_url)) ;;;
      icon <- dot_get link "icon" ;;
      new_icon <- stripped_input_showing (default (VStr default_icon) icon) ;;
      (if PyStr.eqb new_icon "" then ret tt
       else assign link "icon" (VStr new_icon)) ;;;
      name <- subscript link "name" ;;
      print [name] ;;;
      ret true) w
    (fun _ w' => edit_effect config (store w) (store w')).
Proof.
  wp_step. eapply wp_mono; [|apply subscript_spec].
  intros [links|e] w1 [-> H]; [|by left].
  destruct H as (c & d & -> & Hc & Hd).
  wp_step. eapply wp_mono; [|apply index_spec].
  intros [link|e] w1 [-> H]; [|by left].
  wp_step. eapply wp_mono; [|apply subscript_spec].
  intros [n|e] w1 [-> H']; [|by left].
  destruct H' as (a & r & -> & Ha & Hn).
  assert (forall items, links_of (store w) (VRef c) = Some items -> VRef a ∈ items) as Hin.
  { intros items Hl. apply H.
    by apply (subscript_links_of (VRef c) w d c eq_refl Hc links items). }
  clear H. pose proof (lookup_lt_Some _ _ _ Ha) as Hlt.
  assert (forall r', edited r r' ->
            edit_effect (VRef c) (store w) (<[a := r']> (store w))) as Heff.
  { intros r' He. right. by exists a, r, r'. }
  wp_pure print_readonly ltac:(by left).
  wp_pure subscript_readonly ltac:(by left).
  unfold stripped_input_showing at 1, stripped_input at 1.
  wp_step. wp_pure print_readonly ltac:(by left). wp_run.
  destruct (stdin w) as [|[n1|] ls1]; wp_simpl; [by left| |by left]. wp_run.
  apply (wp_entered a r "name" n1); [done|]. wp_simpl.
  pose (r1 := entered "name" n1 r).
  assert (edited r r1) as He1 by apply edited_entered, edited_refl.
  wp_pure subscript_readonly ltac:(wp_simpl; by apply Heff).
  unfold stripped_input_showing at 1, stripped_input at 1.
  wp_step. wp_pure print_readonly ltac:(wp_simpl; by apply Heff). wp_run.
  destruct ls1 as [|[n2|] ls2]; wp_simpl; [by apply Heff| |by apply Heff]. wp_run.
  apply (wp_entered a r1 "url" n2); wp_simpl; [by apply list_lookup_insert_eq|].
  rewrite list_insert_insert_eq.
  pose (r2 := entered "url" n2 r1).
  assert (edited r r2) as He2 by by apply edited_entered.
  wp_pure dot_get_readonly ltac:(wp_simpl; by apply Heff).
  unfold stripped_input_showing at 1, stripped_input at 1.
  wp_step. wp_pure print_readonly ltac:(wp_simpl; by apply Heff). wp_run.
  destruct ls2 as [|[n3|] ls3]; wp_simpl; [by apply Heff| |by apply Heff]. wp_run.
  apply (wp_entered a r2 "icon" n3); wp_simpl; [by apply list_lookup_insert_eq|].
  rewrite list_insert_insert_eq.
  pose (r3 := entered "icon" n3 r2).
  assert (edited r r3) as He3 by by apply edited_entered.
  wp_pure subscript_readonly ltac:(wp_simpl; by apply Heff).
  wp_pure print_readonly ltac:(wp_simpl; by apply Heff).
  wp_run. by apply Heff.
Qed.

Lemma edit_link_spec config w :
  wp (edit_link config) w (fun _ w' => edit_effect config (store w) (store w')).
Proof.
  unfold edit_link.
  wp_pure no_links_readonly ltac:(by left).
  case_match; [wp_run; by left|].
  wp_pure display_current_links_readonly ltac:(by left).
  wp_run. destruct (stdin w) as [|[line|] ls] eqn:Hin; wp_simpl; [by left| |wp_run; by left].
  unfold int at 1. destruct (PyStr.int line) as [k|]; wp_run; [|by left].
  apply wp_readonly; [apply valid_choice_readonly|].
  intros [[]|e]; wp_simpl;
    [| wp_run; by left | destruct e; wp_simpl; wp_run; by left].
  eapply wp_mono; [|apply edit_link_selected].
  intros [b|e] w' Heff; wp_simpl; [done|].
  unfold except. by destruct (is_ValueError e); wp_run.
Qed.

Lemma links_pop_spec config i w :
  wp (links_pop config i) w (fun r w' =>
    match r with
    | Val x =>
        exists c d items p,
          config = VRef c /\ store w !! c = Some d /\
          dict_get "links" d = Some (VList items) /\ items !! p = Some x /\
          w' = with_store (<[c := dict_set "links" (VList (delete p items)) d]> (store w)) w
    | Exc e => w' = w /\ is_ValueError e = false
    end).
Proof.
  wp_prim. wp_all; simplify_eq; try done.
  eexists _, _, _, _. split_and!; try done.
Qed.

Lemma sublist_delete {A} (xs : list A) p : delete p xs ⊆ xs.
Proof.
  intros x Hx. apply list_elem_of_lookup in Hx as [i Hi].
  destruct (decide (i < p)%nat).
  - rewrite list_lookup_delete_lt in Hi by done. by eapply list_elem_of_lookup_2.
  - rewrite list_lookup_delete_ge in Hi by lia. by eapply list_elem_of_lookup_2.
Qed.

Lemma remove_link_spec config w :
  wp (remove_link config) w (relink_post config w).
Proof.
  unfold remove_link.
  wp_step. apply wp_readonly; [apply no_links_readonly|].
  intros [[]|e]; [wp_run; unchanged | | unchanged].
  wp_step. eapply wp_mono; [|apply display_current_links_spec].
  intros [[]|e] w1 [-> Hshown]; [|unchanged]. specialize (Hshown eq_refl).
  wp_run. destruct (stdin w) as [|[line|] ls] eqn:Hin; wp_simpl;
    [unchanged| |wp_run; unchanged].
  unfold int at 1. destruct (PyStr.int line) as [k|]; wp_run; [|unchanged].
  apply wp_readonly; [apply valid_choice_readonly|].
  intros [[]|e]; wp_simpl;
    [| wp_run; unchanged | destruct e; wp_simpl; wp_run; unchanged].
  wp_step. eapply wp_mono; [|apply links_pop_spec].
  intros [x|e] w'.
  - intros (c & d & items & p & -> & Hc & Hd & Hx & ->). wp_simpl.
    cbn [store with_stdin] in Hc.
    assert (relink_effect (VRef c) (store w)
              (<[c := dict_set "links" (VList (delete p items)) d]> (store w))) as Heff.
    { right. exists c, d, (delete p items). split_and!; try done.
      intros items' Hd'. assert (items' = items) as -> by congruence.
      apply sublist_delete. }
    assert (shown (store w) x = true) as Hsx.
    { eapply forallb_elem_of; [|by eapply list_elem_of_lookup_2].
      apply Hshown. unfold links_of. by rewrite Hc, Hd. }
    destruct (shown_inv _ _ Hsx) as (a & r & n & u & -> & Ha & Hn & Hu & En & _).
    pose proof (lookup_lt_Some _ _ _ Hc) as Hlt.
    unfold subscript, as_dict. wp_run.
    destruct (decide (a = c)) as [->|Hac].
    + rewrite list_lookup_insert_eq by done. wp_run.
      assert (r = d) as -> by congruence.
      rewrite dict_get_set_ne, Hn by done. wp_run. printed En. by split.
    + rewrite list_lookup_insert_ne by done. rewrite Ha. wp_run. rewrite Hn. wp_run.
      printed En. by split.
  - intros [-> H]. wp_simpl. unfold except. rewrite H. unchanged.
Qed.

Lemma comprehension_readonly {A B} (f : A -> M B) xs w :
  (forall x w, after (f x) w = w) -> after (comprehension f xs) w = w.
Proof.
  intros Hf. revert w. induction xs as [|x xs IH]; intros w; [done|].
  as_wp. simpl. wp_step. apply wp_readonly; [apply Hf|].
  intros [y|e]; [|done]. wp_step. apply wp_readonly; [apply IH|].
  intros [ys|e]; [|done]. by wp_run.
Qed.

Lemma int_readonly s w : after (int s) w = w.
Proof. as_wp. wp_prim. by wp_all. Qed.

Lemma comprehension_index_spec config order w :
  wp (comprehension (fun i => links <- subscript config "links" ;; index links i) order) w
    (fun r w' =>
       w' = w /\
       forall new, r = Val new ->
         forall c d items, config = VRef c -> store w !! c = Some d ->
           dict_get "links" d = Some (VList items) -> new ⊆ items).
Proof.
  induction order as [|i order IH]; simpl.
  - wp_run. split; [done|]. intros new [= <-] c d items _ _ _. apply list_subseteq_nil.
  - wp_step. wp_step. eapply wp_mono; [|apply subscript_spec].
    intros [links|e] w1 [-> H]; [|done].
    destruct H as (c & d & -> & Hc & Hd).
    eapply wp_mono; [|apply index_spec].
    intros [x|e] w1 [-> Hx]; [|done].
    wp_step. eapply wp_mono; [|apply IH].
    intros [new|e] w1 [-> Hnew]; [|done].
    wp_run. split; [done|]. intros ? [= <-] c' d' items [= <-] Hc' Hd'.
    assert (d' = d) as -> by congruence.
    assert (links = VList items) as -> by congruence.
    intros y [->|Hy]%elem_of_cons; [by apply Hx|].
    by eapply Hnew.
Qed.

Lemma assign_spec v k x w :
  wp (assign v k x) w (fun r w' =>
    match r with
    | Val _ =>
        exists a d, v = VRef a /\ store w !! a = Some d /\
          w' = with_store (<[a := dict_set k x d]> (store w)) w
    | Exc e => w' = w
    end).
Proof. wp_prim. wp_all; eauto. Qed.

Lemma reorder_links_spec config w :
  wp (reorder_links config) w (relink_post config w).
Proof.
  unfold reorder_links.
  wp_step. apply wp_readonly; [apply no_links_readonly|].
  intros [[]|e]; [wp_run; unchanged | | unchanged].
  wp_step. apply wp_readonly; [apply display_current_links_readonly|].
  intros [[]|e]; [|unchanged].
  assert (forall e w', store w' = store w ->
            match except (fun e => is_ValueError e || is_IndexError e) (ret false) e with
            | Some h => wp h w' (relink_post config w)
            | None => relink_post config w (Exc e) w'
            end) as Hexc.
  { intros e w' Hw'. unfold except. destruct (_ || _); [wp_run|];
      (split; [done|left; done]). }
  wp_run. apply wp_readonly; [apply subscript_readonly|].
  intros [links|e]; [|by apply Hexc].
  wp_step. apply wp_readonly; [apply len_readonly|].
  intros [n0|e]; [|by apply Hexc].
  unfold stripped_input at 1. wp_run.
  destruct (stdin w) as [|[line|] ls] eqn:Hin; wp_simpl;
    [unchanged| |wp_run; unchanged]. wp_run.
  apply wp_readonly.
  { apply comprehension_readonly. intros x w0. as_wp.
    wp_step. apply wp_readonly; [apply int_readonly|]. intros [?|?]; [|done]. by wp_run. }
  intros [order|e]; [|by apply Hexc].
  wp_step. apply wp_readonly; [apply subscript_readonly|].
  intros [links'|e]; [|by apply Hexc].
  wp_step. apply wp_readonly; [apply len_readonly|].
  intros [n|e]; [|by apply Hexc].
  destruct (order_mismatch order n); wp_run; [unchanged|].
  eapply wp_mono; [|apply comprehension_index_spec].
  intros [new|e] w1 [-> Hnew]; [|by apply Hexc].
  wp_step. eapply wp_mono; [|apply assign_spec].
  intros [[]|e] w1.
  - intros (c & d & -> & Hc & ->). wp_run. split; [done|].
    right. exists c, d, new. split_and!; try done.
    intros items Hd. by eapply Hnew.
  - intros ->. by apply Hexc.
Qed.

Lemma add_new_link_spec config w :
  wp (add_new_link config) w (fun _ w' => add_effect config (store w) (store w')).
Proof.
  unfold add_new_link, stripped_input.
  wp_run. destruct (stdin w) as [|[name|] ls]; wp_simpl; [by left| |by left]. wp_run.
  destruct (PyStr.eqb (PyStr.strip name) ""); wp_run; [by left|].
  destruct ls as [|[url|] ls]; wp_simpl; [by left| |by left]. wp_run.
  destruct (PyStr.eqb (PyStr.strip url) ""); wp_run; [by left|].
  destruct ls as [|[icon|] ls]; wp_simpl; [by left| |by left]. wp_run.
  unfold new_dict. wp_run. fold (new_record name url icon).
  assert (add_effect config (store w) (store w ++ [new_record name url icon])) as Hnew.
  { right. exists name, url, icon. by left. }
  unfold links_append.
  wp_step. eapply wp_mono; [|apply subscript_spec].
  intros [links|e] w1 [-> H]; wp_simpl; [|done].
  destruct H as (c & d & -> & Hc & Hd). simpl in Hc.
  destruct links; wp_run; try done.
  eapply wp_mono; [|apply assign_spec].
  intros [[]|e] w1; [|by intros ->].
  intros (c' & d' & [= <-] & Hc' & ->). simpl in Hc'.
  assert (d' = d) as -> by congruence. clear Hc'.
  assert (add_effect (VRef c) (store w)
            (<[c := dict_set "links" (VList (xs ++ [VRef (length (store w))])) d]>
               (store w ++ [new_record name url icon]))) as Hadd.
  { right. exists name, url, icon. right. exists c, d, xs. split_and!; try done.
    apply lookup_app_Some in Hc as [Hc|[Hge Hc]]; [done|].
    apply list_lookup_singleton_Some in Hc as [_ <-]. done. }
  wp_run. by rewrite encodable_stripped.
Qed.


(** ** The list stays a flat list of records *)

Lemma is_flat_record_inv st v :
  is_flat_record st v = true ->
  exists a r, v = VRef a /\ st !! a = Some r /\ forallb (fun kv => is_scalar kv.2) r = true.
Proof.
  unfold is_flat_record. destruct v as [| | | | | |a]; try done.
  destruct (st !! a) as [r|] eqn:Ha; [|done]. eauto.
Qed.

Lemma dict_get_scalar k d v :
  forallb (fun kv => is_scalar kv.2) d = true -> dict_get k d = Some v ->
  is_scalar v = true.
Proof.
  induction d as [|[k' v'] d IH]; [done|]. cbn [dict_get forallb].
  intros [Hv Hd]%andb_true_iff. destruct (PyStr.eqb k k'); [|by apply IH].
  by intros [= <-].
Qed.

Lemma flat_links_inv st config :
  flat_links st config = true ->
  exists c d items,
    config = VRef c /\ st !! c = Some d /\ dict_get "links" d = Some (VList items) /\
    forall x, x ∈ items ->
      exists a r, x = VRef a /\ st !! a = Some r /\ a <> c /\
        forallb (fun kv => is_scalar kv.2) r = true.
Proof.
  unfold flat_links. destruct (links_of st config) as [items|] eqn:Hl; [|done].
  intros Hall. destruct (links_of_inv _ _ _ Hl) as (c & d & -> & Hc & Hd).
  exists c, d, items. split_and!; try done. intros x Hx.
  apply (forallb_elem_of _ _ _ Hall) in Hx.
  destruct (is_flat_record_inv _ _ Hx) as (a & r & -> & Ha & Hr).
  exists a, r. split_and!; try done. intros ->.
  assert (r = d) as -> by congruence.
  by apply (dict_get_scalar _ _ _ Hr) in Hd.
Qed.

Lemma flat_links_intro st c d items :
  st !! c = Some d -> dict_get "links" d = Some (VList items) ->
  (forall x, x ∈ items -> is_flat_record st x = true) ->
  flat_links st (VRef c) = true.
Proof.
  intros Hc Hd Hall. unfold flat_links, links_of. rewrite Hc, Hd.
  by apply forallb_intro.
Qed.

Lemma fields_kept_refl st : fields_kept st st.
Proof. intros a r Ha. by exists r. Qed.

Lemma fields_kept_trans st1 st2 st3 :
  fields_kept st1 st2 -> fields_kept st2 st3 -> fields_kept st1 st3.
Proof.
  intros H12 H23 a r Ha.
  destruct (H12 a r Ha) as (r2 & Ha2 & Hp2).
  destruct (H23 a r2 Ha2) as (r3 & Ha3 & Hp3).
  exists r3. split; [done|]. by etrans.
Qed.

Lemma fields_kept_app st r : fields_kept st (st ++ [r]).
Proof. intros a r0 Ha. exists r0. split; [by apply lookup_app_l_Some|done]. Qed.

Lemma fields_kept_insert st a r r' :
  st !! a = Some r -> keys r `prefix_of` keys r' -> fields_kept st (<[a := r']> st).
Proof.
  intros Ha Hp b rb Hb. destruct (decide (a = b)) as [<-|Hne].
  - exists r'. rewrite list_lookup_insert_eq by (by eapply lookup_lt_Some).
    split; [done|]. congruence.
  - exists rb. by rewrite list_lookup_insert_ne.
Qed.

Lemma edited_keys r r' : edited r r' -> keys r `prefix_of` keys r'.
Proof.
  induction 1 as [|r r1 k s _ _ IH]; [done|].
  etrans; [apply IH|apply keys_dict_set_prefix].
Qed.

Lemma dict_set_scalar k v d :
  is_scalar v = true ->
  forallb (fun kv => is_scalar kv.2) d = true ->
  forallb (fun kv => is_scalar kv.2) (dict_set k v d) = true.
Proof.
  intros Hv. induction d as [|[k' v'] d IH]; simpl; [by rewrite Hv|].
  intros [Hv' Hd]%andb_true_iff. destruct (PyStr.eqb k k'); simpl.
  - by rewrite Hv.
  - by rewrite Hv', IH.
Qed.

Lemma edited_scalar r r' :
  edited r r' ->
  forallb (fun kv => is_scalar kv.2) r = true ->
  forallb (fun kv => is_scalar kv.2) r' = true.
Proof.
  induction 1 as [|r r1 k s _ _ IH]; [done|].
  intros Hr. apply dict_set_scalar; [done|]. by apply IH.
Qed.

Lemma add_effect_flat config st st' :
  add_effect config st st' -> flat_links st config = true ->
  flat_links st' config = true /\ fields_kept st st'.
Proof.
  intros Heff Hflat.
  destruct (flat_links_inv _ _ Hflat) as (c & d & items & -> & Hc & Hd & Hitems).
  assert (forall r, flat_links (st ++ [r]) (VRef c) = true) as Happ.
  { intros r. apply (flat_links_intro _ c d items); [by apply lookup_app_l_Some|done|].
    intros x Hx. destruct (Hitems x Hx) as (a & ra & -> & Ha & _ & Hra).
    unfold is_flat_record. by rewrite (lookup_app_l_Some _ _ _ _ Ha). }
  destruct Heff as [->|(name & url & icon & [->|Heff])].
  - split; [done|apply fields_kept_refl].
  - split; [apply Happ|apply fields_kept_app].
  - destruct Heff as (c' & d' & items' & [= <-] & Hc' & Hd' & ->).
    assert (d' = d) as -> by congruence.
    assert (items' = items) as -> by congruence. clear Hc' Hd'.
    pose proof (lookup_lt_Some _ _ _ Hc) as Hlt.
    assert (length (st ++ [new_record name url icon]) = S (length st)) as Hlen.
    { rewrite length_app. simpl. lia. }
    split.
    + eapply flat_links_intro.
      * apply list_lookup_insert_eq. lia.
      * apply dict_get_set_eq.
      * intros x [Hx|Hx%list_elem_of_singleton]%elem_of_app; [|subst x].
        -- destruct (Hitems x Hx) as (a & ra & -> & Ha & Hne & Hra).
           unfold is_flat_record. rewrite list_lookup_insert_ne by done.
           by rewrite (lookup_app_l_Some _ _ _ _ Ha).
        -- unfold is_flat_record. rewrite list_lookup_insert_ne by lia.
           by rewrite lookup_app_r, Nat.sub_diag by lia.
    + eapply fields_kept_trans; [apply fields_kept_app|].
      eapply fields_kept_insert; [by apply lookup_app_l_Some|].
      apply keys_dict_set_prefix.
Qed.

Lemma edit_effect_flat config st st' :
  edit_effect config st st' -> flat_links st config = true ->
  flat_links st' config = true /\ fields_kept st st'.
Proof.
  intros Heff Hflat.
  destruct (flat_links_inv _ _ Hflat) as (c & d & items & -> & Hc & Hd & Hitems).
  destruct Heff as [->|(a & r & r' & Ha & Hin & Hed & ->)].
  { split; [done|apply fields_kept_refl]. }
  assert (links_of st (VRef c) = Some items) as Hl.
  { unfold links_of. by rewrite Hc, Hd. }
  destruct (Hitems _ (Hin _ Hl)) as (a' & r0 & [= <-] & Ha' & Hne & Hr).
  assert (r0 = r) as -> by congruence. clear Ha'.
  pose proof (lookup_lt_Some _ _ _ Ha) as Hlt.
  split.
  - apply (flat_links_intro _ c d items); [by rewrite list_lookup_insert_ne|done|].
    intros x Hx. destruct (Hitems x Hx) as (b & rb & -> & Hb & _ & Hrb).
    unfold is_flat_record. destruct (decide (a = b)) as [<-|Hab].
    + rewrite list_lookup_insert_eq by done. by eapply edited_scalar.
    + rewrite list_lookup_insert_ne by done. by rewrite Hb.
  - eapply fields_kept_insert; [done|]. by apply edited_keys.
Qed.

Lemma relink_effect_flat config st st' :
  relink_effect config st st' -> flat_links st config = true ->
  flat_links st' config = true /\ fields_kept st st'.
Proof.
  intros Heff Hflat.
  destruct (flat_links_inv _ _ Hflat) as (c & d & items & -> & Hc & Hd & Hitems).
  destruct Heff as [->|(c' & d' & items' & [= <-] & Hc' & Hsub & ->)].
  { split; [done|apply fields_kept_refl]. }
  assert (d' = d) as -> by congruence. clear Hc'.
  pose proof (lookup_lt_Some _ _ _ Hc) as Hlt.
  split.
  - eapply flat_links_intro.
    + by apply list_lookup_insert_eq.
    + apply dict_get_set_eq.
    + intros x Hx. apply (Hsub _ Hd) in Hx.
      destruct (Hitems x Hx) as (b & rb & -> & Hb & Hne & Hrb).
      unfold is_flat_record. rewrite list_lookup_insert_ne by done. by rewrite Hb.
  - eapply fields_kept_insert; [done|]. apply keys_dict_set_prefix.
Qed.

(** ** A document and the objects built for it *)

Lemma alloc_arr xs st :
  alloc (JArr xs) st = let '(vs, st') := alloc_items xs st in (VList vs, st').
Proof. reflexivity. Qed.

Lemma alloc_obj kvs st :
  alloc (JObj kvs) st =
    let '(d, st') := alloc_fields kvs st in (VRef (length st'), st' ++ [d]).
Proof. reflexivity. Qed.

Lemma denote_list fuel st xs :
  denote (S fuel) st (VList xs) = JArr <$> denote_items (denote (S fuel) st) xs.
Proof. reflexivity. Qed.

Lemma denote_ref fuel st a :
  denote (S fuel) st (VRef a) =
    match st !! a with
    | None => None
    | Some d => JObj <$> denote_fields (denote fuel st) d
    end.
Proof. reflexivity. Qed.

(** Induction on documents, with the hypothesis for every member. *)
Lemma json_nested_ind (P : json -> Prop) :
  P JNull -> (forall b, P (JBool b)) -> (forall n, P (JInt n)) ->
  (forall x, P (JFloat x)) -> (forall s, P (JStr s)) ->
  (forall xs, Forall P xs -> P (JArr xs)) ->
  (forall kvs, Forall (fun kv => P kv.2) kvs -> P (JObj kvs)) ->
  forall j, P j.
Proof.
  intros Hnull Hbool Hint Hfloat Hstr Harr Hobj.
  fix IH 1. intros [| b | n | x | s | xs | kvs].
  - exact Hnull.
  - apply Hbool.
  - apply Hint.
  - apply Hfloat.
  - apply Hstr.
  - apply Harr. induction xs as [|x xs IHxs]; constructor; [apply IH|exact IHxs].
  - apply Hobj. induction kvs as [|[k x] kvs IHkvs]; constructor; [apply IH|exact IHkvs].
Qed.

Lemma alloc_items_reads_back xs :
  Forall (fun j => forall st, reads_back j st (alloc j st).1 (alloc j st).2) xs ->
  forall st, exists ext,
    (alloc_items xs st).2 = st ++ ext /\
    forall more fuel, (length ext < fuel)%nat ->
      denote_items (denote fuel (st ++ ext ++ more)) (alloc_items xs st).1 = Some xs.
Proof.
  induction 1 as [|x xs Hx _ IH]; intros st.
  - exists []. split; [by rewrite app_nil_r|done].
  - simpl. destruct (Hx st) as (e1 & He1 & Hd1).
    destruct (alloc x st) as [v st1]. simpl in He1, Hd1. subst st1.
    destruct (IH (st ++ e1)) as (e2 & He2 & Hd2).
    destruct (alloc_items xs (st ++ e1)) as [vs st2]. simpl in He2, Hd2. subst st2.
    exists (e1 ++ e2). split; [by rewrite app_assoc|].
    intros more fuel Hfuel. rewrite length_app in Hfuel. simpl.
    rewrite <- (app_assoc e1 e2 more), (Hd1 (e2 ++ more) fuel) by lia.
    specialize (Hd2 more fuel). rewrite <- app_assoc in Hd2.
    rewrite Hd2 by lia. done.
Qed.

Lemma alloc_fields_reads_back kvs :
  Forall (fun kv => forall st, reads_back kv.2 st (alloc kv.2 st).1 (alloc kv.2 st).2) kvs ->
  forall st, exists ext,
    (alloc_fields kvs st).2 = st ++ ext /\
    forall more fuel, (length ext < fuel)%nat ->
      denote_fields (denote fuel (st ++ ext ++ more)) (alloc_fields kvs st).1 = Some kvs.
Proof.
  induction 1 as [|[k x] kvs Hx _ IH]; intros st.
  - exists []. split; [by rewrite app_nil_r|done].
  - simpl in Hx |- *. destruct (Hx st) as (e1 & He1 & Hd1).
    destruct (alloc x st) as [v st1]. simpl in He1, Hd1. subst st1.
    destruct (IH (st ++ e1)) as (e2 & He2 & Hd2).
    destruct (alloc_fields kvs (st ++ e1)) as [d st2]. simpl in He2, Hd2. subst st2.
    exists (e1 ++ e2). split; [by rewrite app_assoc|].
    intros more fuel Hfuel. rewrite length_app in Hfuel. simpl.
    rewrite <- (app_assoc e1 e2 more), (Hd1 (e2 ++ more) fuel) by lia.
    specialize (Hd2 more fuel). rewrite <- app_assoc in Hd2.
    rewrite Hd2 by lia. done.
Qed.

Lemma alloc_reads_back j st : reads_back j st (alloc j st).1 (alloc j st).2.
Proof.
  revert st. induction j as [| b | n | x | s | xs IH | kvs IH] using json_nested_ind;
    intros st.
  1-5: exists []; split; [by rewrite app_nil_r|];
       intros more [|fuel] Hfuel; [simpl in Hfuel; lia|done].
  - destruct (alloc_items_reads_back xs IH st) as (ext & He & Hd).
    rewrite alloc_arr. destruct (alloc_items xs st) as [vs st']. simpl in *.
    exists ext. split; [done|]. intros more [|fuel] Hfuel; [lia|].
    rewrite denote_list, Hd by done. done.
  - destruct (alloc_fields_reads_back kvs IH st) as (ext & He & Hd).
    rewrite alloc_obj. destruct (alloc_fields kvs st) as [d st']. simpl in *. subst st'.
    exists (ext ++ [d]). split; [by rewrite app_assoc|].
    intros more [|fuel] Hfuel; [lia|]. rewrite length_app in Hfuel. simpl in Hfuel.
    rewrite denote_ref.
    assert ((st ++ (ext ++ [d]) ++ more) !! length (st ++ ext) = Some d) as ->.
    { rewrite <- !app_assoc, (app_assoc st ext). by apply list_lookup_middle. }
    specialize (Hd ([d] ++ more) fuel).
    rewrite <- app_assoc. rewrite Hd by lia. done.
Qed.

Lemma alloc_denote j st :
  let '(v, st') := alloc j st in
  (exists ext, st' = st ++ ext) /\ denote (S (length st')) st' v = Some j.
Proof.
  destruct (alloc_reads_back j st) as (ext & He & Hd).
  destruct (alloc j st) as [v st']. simpl in *. subst st'.
  split; [by exists ext|].
  specialize (Hd [] (S (length (st ++ ext)))). rewrite app_nil_r in Hd.
  apply Hd. rewrite length_app. lia.
Qed.


(** ** git_operations *)

Section Git.
Variable strftime_now : str.
Variable subprocess_outcome : list (list str) -> list str -> proc_result.

Let git : M bool := git_operations strftime_now subprocess_outcome.
Let run := subprocess_run subprocess_outcome.

Lemma wp_subprocess_run argv w Q :
  (let r := run_outcome subprocess_outcome (commands w) argv in
   let w' := if tried r then with_commands (commands w ++ [argv]) w else w in
   match raised r with
   | None => Q (Val tt) w'
   | Some e => Q (Exc e) w'
   end) ->
  wp (run argv) w Q.
Proof.
  unfold wp, run, subprocess_run. cbv zeta.
  by destruct (raised (run_outcome subprocess_outcome (commands w) argv)).
Qed.

(** The status check has nothing in its arguments to be refused. *)
Lemma run_outcome_git_status h :
  run_outcome subprocess_outcome h git_status = subprocess_outcome h git_status.
Proof. reflexivity. Qed.

(** The run after a successful status check, step by step. *)
Lemma git_operations_run w (line : text) rest :
  stdin w = Line line :: rest ->
  subprocess_outcome (commands w) git_status = Completed ->
  let msg := commit_message strftime_now line in
  let h := commands w in
  let stop (n : nat) (r : result bool) :=
    (r, with_commands (h ++ git_status :: take n (git_steps msg)) (with_stdin rest w)) in
  let next (n : nat) (k : result bool * world) :=
    let r := step_outcome subprocess_outcome h msg n in
    match raised r with
    | None => k
    | Some e => stop (if tried r then S n else n) (step_failure e)
    end in
  git w = next 0%nat (next 1%nat (next 2%nat (stop 3%nat (Val true)))).
Proof.
  intros Hin Hs. cbv zeta beta.
  unfold step_outcome, git_steps, commit_message, git_add, git_commit, git_push,
    git_status, step_failure in *.
  simpl lookup. cbv iota. simpl take.
  repeat match goal with
         | |- context [raised (run_outcome ?so ?h ?argv)] =>
             destruct (run_outcome so h argv) as [[]| |] eqn:?; cbn [raised tried]
         end.
  all: apply wp_eq; unfold git, git_operations, stripped_input.
  all:  repeat first
      [ wp_step; wp_simpl
      | apply wp_subprocess_run; cbv zeta; wp_simpl; rewrite <- ?app_assoc; simpl app
      | rewrite Hin; wp_simpl
      | progress change (run_outcome subprocess_outcome (commands w) ["git"; "status"])
          with (Ran (subprocess_outcome (commands w) ["git"; "status"]));
        rewrite Hs; cbn [raised tried]
      | match goal with
        | H : run_outcome _ _ _ = _ |- _ => rewrite H; cbn [raised tried]
        end ].
  all: done.
Qed.

Lemma git_operations_no_repo w :
  subprocess_outcome (commands w) git_status = NonZeroExit \/
  subprocess_outcome (commands w) git_status = NotFound ->
  git w = (Val false, with_commands (commands w ++ [git_status]) w).
Proof.
  intros Hs. apply wp_eq. unfold git, git_operations.
  wp_run. apply wp_subprocess_run. fold git_status. rewrite run_outcome_git_status.
  destruct Hs as [-> | ->]; by wp_run.
Qed.

(** A status check that ends in another way ends the function with its
    exception. *)
Lemma git_operations_status_raises w :
  subprocess_outcome (commands w) git_status = OSFailure ->
  git w = (Exc OSError, with_commands (commands w ++ [git_status]) w).
Proof.
  intros Hs. apply wp_eq. unfold git, git_operations.
  wp_run. apply wp_subprocess_run. fold git_status. rewrite run_outcome_git_status.
  rewrite Hs. by wp_run.
Qed.

(** After a successful status check the commit message is asked for: with
    no line to read the function ends there. *)
Lemma git_operations_unanswered w :
  subprocess_outcome (commands w) git_status = Completed ->
  match stdin w with
  | [] => git w = (Exc EOFError, with_commands (commands w ++ [git_status]) w)
  | Undecodable :: rest =>
      git w = (Exc UnicodeDecodeError,
               with_commands (commands w ++ [git_status]) (with_stdin rest w))
  | Line _ :: _ => True
  end.
Proof.
  intros Hs. destruct (stdin w) as [|[line|] rest] eqn:Hin; [|done|].
  - apply wp_eq. unfold git, git_operations, stripped_input.
    wp_run. apply wp_subprocess_run. fold git_status.
    rewrite run_outcome_git_status, Hs. cbv zeta. cbn [raised tried].
    repeat first [wp_step; wp_simpl | rewrite Hin; wp_simpl]. done.
  - apply wp_eq. unfold git, git_operations, stripped_input.
    wp_run. apply wp_subprocess_run. fold git_status.
    rewrite run_outcome_git_status, Hs. cbv zeta. cbn [raised tried].
    repeat first [wp_step; wp_simpl | rewrite Hin; wp_simpl]. done.
Qed.

(** The function returns [True] only after a status check that succeeded
    and a commit message that was read. *)
Lemma git_operations_true w :
  outcome git w = Val true ->
  subprocess_outcome (commands w) git_status = Completed /\
  exists (line : text) rest, stdin w = Line line :: rest.
Proof.
  intros Htrue. unfold outcome in Htrue.
  destruct (subprocess_outcome (commands w) git_status) eqn:Hs.
  - split; [done|]. pose proof (git_operations_unanswered w Hs) as Hun.
    destruct (stdin w) as [|[line|] rest]; [|by eauto|]; by rewrite Hun in Htrue.
  - by rewrite git_operations_no_repo in Htrue by auto.
  - by rewrite git_operations_no_repo in Htrue by auto.
  - by rewrite git_operations_status_raises in Htrue.
Qed.

Lemma raised_None r : raised r = None <-> r = Completed.
Proof. by destruct r as [[]| |]. Qed.

(** C5 (amended).  When the status check exits with a non-zero status or
    finds no git program, the function returns [False] and nothing but the
    check was run.  After a successful check and a commit message read, the
    steps add, commit, push run in this order, each started only when the
    one before completed; the function returns [True] exactly when all three
    completed.  The first step that does not complete ends the function and
    no later step is started: with [False] when the step exited with a
    non-zero status, and with the exception of [subprocess.run] when the
    step could not be started ([FileNotFoundError], [OSError], or the
    [ValueError] or [UnicodeEncodeError] of an argument refused, in which
    case the step is not even tried).  [True] is returned only after a
    successful check and a commit message read. *)
Theorem git_operations_steps w :
  let h := commands w in
  let status := subprocess_outcome h git_status in
  (status = NonZeroExit \/ status = NotFound ->
     outcome git w = Val false /\
     commands (after git w) = h ++ [git_status] /\
     stdin (after git w) = stdin w) /\
  (forall (line : text) rest, stdin w = Line line :: rest -> status = Completed ->
     let msg := commit_message strftime_now line in
     let step := step_outcome subprocess_outcome h msg in
     ((forall i, (i < 3)%nat -> step i = Completed) ->
        outcome git w = Val true /\
        commands (after git w) = h ++ git_status :: git_steps msg) /\
     (forall i e, (i < 3)%nat ->
        (forall j, (j < i)%nat -> step j = Completed) -> raised (step i) = Some e ->
        outcome git w = step_failure e /\
        commands (after git w) =
          h ++ git_status :: take (if tried (step i) then S i else i) (git_steps msg)) /\
     (outcome git w = Val true -> forall i, (i < 3)%nat -> step i = Completed)) /\
  (outcome git w = Val true ->
     status = Completed /\ exists (line : text) rest, stdin w = Line line :: rest).
Proof.
  cbv zeta. split_and!.
  - intros Hs. unfold outcome, after. by rewrite git_operations_no_repo.
  - intros line rest Hin Hs. unfold outcome, after.
    rewrite (git_operations_run w line rest Hin Hs). cbv zeta.
    set (step := step_outcome subprocess_outcome (commands w)
                   (commit_message strftime_now line)).
    split_and!.
    + intros Hall. rewrite !Hall by lia. done.
    + intros i e Hi Hbefore Hfail.
      destruct i as [|[|[|i]]]; [| | |lia].
      * by rewrite Hfail.
      * rewrite (Hbefore 0%nat) by lia. cbn [raised]. by rewrite Hfail.
      * rewrite (Hbefore 0%nat), (Hbefore 1%nat) by lia. cbn [raised]. by rewrite Hfail.
    + intros Htrue i Hi.
      destruct (raised (step 0%nat)) as [e0|] eqn:E0.
      { simpl in Htrue. unfold step_failure in Htrue. by destruct (is_CalledProcessError e0). }
      destruct (raised (step 1%nat)) as [e1|] eqn:E1.
      { simpl in Htrue. unfold step_failure in Htrue. by destruct (is_CalledProcessError e1). }
      destruct (raised (step 2%nat)) as [e2|] eqn:E2.
      { simpl in Htrue. unfold step_failure in Htrue. by destruct (is_CalledProcessError e2). }
      apply raised_None in E0, E1, E2.
      by destruct i as [|[|[|i]]]; [| | |lia].
  - apply git_operations_true.
Qed.

End Git.

(** C5, as stated, asks for [False] whenever a step fails.  A commit message
    that is a NUL character stops the commit step with [ValueError], and a
    git program that disappears after the status check stops the add step
    with [FileNotFoundError]: the function returns nothing in either case. *)
Lemma git_operations_step_raises :
  let w := World [Line nul_line] [] None [] [] in
  let msg := commit_message "" nul_line in
  step_outcome git_fine (commands w) msg 1 = EmbeddedNull /\
  git_operations "" git_fine w =
    (Exc ValueError, World [] [] None [] [git_status; git_add]) /\
  step_outcome git_vanishes (commands w) msg 0 = NotFound /\
  git_operations "" git_vanishes w =
    (Exc FileNotFoundError, World [] [] None [] [git_status; git_add]).
Proof. cbv zeta. split_and!; by vm_compute. Qed.

(** ** What the functions leave as it is *)

Section Preserves.
Context (R : relation world) `{!PreOrder R}.
Hypothesis R_input : preserves R input.
Hypothesis R_put_store : forall st, preserves R (put_store st).

Lemma preserves_ret {A} (a : A) : preserves R (ret a).
Proof. intros w. reflexivity. Qed.

Lemma preserves_raise {A} e : preserves R (@raise A e).
Proof. intros w. reflexivity. Qed.

Lemma preserves_get_store : preserves R get_store.
Proof. intros w. reflexivity. Qed.

Lemma preserves_print vs : preserves R (print vs).
Proof. intros w. unfold after, print. by destruct (forallb encodable vs). Qed.

Lemma preserves_bind {A B} (m : M B) (k : B -> M A) :
  preserves R m -> (forall b, preserves R (k b)) -> preserves R (bind m k).
Proof.
  intros Hm Hk w. specialize (Hm w). unfold after, bind in *.
  destruct (m w) as [[b|e] w1]; simpl in *; [|done].
  specialize (Hk b w1). unfold after in Hk. by etrans.
Qed.

Lemma preserves_try_except {A} (body : M A) classes handler :
  preserves R body -> preserves R handler ->
  preserves R (try_except body (except classes handler)).
Proof.
  intros Hb Hh w. specialize (Hb w). unfold after, try_except, except in *.
  destruct (body w) as [[a|e] w1]; simpl in *; [done|].
  destruct (classes e); [|done].
  specialize (Hh w1). unfold after in Hh. by etrans.
Qed.

Lemma preserves_comprehension {A B} (f : B -> M A) xs :
  (forall x, preserves R (f x)) -> preserves R (comprehension f xs).
Proof.
  intros Hf. induction xs as [|x xs IH]; [apply preserves_ret|]. simpl.
  apply preserves_bind; [done|]. intros y.
  apply preserves_bind; [done|]. intros ys. apply preserves_ret.
Qed.

Lemma preserves_for_each {A} (xs : list A) body :
  (forall x, preserves R (body x)) -> preserves R (for_each xs body).
Proof.
  intros Hf. induction xs as [|x xs IH]; [apply preserves_ret|]. simpl.
  by apply preserves_bind.
Qed.

Ltac preserves :=
  repeat first
    [ apply preserves_ret | apply preserves_raise
    | apply R_input | apply preserves_get_store | apply preserves_print
    | apply R_put_store
    | apply preserves_bind; [|intros ?]
    | apply preserves_try_except
    | apply preserves_for_each; intros ?
    | apply preserves_comprehension; intros ?
    | progress wp_prim
    | case_match ].

Lemma preserves_display config : preserves R (display_current_links config).
Proof. unfold display_current_links. preserves. Qed.

Lemma preserves_add config : preserves R (add_new_link config).
Proof. unfold add_new_link. preserves. Qed.

Lemma preserves_remove config : preserves R (remove_link config).
Proof. unfold remove_link. pose proof preserves_display. preserves; done. Qed.

Lemma preserves_edit config : preserves R (edit_link config).
Proof. unfold edit_link. pose proof preserves_display. preserves; done. Qed.

Lemma preserves_reorder config : preserves R (reorder_links config).
Proof. unfold reorder_links. pose proof preserves_display. preserves; done. Qed.

Lemma preserves_git strftime_now subprocess_outcome :
  (forall argv, preserves R (subprocess_run subprocess_outcome argv)) ->
  preserves R (git_operations strftime_now subprocess_outcome).
Proof. intros Hrun. unfold git_operations. preserves; done. Qed.

End Preserves.

#[local] Instance same_files_preorder : PreOrder same_files.
Proof.
  split; [done|]. intros w1 w2 w3 [H1 H2] [H3 H4]. split; congruence.
Qed.

#[local] Instance fewer_lines_preorder : PreOrder fewer_lines.
Proof.
  split; [by intros w; unfold fewer_lines|].
  intros w1 w2 w3 H12 H23. unfold fewer_lines in *. by etrans.
Qed.

Lemma same_files_input : preserves same_files input.
Proof. intros w. unfold after, input. by destruct (stdin w) as [|[]]. Qed.

Lemma same_files_put_store st : preserves same_files (put_store st).
Proof. done. Qed.

Lemma fewer_lines_input : preserves fewer_lines input.
Proof.
  intros w. unfold fewer_lines, after, input.
  destruct (stdin w) as [|[]] eqn:E; simpl; rewrite ?E; simpl; lia.
Qed.

Lemma fewer_lines_put_store st : preserves fewer_lines (put_store st).
Proof. intros w. by unfold fewer_lines. Qed.

Lemma keeps_files_display config : keeps_files (display_current_links config).
Proof. apply preserves_display; auto using same_files_input, same_files_put_store, same_files_preorder. Qed.

Lemma keeps_files_add config : keeps_files (add_new_link config).
Proof. apply preserves_add; auto using same_files_input, same_files_put_store, same_files_preorder. Qed.

Lemma keeps_files_remove config : keeps_files (remove_link config).
Proof. apply preserves_remove; auto using same_files_input, same_files_put_store, same_files_preorder. Qed.

Lemma keeps_files_edit config : keeps_files (edit_link config).
Proof. apply preserves_edit; auto using same_files_input, same_files_put_store, same_files_preorder. Qed.

Lemma keeps_files_reorder config : keeps_files (reorder_links config).
Proof. apply preserves_reorder; auto using same_files_input, same_files_put_store, same_files_preorder. Qed.


(** ** The menu *)

Section Menu.
Variable json_dumps : json -> str.
Variable strftime_now : str.
Variable subprocess_outcome : list (list str) -> list str -> proc_result.

Let round := menu_round json_dumps strftime_now subprocess_outcome.
Let save := save_config json_dumps.
Let git : M bool := git_operations strftime_now subprocess_outcome.

Lemma keeps_files_git : keeps_files git.
Proof.
  apply preserves_git; auto using same_files_input, same_files_preorder.
  intros argv w. unfold after, subprocess_run.
  by destruct (run_outcome subprocess_outcome (commands w) argv) as [[]| |].
Qed.

Lemma wp_keeps_files {A} (m : M A) w Q :
  keeps_files m ->
  (forall r w', outcome m w = r -> after m w = w' ->
     config_file w' = config_file w -> writes w' = writes w -> Q r w') ->
  wp m w Q.
Proof. intros Hm HQ. destruct (Hm w). by apply HQ. Qed.

Lemma wp_save_config config w Q :
  (forall r w', stdin w' = stdin w -> store w' = store w ->
     writes w' = writes w ++ [dump_text json_dumps config (store w)] ->
     config_file w' = Some (dump_text json_dumps config (store w)) ->
     Q r w') ->
  wp (save config) w Q.
Proof.
  intros HQ. unfold save, save_config, write_config_file. wp_run.
  unfold dump_text in HQ.
  destruct (denote _ _ _); wp_run; [by apply HQ|].
  unfold wp. simpl. by apply HQ.
Qed.

Lemma dot_get_links_run config w items :
  links_of (store w) config = Some items ->
  dot_get config "links" w = (Val (Some (VList items)), w).
Proof.
  intros Hl. destruct (links_of_inv _ _ _ Hl) as (c & d & -> & Hc & Hd).
  apply wp_eq. wp_prim. wp_run. rewrite Hc. wp_run. by rewrite Hd.
Qed.

Lemma wp_press_enter w (P : world -> Prop) :
  (forall w', writes w' = writes w -> config_file w' = config_file w -> P w') ->
  wp (_ <- input ;; ret true) w (fun _ w' => P w').
Proof. intros HP. wp_run. destruct (stdin w) as [|[]]; wp_run; by apply HP. Qed.

Lemma wp_save_if config (op : M bool) w1 w (P : world -> Prop) :
  keeps_files op -> writes w1 = writes w ->
  (forall w', written_iff_true json_dumps config op w1 w w' -> P w') ->
  wp (save_if json_dumps op config ;;; ret true) w1
    (fun r w' =>
       match r with
       | Val continue =>
           wp (if continue then _ <- input ;; ret true else ret false) w' (fun _ w'' => P w'')
       | Exc _ => P w'
       end).
Proof.
  intros Hop Hw HP. unfold save_if. wp_step. wp_step.
  apply wp_keeps_files; [done|]. intros r w2 Hr Hw2 Hf2 Hwr2.
  assert (r <> Val true -> forall w', writes w' = writes w2 -> P w') as Hno.
  { intros Hne w' Hw'. apply HP. split; [congruence|]. intros _. congruence. }
  destruct r as [[]|e]; [|do 2 (wp_step; wp_simpl); apply wp_press_enter; intros w' Hw' _;
                           by apply Hno
                         |by apply Hno].
  apply wp_save_config. intros r w3 _ _ Hwr3 Hf3.
  assert (forall w', writes w' = writes w3 -> config_file w' = config_file w3 ->
            P w') as Hyes.
  { intros w' Hw' Hf'. apply HP. split; [|congruence]. intros _.
    split; congruence. }
  destruct r as [[]|e]; [|by apply Hyes].
  wp_step; wp_simpl. by apply wp_press_enter.
Qed.

Lemma menu_round_start config w items (line : text) rest Q :
  links_of (store w) config = Some items -> stdin w = Line line :: rest ->
  let choice := PyStr.strip line in
  wp (if PyStr.eqb choice "1" then display_current_links config ;;; ret true
      else if PyStr.eqb choice "2" then
        save_if json_dumps (add_new_link config) config ;;; ret true
      else if PyStr.eqb choice "3" then
        save_if json_dumps (edit_link config) config ;;; ret true
      else if PyStr.eqb choice "4" then
        save_if json_dumps (remove_link config) config ;;; ret true
      else if PyStr.eqb choice "5" then
        save_if json_dumps (reorder_links config) config ;;; ret true
      else if PyStr.eqb choice "6" then save config ;;; ret true
      else if PyStr.eqb choice "7" then
        save config ;;; _ <- git ;; ret true
      else if PyStr.eqb choice "8" then ret false
      else ret true)
     (with_stdin rest w)
     (fun r w' =>
        match r with
        | Val b => wp (if b then _ <- input ;; ret true else ret false) w' Q
        | Exc e => Q (Exc e) w'
        end) ->
  wp (round config) w Q.
Proof.
  intros Hl Hin choice HQ. unfold round, menu_round.
  wp_step. eapply wp_from_run; [by apply dot_get_links_run|].
  cbv beta iota. wp_step. simpl default. unfold len. wp_run.
  unfold stripped_input. wp_run. rewrite Hin. wp_run.
  exact HQ.
Qed.

(** C4 (main_menu, one round of the loop): with [w1] the world once the
    choice is read, an edit (choices 2 to 5) is followed by a writing of
    config.json exactly when it returned [True]; choices 6 and 7 always
    write the file, once; choice 1 never does. *)
Theorem menu_round_saves config w items (choice : text) rest :
  links_of (store w) config = Some items -> stdin w = Line choice :: rest ->
  let w1 := with_stdin rest w in
  let w' := after (round config) w in
  (PyStr.strip choice = "1" -> writes w' = writes w) /\
  (PyStr.strip choice = "2" -> written_iff_true json_dumps config (add_new_link config) w1 w w') /\
  (PyStr.strip choice = "3" -> written_iff_true json_dumps config (edit_link config) w1 w w') /\
  (PyStr.strip choice = "4" -> written_iff_true json_dumps config (remove_link config) w1 w w') /\
  (PyStr.strip choice = "5" -> written_iff_true json_dumps config (reorder_links config) w1 w w') /\
  (PyStr.strip choice = "6" -> saved_once json_dumps config (store w) w w') /\
  (PyStr.strip choice = "7" -> saved_once json_dumps config (store w) w w').
Proof.
  intros Hl Hin w1 w'.
  assert (forall P : world -> Prop,
            wp (round config) w (fun _ w' => P w') -> P w') as Hwp by done.
  split_and!; intros Hc; apply Hwp; eapply menu_round_start; try done;
    cbv zeta; rewrite Hc; simpl PyStr.eqb; cbv iota.
  - wp_step. apply wp_keeps_files; [apply keeps_files_display|].
    intros [[]|e] w2 _ _ _ Hw2; [|done]. wp_run.
    destruct (stdin w2) as [|[]]; wp_run; done.
  - apply (wp_save_if config (add_new_link config) w1 w
             (written_iff_true json_dumps config (add_new_link config) w1 w));
      [apply keeps_files_add|done..].
  - apply (wp_save_if config (edit_link config) w1 w
             (written_iff_true json_dumps config (edit_link config) w1 w));
      [apply keeps_files_edit|done..].
  - apply (wp_save_if config (remove_link config) w1 w
             (written_iff_true json_dumps config (remove_link config) w1 w));
      [apply keeps_files_remove|done..].
  - apply (wp_save_if config (reorder_links config) w1 w
             (written_iff_true json_dumps config (reorder_links config) w1 w));
      [apply keeps_files_reorder|done..].
  - wp_step. apply wp_save_config. intros r w2 _ _ Hw2 Hf2. simpl in Hw2, Hf2.
    destruct r as [[]|e]; [|done]. wp_step; wp_simpl.
    apply wp_press_enter. intros w3 Hw3 Hf3. split; congruence.
  - wp_step. apply wp_save_config. intros r w2 _ _ Hw2 Hf2. simpl in Hw2, Hf2.
    destruct r as [[]|e]; [|done]. wp_step.
    apply wp_keeps_files; [apply keeps_files_git|]. intros r w3 _ _ Hf3 Hw3.
    assert (saved_once json_dumps config (store w) w w3) as Hs by (split; congruence).
    destruct r as [b|e]; [|done]. wp_step; wp_simpl.
    apply wp_press_enter. intros w4 Hw4 Hf4. destruct Hs. split; congruence.
Qed.

End Menu.

(** ** load_config *)

Section Load.
Variable json_loads : str -> option json.
Variable json_dumps : json -> str.
Variable strftime_now : str.
Variable subprocess_outcome : list (list str) -> list str -> proc_result.

Let load := load_config json_loads.
Let main := main_menu json_loads json_dumps strftime_now subprocess_outcome.

Lemma load_config_valid w text j :
  config_file w = Some text -> json_loads text = Some j ->
  load w = (Val (alloc j (store w)).1, with_store (alloc j (store w)).2 w).
Proof.
  intros Hf Hj. unfold load, load_config, try_except, bind, read_config_file, json_load.
  rewrite Hf, Hj. unfold bind, get_store, put_store, ret.
  by destruct (alloc j (store w)).
Qed.

Lemma load_config_missing w :
  config_file w = None ->
  load w = (Val (VRef (length (store w))),
            with_store (store w ++ [[("links", VList [])]]) w).
Proof.
  intros Hf. unfold load, load_config, try_except, bind, read_config_file.
  by rewrite Hf.
Qed.

Lemma load_config_invalid w text :
  config_file w = Some text -> json_loads text = None ->
  load w = (Exc (SystemExit 1), w).
Proof.
  intros Hf Hj. unfold load, load_config, try_except, bind, read_config_file, json_load.
  by rewrite Hf, Hj.
Qed.

(** C3 (load_config): a file that holds valid JSON gives the objects of its
    document, which read back as that document; no file gives a new
    [{"links": []}]; invalid JSON gives no configuration but [SystemExit],
    with which [main_menu] ends. *)
Theorem load_config_cases w :
  (forall text j, config_file w = Some text -> json_loads text = Some j ->
     exists v st',
       load w = (Val v, with_store st' w) /\
       (exists new, st' = store w ++ new) /\
       denote (S (length st')) st' v = Some j) /\
  (config_file w = None ->
     exists v st',
       load w = (Val v, with_store st' w) /\
       (exists new, st' = store w ++ new) /\
       denote (S (length st')) st' v = Some (JObj [("links", JArr [])])) /\
  (forall text, config_file w = Some text -> json_loads text = None ->
     load w = (Exc (SystemExit 1), w) /\
     forall fuel, main fuel w = Some (Exc (SystemExit 1), w)).
Proof.
  split_and!.
  - intros text j Hf Hj. pose proof (alloc_denote j (store w)) as H.
    rewrite (load_config_valid w text j) by done.
    destruct (alloc j (store w)) as [v st']. destruct H as [Hext Hd].
    by exists v, st'.
  - intros Hf. rewrite load_config_missing by done.
    eexists _, _. split_and!; [done|by eexists|].
    rewrite denote_ref, list_lookup_middle by done.
    rewrite length_app, Nat.add_1_r. done.
  - intros text Hf Hj. split; [by apply (load_config_invalid w text)|].
    intros fuel. unfold main, main_menu. fold load.
    by rewrite (load_config_invalid w text).
Qed.

End Load.


(** ** The editing functions, property by property *)

(** C2 (add_new_link): an empty stripped name, or an empty stripped URL,
    gives [False] with the store as it was; any other name and URL, whatever
    they hold, give [True] and one new record at the end of the list; and
    [False] is returned in these two cases only. *)
Theorem add_new_link_checks_emptiness_only config w :
  (forall (name : text) rest, stdin w = Line name :: rest -> PyStr.strip name = "" ->
     add_new_link config w = (Val false, with_stdin rest w)) /\
  (forall (name url : text) rest, stdin w = Line name :: Line url :: rest ->
     PyStr.strip name <> "" -> PyStr.strip url = "" ->
     add_new_link config w = (Val false, with_stdin rest w)) /\
  (forall (name url icon : text) rest items,
     stdin w = Line name :: Line url :: Line icon :: rest ->
     links_of (store w) config = Some items ->
     let w' := after (add_new_link config) w in
     let a := length (store w) in
     (outcome (add_new_link config) w = Val false <->
        PyStr.strip name = "" \/ PyStr.strip url = "") /\
     (PyStr.strip name <> "" -> PyStr.strip url <> "" ->
        outcome (add_new_link config) w = Val true /\
        links_of (store w') config = Some (items ++ [VRef a]) /\
        store w !! a = None /\
        store w' !! a = Some (new_record name url icon) /\
        (forall b, VRef b <> config -> b <> a -> store w' !! b = store w !! b))).
Proof.
  split_and!.
  - intros name rest Hin Hn. by apply (add_new_link_empty_name config w name).
  - intros name url rest Hin Hn Hu.
    by apply (add_new_link_empty_url config w name url).
  - intros name url icon rest items Hin Hl. cbv zeta.
    destruct (decide (PyStr.strip name = "")) as [Hn|Hn].
    { unfold outcome. rewrite (add_new_link_empty_name config w name _ Hin Hn).
      split; [split; [by left|done]|done]. }
    destruct (decide (PyStr.strip url = "")) as [Hu|Hu].
    { unfold outcome. rewrite (add_new_link_empty_url config w name url _ Hin Hn Hu).
      split; [split; [by right|done]|done]. }
    destruct (add_new_link_effect config items w name url icon rest Hl Hin Hn Hu)
      as (Hr & _ & Hl' & Hfresh & Hnew & Hothers).
    split.
    + rewrite Hr. split; [done|]. by intros [?|?].
    + done.
Qed.

(** C9 (add_new_link): the record added holds the default icon
    "fas fa-link" when the stripped icon entry is empty and the entry
    otherwise; the add returns [True] in both cases. *)
Theorem add_new_link_icon config w items (name url icon : text) rest :
  links_of (store w) config = Some items ->
  stdin w = Line name :: Line url :: Line icon :: rest ->
  PyStr.strip name <> "" -> PyStr.strip url <> "" ->
  let w' := after (add_new_link config) w in
  outcome (add_new_link config) w = Val true /\
  exists a r,
    links_of (store w') config = Some (items ++ [VRef a]) /\
    store w' !! a = Some r /\
    dict_get "icon" r =
      Some (VStr (if PyStr.eqb (PyStr.strip icon) "" then "fas fa-link"
                  else PyStr.strip icon)).
Proof.
  intros Hl Hin Hn Hu.
  destruct (add_new_link_effect config items w name url icon rest Hl Hin Hn Hu)
    as (Hr & _ & Hl' & _ & Hnew & _).
  split; [done|]. by eexists _, _.
Qed.




(** A display that cannot show an item stops with an exception. *)
Lemma display_current_links_fails config w items :
  links_of (store w) config = Some items ->
  forallb (shown (store w)) items = false ->
  exists e, display_current_links config w = (Exc e, w).
Proof.
  intros Hl Hall.
  pose proof (display_current_links_readonly config w) as Hro.
  pose proof (display_current_links_ok config w items Hl) as Hok.
  unfold after, outcome in *.
  destruct (display_current_links config w) as [[[]|e] w1]; simpl in *; subst.
  - rewrite Hok in Hall by done. done.
  - by exists e.
Qed.

(** The ways [edit_link] can end on a configuration with a list of links. *)
Lemma edit_link_paths config w items :
  links_of (store w) config = Some items ->
  wp (edit_link config) w (fun r w' =>
    match r with
    | Val true => True
    | Val false => store w' = store w \/ Undecodable ∈ stdin w
    | Exc e => e = EOFError \/ forallb (shown (store w)) items = false
    end).
Proof.
  intros Hl. unfold edit_link.
  wp_step. eapply wp_from_run; [by apply no_links_run|].
  destruct (decide (items = [])) as [->|Hne]; [wp_run; by left|].
  rewrite bool_decide_eq_false_2 by done.
  destruct (forallb (shown (store w)) items) eqn:Hall.
  2: { destruct (display_current_links_fails config w items Hl Hall) as [e He].
       wp_step. eapply wp_from_run; [done|]. by right. }
  wp_step. eapply wp_from_run; [by eapply display_current_links_run|].
  destruct (links_of_inv _ _ _ Hl) as (c & d & -> & Hc & Hd).
  cbv beta iota. wp_step. unfold int at 1. wp_run.
  destruct (stdin w) as [|[line|] ls] eqn:Hin; wp_simpl;
    [by left| |wp_run; right; repeat constructor].
  destruct (PyStr.int line) as [k|] eqn:Hk; wp_run; [|by left].
  destruct (decide (1 <= k <= Z.of_nat (length items))) as [Hr|Hr].
  2: { eapply wp_from_run; [by eapply valid_choice_out_of_range|]. wp_run. by left. }
  unfold valid_choice, len, index.
  assert ((1 <=? k) = true) as -> by (apply Z.leb_le; lia).
  unfold subscript at 1, as_dict. wp_run. rewrite Hc. wp_run. rewrite Hd. wp_run.
  assert ((k <=? Z.of_nat (length items)) = true) as -> by (apply Z.leb_le; lia).
  unfold subscript at 1, as_dict. wp_run. rewrite Hc. wp_run. rewrite Hd. wp_run.
  destruct (lookup_lt_is_Some_2 items (Z.to_nat (k - 1))) as [x Hx]; [lia|].
  rewrite position_in_range by lia. simpl. rewrite Hx. wp_run.
  apply list_elem_of_lookup_2 in Hx as Hxin.
  apply (forallb_elem_of _ _ _ Hall) in Hxin.
  destruct (shown_inv _ _ Hxin) as (a & r & n & u & -> & Ha & Hn & Hu & En & Eu & Ei).
  pose proof (lookup_lt_Some _ _ _ Ha) as Hlt.
  unfold subscript at 1, as_dict. wp_run. rewrite Ha. wp_run. rewrite Hn. wp_run. printed En.
  unfold subscript at 1, as_dict. wp_run. rewrite Ha. wp_run. rewrite Hn. wp_run.
  unfold stripped_input_showing at 1, stripped_input at 1. wp_run. printed En.
  destruct ls as [|[n1|] ls]; wp_simpl; [by left| |wp_run; right; repeat constructor]. wp_run.
  apply (wp_entered a r "name" n1); [done|]. wp_simpl.
  pose (r1 := entered "name" n1 r). fold r1.
  assert (dict_get "url" r1 = Some u) as Hu1.
  { unfold r1. by rewrite dict_get_entered_ne. }
  unfold subscript at 1, as_dict. wp_run.
  rewrite list_lookup_insert_eq by done. wp_run. rewrite Hu1. wp_run.
  unfold stripped_input_showing at 1, stripped_input at 1. wp_run. printed Eu.
  destruct ls as [|[n2|] ls]; wp_simpl; [by left| |wp_run; right; repeat constructor]. wp_run.
  apply (wp_entered a r1 "url" n2); wp_simpl; [by rewrite list_lookup_insert_eq|].
  rewrite list_insert_insert_eq. pose (r2 := entered "url" n2 r1). fold r2.
  assert (dict_get "icon" r2 = dict_get "icon" r) as Hi2.
  { unfold r2, r1. by rewrite !dict_get_entered_ne. }
  unfold dot_get, as_dict. wp_run.
  rewrite list_lookup_insert_eq by done. wp_run.
  unfold stripped_input_showing at 1, stripped_input at 1. wp_run.
  rewrite Hi2. printed Ei.
  destruct ls as [|[n3|] ls]; wp_simpl; [by left| |wp_run; right; repeat constructor]. wp_run.
  apply (wp_entered a r2 "icon" n3); wp_simpl; [by rewrite list_lookup_insert_eq|].
  rewrite list_insert_insert_eq. pose (r3 := entered "icon" n3 r2). fold r3.
  assert (exists n', dict_get "name" r3 = Some n' /\ encodable n' = true) as (n' & Hn' & En').
  { unfold r3, r2, r1. rewrite !dict_get_entered_ne, dict_get_entered_eq, Hn by done.
    by apply field_after_encodable. }
  unfold subscript, as_dict. wp_run.
  rewrite list_lookup_insert_eq by done. wp_run.
  rewrite Hn'. wp_run. by printed En'.
Qed.

(** When every line read decodes, [edit_link] returns [False] only with
    the store as it was. *)
Lemma edit_link_failure config w items :
  links_of (store w) config = Some items -> Undecodable ∉ stdin w ->
  outcome (edit_link config) w = Val false ->
  store (after (edit_link config) w) = store w.
Proof.
  intros Hl Hin. pose proof (edit_link_paths config w items Hl) as H.
  unfold wp in H. unfold outcome, after.
  destruct (edit_link config w) as [[[]|e] w']; simpl in *; try done.
  intros _. by destruct H.
Qed.

(** [remove_link] and [reorder_links] change nothing when they return
    [False], and neither does [edit_link] as long as the lines it reads
    decode. *)
Lemma failure_changes_nothing config w :
  (outcome (remove_link config) w = Val false ->
     store (after (remove_link config) w) = store w /\
     links_of (store (after (remove_link config) w)) config = links_of (store w) config) /\
  (outcome (reorder_links config) w = Val false ->
     store (after (reorder_links config) w) = store w /\
     links_of (store (after (reorder_links config) w)) config = links_of (store w) config) /\
  (forall items, links_of (store w) config = Some items -> Undecodable ∉ stdin w ->
     outcome (edit_link config) w = Val false ->
     store (after (edit_link config) w) = store w).
Proof.
  split_and!.
  - intros Hfalse. destruct (remove_link_spec config w) as [Hsame _].
    specialize (Hsame Hfalse). unfold after. by rewrite Hsame.
  - intros Hfalse. destruct (reorder_links_spec config w) as [Hsame _].
    specialize (Hsame Hfalse). unfold after. by rewrite Hsame.
  - apply edit_link_failure.
Qed.

(** C6 (add_new_link, edit_link, remove_link, reorder_links): if "links" is
    a list of flat records before the call, it is one after it, however the
    call ends; and every object that was there keeps its fields in their
    order, a field added by the call coming after them. *)
Theorem edits_keep_flat_list config w :
  flat_links (store w) config = true ->
  (flat_links (store (after (add_new_link config) w)) config = true /\
   fields_kept (store w) (store (after (add_new_link config) w))) /\
  (flat_links (store (after (edit_link config) w)) config = true /\
   fields_kept (store w) (store (after (edit_link config) w))) /\
  (flat_links (store (after (remove_link config) w)) config = true /\
   fields_kept (store w) (store (after (remove_link config) w))) /\
  (flat_links (store (after (reorder_links config) w)) config = true /\
   fields_kept (store w) (store (after (reorder_links config) w))).
Proof.
  intros Hflat. split; [|split; [|split]].
  - apply (add_effect_flat config); [apply (add_new_link_spec config w)|done].
  - apply (edit_effect_flat config); [apply (edit_link_spec config w)|done].
  - apply (relink_effect_flat config); [apply (remove_link_spec config w)|done].
  - apply (relink_effect_flat config); [apply (reorder_links_spec config w)|done].
Qed.


(** ** reorder_links on a list of links *)

Lemma comprehension_int_run pieces w :
  comprehension (fun i => k <- int (PyStr.strip i) ;; ret (k - 1)) pieces w =
    match mapM (fun piece => (fun k => k - 1) <$> PyStr.int (PyStr.strip piece)) pieces with
    | Some order => (Val order, w)
    | None => (Exc ValueError, w)
    end.
Proof.
  induction pieces as [|p pieces IH]; [done|].
  simpl. unfold bind at 1. unfold bind at 1. unfold int at 1.
  destruct (PyStr.int (PyStr.strip p)) as [k|]; simpl; [|done].
  unfold bind at 1. rewrite IH. by destruct (mapM _ pieces).
Qed.

Lemma order_mismatch_false order n :
  order_mismatch order n = false <->
  (forall i, i ∈ order <-> 0 <= i < n).
Proof.
  unfold order_mismatch. rewrite negb_false_iff, bool_decide_eq_true. split.
  - intros Heq i.
    assert (i ∈ (list_to_set order : gset Z) <-> i ∈ (list_to_set (seqZ 0 n) : gset Z))
      as H by (by rewrite Heq).
    rewrite !elem_of_list_to_set, elem_of_seqZ in H. rewrite H. lia.
  - intros H. apply set_eq. intros i.
    rewrite !elem_of_list_to_set, elem_of_seqZ, H. lia.
Qed.

Lemma comprehension_index_run c d items order w :
  store w !! c = Some d -> dict_get "links" d = Some (VList items) ->
  (forall i, i ∈ order -> 0 <= i < Z.of_nat (length items)) ->
  comprehension (fun i => links <- subscript (VRef c) "links" ;; index links i) order w =
    (Val (picked items order), w).
Proof.
  intros Hc Hd. induction order as [|i order IH]; intros Hall; [done|].
  assert (0 <= i < Z.of_nat (length items)) as Hi by (apply Hall; left).
  destruct (lookup_lt_is_Some_2 items (Z.to_nat i)) as [x Hx]; [lia|].
  apply wp_eq. simpl. wp_prim. wp_run. rewrite Hc. wp_run. rewrite Hd. wp_run.
  rewrite position_in_range by done. cbn [mbind option_bind]. rewrite Hx. wp_run.
  eapply wp_from_run; [apply IH; intros j Hj; apply Hall; by right|].
  by wp_run.
Qed.

(** What [reorder_links] does on a non-empty list of links, for every line
    typed: it returns [True] exactly when the line is a list of integers in
    which each of 1..n occurs and nothing else does, however many times; the
    new list then holds the items at the entered positions, in the entered
    order. *)
Lemma reorder_links_run c d items w (line : text) rest :
  store w !! c = Some d -> dict_get "links" d = Some (VList items) ->
  items <> [] -> forallb (shown (store w)) items = true ->
  stdin w = Line line :: rest ->
  reorder_links (VRef c) w =
    match entered_order line with
    | Some order =>
        if order_mismatch order (Z.of_nat (length items))
        then (Val false, with_stdin rest w)
        else (Val true,
              with_store (<[c := dict_set "links" (VList (picked items order)) d]> (store w))
                         (with_stdin rest w))
    | None => (Val false, with_stdin rest w)
    end.
Proof.
  intros Hc Hd Hne Hall Hin.
  assert (links_of (store w) (VRef c) = Some items) as Hl.
  { unfold links_of. by rewrite Hc, Hd. }
  destruct (entered_order line) as [order|] eqn:Ho;
    [destruct (order_mismatch order (Z.of_nat (length items))) eqn:Hm|];
    unfold entered_order in Ho;
    apply wp_eq; unfold reorder_links;
    (wp_step; eapply wp_from_run; [by apply no_links_run|]);
    rewrite bool_decide_eq_false_2 by done;
    (wp_step; eapply wp_from_run; [by eapply display_current_links_run|]);
    cbv beta iota; wp_step;
    unfold subscript at 1, len at 1, stripped_input, as_dict;
    wp_run; rewrite Hc; wp_run; rewrite Hd; wp_run; rewrite Hin; wp_run;
    (eapply wp_from_eq; [apply comprehension_int_run|]);
    rewrite Ho; wp_simpl; [| |by wp_run];
    unfold subscript at 1, len at 1, as_dict;
    wp_run; rewrite Hc; wp_run; rewrite Hd; wp_run; rewrite Hm; wp_run; [done|].
  eapply wp_from_run.
  { apply (comprehension_index_run c d items); [done..|].
    intros i Hi. by apply (proj1 (order_mismatch_false _ _) Hm). }
  wp_simpl. unfold assign, as_dict. wp_run. rewrite Hc. by wp_run.
Qed.

Lemma omap_lookup_seq {A} (pre l : list A) :
  omap (fun i => (pre ++ l) !! i) (seq (length pre) (length l)) = l.
Proof.
  revert pre. induction l as [|x l IH]; intros pre; [done|].
  cbn [length seq omap list_omap]. rewrite list_lookup_middle by done.
  f_equal. specialize (IH (pre ++ [x])).
  rewrite length_app, Nat.add_1_r, <- app_assoc in IH. exact IH.
Qed.

Lemma picked_all items : picked items (seqZ 0 (Z.of_nat (length items))) = items.
Proof.
  unfold picked, seqZ. rewrite Nat2Z.id.
  transitivity (omap (fun i => ([] ++ items) !! i) (seq (length (@nil value)) (length items)));
    [|apply omap_lookup_seq].
  simpl. generalize (seq 0 (length items)). intros ns.
  induction ns as [|n ns IH]; [done|].
  cbn [fmap list_fmap omap list_omap]. rewrite Z.add_0_r, Nat2Z.id.
  by rewrite IH.
Qed.

(** When every position is entered and none twice, the new list is a
    permutation of the old one. *)
Lemma picked_permutation items order :
  (forall i, i ∈ order <-> 0 <= i < Z.of_nat (length items)) -> NoDup order ->
  picked items order ≡ₚ items.
Proof.
  intros Hall Hnodup.
  assert (order ≡ₚ seqZ 0 (Z.of_nat (length items))) as Hp.
  { apply NoDup_Permutation; [done|apply NoDup_seqZ|].
    intros i. rewrite elem_of_seqZ, Hall. lia. }
  unfold picked. rewrite Hp. apply reflexive_eq, picked_all.
Qed.

(** What [reorder_links] checks, and what it then does: [True] exactly for
    a line of integers among which each of 1..n occurs and nothing else; the
    new list is a permutation of the old one when no index is repeated. *)
Lemma reorder_links_outcome config w items (line : text) rest :
  links_of (store w) config = Some items -> items <> [] ->
  forallb (shown (store w)) items = true ->
  stdin w = Line line :: rest ->
  let w' := after (reorder_links config) w in
  let covers (order : list Z) :=
    forall i, i ∈ order <-> 0 <= i < Z.of_nat (length items) in
  (outcome (reorder_links config) w = Val true <->
     exists order, entered_order line = Some order /\ covers order) /\
  (forall order, entered_order line = Some order -> covers order ->
     links_of (store w') config = Some (picked items order) /\
     (NoDup order -> picked items order ≡ₚ items)).
Proof.
  intros Hl Hne Hall Hin. destruct (links_of_inv _ _ _ Hl) as (c & d & -> & Hc & Hd).
  cbv zeta. unfold outcome, after.
  rewrite (reorder_links_run c d items w line rest) by done.
  destruct (entered_order line) as [order|].
  - pose proof (order_mismatch_false order (Z.of_nat (length items))) as [Hto Hfrom].
    destruct (order_mismatch order (Z.of_nat (length items))) eqn:Hm; simpl.
    + split.
      * split; [done|]. intros (order' & [= <-] & Hcov).
        specialize (Hfrom Hcov). congruence.
      * intros order' [= <-] Hcov. specialize (Hfrom Hcov). congruence.
    + specialize (Hto eq_refl). split.
      * split; [|done]. intros _. by exists order.
      * intros order' [= <-] Hcov. split; [by apply links_of_insert|].
        by apply picked_permutation.
  - simpl. split; [|done]. split; [done|]. by intros (order & ? & _).
Qed.

(** ** reorder_links and a repeated index *)

(** C1 (reorder_links), at the entry "1,2,1" for two links: the function
    answers [True], and the new list has three items, the first record
    twice, so it is no permutation of the old list. *)
Theorem reorder_links_repeated_index :
  let w := sample_world ["1,2,1"] in
  let w' := after (reorder_links sample_config) w in
  links_of (store w) sample_config = Some [VRef 0%nat; VRef 1%nat] /\
  outcome (reorder_links sample_config) w = Val true /\
  links_of (store w') sample_config = Some [VRef 0%nat; VRef 1%nat; VRef 0%nat] /\
  ~ [VRef 0%nat; VRef 1%nat; VRef 0%nat] ≡ₚ [VRef 0%nat; VRef 1%nat].
Proof.
  cbv zeta. split_and!; [by vm_compute..|].
  intros Hp. apply Permutation_length in Hp. discriminate Hp.
Qed.

(** Once an index was repeated, two positions of the list hold one record:
    an edit of link 1 shows at position 3 as well. *)
Example edit_after_repeated_index :
  let w := sample_world ["1,2,1"; "1"; "Manual"; ""; ""] in
  let w1 := after (reorder_links sample_config) w in
  let w2 := after (edit_link sample_config) w1 in
  outcome (edit_link sample_config) w1 = Val true /\
  links_of (store w2) sample_config = Some [VRef 0%nat; VRef 1%nat; VRef 0%nat] /\
  store w2 !! 0%nat = Some (link "Manual" "https://docs.example" "fas fa-book").
Proof. by vm_compute. Qed.


(** ** The theorems at work on the sample data *)

(** A blank name, a blank URL, and a URL that is no URL at all. *)
Lemma add_new_link_checks_emptiness_only_witness :
  add_new_link sample_config (sample_world ["  "]) =
    (Val false, with_stdin [] (sample_world ["  "])) /\
  add_new_link sample_config (sample_world ["Wiki"; " "]) =
    (Val false, with_stdin [] (sample_world ["Wiki"; " "])) /\
  outcome (add_new_link sample_config)
    (sample_world ["Wiki"; "not a url"; ""]) = Val true.
Proof.
  split; [|split].
  - apply (proj1 (add_new_link_checks_emptiness_only sample_config
                    (sample_world ["  "])) (text_of "  ") []); reflexivity.
  - apply (proj1 (proj2 (add_new_link_checks_emptiness_only sample_config
                           (sample_world ["Wiki"; " "]))) (text_of "Wiki") (text_of " ") []);
      [reflexivity | by vm_compute | reflexivity].
  - apply (proj2 (proj2 (proj2 (add_new_link_checks_emptiness_only sample_config
                                  (sample_world ["Wiki"; "not a url"; ""])))
                    (text_of "Wiki") (text_of "not a url") (text_of "") []
                    [VRef 0%nat; VRef 1%nat]
                    eq_refl eq_refl));
      by vm_compute.
Defined.

(** A blank icon entry. *)
Lemma add_new_link_icon_witness :
  outcome (add_new_link sample_config)
    (sample_world ["Wiki"; "https://wiki.example"; "  "]) = Val true /\
  exists a r,
    links_of (store (after (add_new_link sample_config)
                       (sample_world ["Wiki"; "https://wiki.example"; "  "])))
      sample_config = Some ([VRef 0%nat; VRef 1%nat] ++ [VRef a]) /\
    store (after (add_new_link sample_config)
             (sample_world ["Wiki"; "https://wiki.example"; "  "])) !! a = Some r /\
    dict_get "icon" r = Some (VStr "fas fa-link").
Proof.
  apply (add_new_link_icon sample_config
           (sample_world ["Wiki"; "https://wiki.example"; "  "])
           [VRef 0%nat; VRef 1%nat]
           (text_of "Wiki") (text_of "https://wiki.example") (text_of "  ") []);
    [reflexivity | reflexivity | by vm_compute | by vm_compute].
Defined.



(** C10 (edit_link), at the entries "1" and "New" followed by bytes that
    are no UTF-8 at the URL prompt: the name of the first link is already
    changed when [input()] raises [UnicodeDecodeError], a [ValueError], which
    the handler meant for [int()] catches; the function returns [False] with
    the record changed.  At the prompts of [remove_link] and
    [reorder_links] the same bytes give [False] with nothing changed. *)
Theorem edit_link_undecodable_entry :
  let w := World [Line (text_of "1"); Line (text_of "New"); Undecodable]
             sample_store None [] [] in
  let w' := after (edit_link sample_config) w in
  outcome (edit_link sample_config) w = Val false /\
  store w !! 0%nat = Some (link "Docs" "https://docs.example" "fas fa-book") /\
  store w' !! 0%nat = Some (link "New" "https://docs.example" "fas fa-book") /\
  links_of (store w') sample_config = links_of (store w) sample_config /\
  remove_link sample_config (World [Undecodable] sample_store None [] []) =
    (Val false, World [] sample_store None [] []) /\
  reorder_links sample_config (World [Undecodable] sample_store None [] []) =
    (Val false, World [] sample_store None [] []).
Proof. cbv zeta. split_and!; by vm_compute. Qed.

(** The sample list is flat, and still is after an accepted reorder. *)
Lemma edits_keep_flat_list_witness :
  flat_links sample_store sample_config = true /\
  flat_links
    (store (after (reorder_links sample_config) (sample_world ["2,1,2"])))
    sample_config = true.
Proof.
  split; [reflexivity|].
  apply (edits_keep_flat_list sample_config (sample_world ["2,1,2"])).
  reflexivity.
Defined.

(** A file that holds "{}", no file, and a file that holds "{". *)
Lemma load_config_cases_witness :
  (exists v st',
     load_config sample_loads (World [] [] (Some "{}") [] []) =
       (Val v, with_store st' (World [] [] (Some "{}") [] [])) /\
     denote (S (length st')) st' v = Some (JObj [])) /\
  (exists v st',
     load_config sample_loads (World [] [] None [] []) =
       (Val v, with_store st' (World [] [] None [] [])) /\
     denote (S (length st')) st' v = Some (JObj [("links", JArr [])])) /\
  load_config sample_loads (World [] [] (Some "{") [] []) =
    (Exc (SystemExit 1), World [] [] (Some "{") [] []).
Proof.
  split; [|split].
  - destruct (proj1 (load_config_cases sample_loads sample_dumps "" git_fine
                       (World [] [] (Some "{}") [] []))
                "{}" (JObj []) eq_refl eq_refl) as (v & st' & Hrun & _ & Hback).
    by exists v, st'.
  - destruct (proj1 (proj2 (load_config_cases sample_loads sample_dumps "" git_fine
                              (World [] [] None [] [])))
                eq_refl) as (v & st' & Hrun & _ & Hback).
    by exists v, st'.
  - apply (proj2 (proj2 (load_config_cases sample_loads sample_dumps "" git_fine
                           (World [] [] (Some "{") [] [])))
             "{" eq_refl eq_refl).
Defined.

(** A removal that succeeds, one that is refused, and a view. *)
Lemma menu_round_saves_witness :
  writes (after (menu_round sample_dumps "" git_fine sample_config)
            (sample_world ["4"; "2"; ""])) = ["{...}"] /\
  writes (after (menu_round sample_dumps "" git_fine sample_config)
            (sample_world ["4"; "9"; ""])) = [] /\
  writes (after (menu_round sample_dumps "" git_fine sample_config)
            (sample_world ["1"; ""])) = [].
Proof.
  split; [|split].
  - destruct (proj1 (proj1 (proj2 (proj2 (proj2
                (menu_round_saves sample_dumps "" git_fine sample_config
                   (sample_world ["4"; "2"; ""]) [VRef 0%nat; VRef 1%nat]
                   (text_of "4") (typing ["2"; ""]) eq_refl eq_refl))))
                eq_refl) eq_refl) as [Hw _].
    exact Hw.
  - apply (proj2 (proj1 (proj2 (proj2 (proj2
             (menu_round_saves sample_dumps "" git_fine sample_config
                (sample_world ["4"; "9"; ""]) [VRef 0%nat; VRef 1%nat]
                (text_of "4") (typing ["9"; ""]) eq_refl eq_refl))))
             eq_refl)).
    discriminate.
  - apply (proj1 (menu_round_saves sample_dumps "" git_fine sample_config
                    (sample_world ["1"; ""]) [VRef 0%nat; VRef 1%nat]
                    (text_of "1") (typing [""]) eq_refl eq_refl)).
    reflexivity.
Defined.

(** No git; a run where every command succeeds; a refused push; a git
    program that is gone when the first step starts. *)
Lemma git_operations_steps_witness :
  outcome (git_operations "2026-01-01 12:00" git_missing) (sample_world []) = Val false /\
  commands (after (git_operations "2026-01-01 12:00" git_missing) (sample_world [])) =
    [git_status] /\
  outcome (git_operations "2026-01-01 12:00" git_fine) (sample_world ["new links"]) =
    Val true /\
  commands (after (git_operations "2026-01-01 12:00" git_fine)
              (sample_world ["new links"])) =
    [git_status; git_add; git_commit "new links"; git_push] /\
  outcome (git_operations "2026-01-01 12:00" push_refused) (sample_world [""]) =
    Val false /\
  outcome (git_operations "2026-01-01 12:00" git_vanishes) (sample_world [""]) =
    Exc FileNotFoundError.
Proof.
  pose proof (proj1 (git_operations_steps "2026-01-01 12:00" git_missing (sample_world []))
                ltac:(right; reflexivity)) as (Hfalse & Hcmds & _).
  pose proof (proj1 (proj1 (proj2
                (git_operations_steps "2026-01-01 12:00" git_fine
                   (sample_world ["new links"])))
                (text_of "new links") [] eq_refl eq_refl)
                (fun i _ => match i with
                            | 0%nat | 1%nat | 2%nat | _ => eq_refl
                            end)) as (Htrue & Hall).
  pose proof (proj1 (proj2 (proj1 (proj2
                (git_operations_steps "2026-01-01 12:00" push_refused
                   (sample_world [""])))
                (text_of "") [] eq_refl eq_refl))
                2%nat CalledProcessError ltac:(lia)
                ltac:(intros [|[|j]] Hj; [reflexivity | reflexivity | lia])
                eq_refl) as (Hrefused & _).
  pose proof (proj1 (proj2 (proj1 (proj2
                (git_operations_steps "2026-01-01 12:00" git_vanishes
                   (sample_world [""])))
                (text_of "") [] eq_refl eq_refl))
                0%nat FileNotFoundError ltac:(lia)
                ltac:(intros j Hj; lia)
                eq_refl) as (Hgone & _).
  split_and!; [exact Hfalse|exact Hcmds|exact Htrue|exact Hall|exact Hrefused|exact Hgone].
Defined.

(** ** The menu loop ends *)

Section Loop.
Variable json_loads : str -> option json.
Variable json_dumps : json -> str.
Variable strftime_now : str.
Variable subprocess_outcome : list (list str) -> list str -> proc_result.

Let round := menu_round json_dumps strftime_now subprocess_outcome.
Let loop := menu_loop json_dumps strftime_now subprocess_outcome.
Let main := main_menu json_loads json_dumps strftime_now subprocess_outcome.

Lemma wp_preserves (R : relation world) {A} (m : M A) w Q :
  preserves R m -> (forall r w', R w w' -> Q r w') -> wp m w Q.
Proof. intros Hm HQ. apply HQ, Hm. Qed.

Lemma fewer_lines_save config : preserves fewer_lines (save_config json_dumps config).
Proof.
  intros w. unfold fewer_lines, after, save_config, bind, get_store, write_config_file.
  simpl. by case_match.
Qed.

Lemma fewer_lines_subprocess_run argv :
  preserves fewer_lines (subprocess_run subprocess_outcome argv).
Proof.
  intros w. unfold fewer_lines, after, subprocess_run.
  by destruct (run_outcome subprocess_outcome (commands w) argv) as [[]| |].
Qed.

Lemma fewer_lines_choice config choice :
  preserves fewer_lines
    (continue <-
       (if PyStr.eqb choice "1" then display_current_links config ;;; ret true
        else if PyStr.eqb choice "2" then
          save_if json_dumps (add_new_link config) config ;;; ret true
        else if PyStr.eqb choice "3" then
          save_if json_dumps (edit_link config) config ;;; ret true
        else if PyStr.eqb choice "4" then
          save_if json_dumps (remove_link config) config ;;; ret true
        else if PyStr.eqb choice "5" then
          save_if json_dumps (reorder_links config) config ;;; ret true
        else if PyStr.eqb choice "6" then save_config json_dumps config ;;; ret true
        else if PyStr.eqb choice "7" then
          save_config json_dumps config ;;;
          _ <- git_operations strftime_now subprocess_outcome ;;
          ret true
        else if PyStr.eqb choice "8" then ret false
        else ret true) ;;
     if continue then _ <- input ;; ret true else ret false).
Proof.
  pose proof fewer_lines_input. pose proof fewer_lines_put_store.
  pose proof fewer_lines_save. pose proof fewer_lines_subprocess_run.
  unfold save_if.
  repeat first
    [ done
    | lazymatch goal with |- PreOrder _ => apply _ end
    | apply preserves_display | apply preserves_add | apply preserves_edit
    | apply preserves_remove | apply preserves_reorder | apply preserves_git
    | apply preserves_ret
    | apply preserves_bind; [| |intros ?]
    | case_match ].
Qed.

(** A round that asks for another one has read at least one line. *)
Lemma menu_round_reads config w :
  outcome (round config) w = Val true ->
  (length (stdin (after (round config) w)) < length (stdin w))%nat.
Proof.
  change (wp (round config) w (fun r w' =>
            r = Val true -> (length (stdin w') < length (stdin w))%nat)).
  unfold round, menu_round.
  wp_step. apply wp_readonly; [apply dot_get_readonly|]. intros [links|e]; [|done].
  wp_step. apply wp_readonly; [apply len_readonly|]. intros [n|e]; [|done].
  unfold stripped_input. wp_run.
  destruct (stdin w) as [|[line|] rest] eqn:Hin; wp_simpl; [done| |done]. wp_step.
  apply (wp_preserves fewer_lines); [apply fewer_lines_choice|].
  intros r w' Hw' _. unfold fewer_lines in Hw'. simpl in *. lia.
Qed.

Lemma menu_loop_ends fuel config w :
  (length (stdin w) < fuel)%nat ->
  exists r w', loop fuel config w = Some (r, w').
Proof.
  revert w. induction fuel as [|fuel IH]; intros w Hfuel; [lia|].
  simpl. pose proof (menu_round_reads config w) as Hread.
  unfold outcome, after, round in Hread.
  destruct (menu_round _ _ _ config w) as [[[]|e] w1]; simpl in Hread; [|by eauto..].
  apply IH. specialize (Hread eq_refl). lia.
Qed.

(** [main_menu] ends, by choice 8 or by an exception (the end of the input
    is one), within one round more than there are lines to read. *)
Lemma main_menu_ends w :
  exists r w', main (S (length (stdin w))) w = Some (r, w').
Proof.
  unfold main, main_menu.
  assert (stdin (after (load_config json_loads) w) = stdin w) as Hin.
  { unfold after, load_config, try_except, bind, read_config_file, json_load.
    destruct (config_file w) as [text|]; [|done].
    destruct (json_loads text) as [j|]; [|done].
    unfold bind, get_store, put_store, ret. simpl. by destruct (alloc j (store w)). }
  unfold after in Hin. destruct (load_config json_loads w) as [[config|e] w1]; [|by eauto].
  simpl in Hin. apply menu_loop_ends. rewrite Hin. lia.
Qed.

End Loop.

(** ** A session *)

(** No config.json; the user adds a link, saves and commits with the
    default message, and leaves.  The file is written three times: when it
    is created, after the add, and by choice 7. *)
Example session :
  script sample_loads sample_dumps "2026-01-01 12:00" git_fine 10
    (World (typing ["2"; " Docs "; "https://docs.example"; ""; ""; "7"; ""; ""; "8"])
           [] None [] []) =
  Some (Val tt,
        World [] [[("links", VList [VRef 1%nat])];
                  link "Docs" "https://docs.example" "fas fa-link"]
              (Some "{...}") ["{links:[]}"; "{...}"; "{...}"]
              [git_status; git_add;
               git_commit "Update Vantal Links configuration - 2026-01-01 12:00";
               git_push]).
Proof. by vm_compute. Qed.

(** ** Outside the assumptions of the properties *)

(** An item without a name stops [remove_link] at the display, with the
    [KeyError] of [link['name']]. *)
Example remove_link_nameless :
  outcome (remove_link (VRef 1%nat))
    (World (typing ["1"]) [[("url", VStr "https://docs.example")];
                  [("links", VList [VRef 0%nat])]] None [] []) = Exc KeyError.
Proof. reflexivity. Qed.

(** A configuration without "links" shows as empty, and an add to it ends
    with the [KeyError] of [config["links"]]. *)
Example add_new_link_without_list :
  outcome (display_current_links (VRef 0%nat)) (World [] [[]] None [] []) = Val tt /\
  outcome (add_new_link (VRef 0%nat))
    (World (typing ["Docs"; "https://docs.example"; ""]) [[]] None [] []) = Exc KeyError.
Proof. by split. Qed.

(** The prompts read past the end of the input: [EOFError], after the name
    was already changed. *)
Example edit_link_unanswered :
  outcome (edit_link sample_config) (sample_world ["1"; "Manual"]) = Exc EOFError /\
  store (after (edit_link sample_config) (sample_world ["1"; "Manual"])) !! 0%nat =
    Some (link "Manual" "https://docs.example" "fas fa-book").
Proof. by split. Qed.

(** git found by the status check and by no later command: the
    [FileNotFoundError] of the add is not caught. *)
Example git_operations_git_vanishes :
  git_operations "2026-01-01 12:00" git_vanishes (sample_world ["msg"]) =
    (Exc FileNotFoundError,
     with_commands [git_status; git_add] (sample_world [])).
Proof. reflexivity. Qed.

(** A name that is a lone surrogate, which [json.load] returns for the
    escape \ud800, stops the display with [UnicodeEncodeError]. *)
Example display_current_links_surrogate :
  outcome (display_current_links (VRef 1%nat))
    (World [] [[("name", VStr (Str 55296 "")); ("url", VStr "https://docs.example")];
               [("links", VList [VRef 0%nat])]] None [] []) = Exc UnicodeEncodeError.
Proof. reflexivity. Qed.

(** A commit message with a NUL character: [subprocess.run] refuses the
    argument with [ValueError] and the commit is not tried. *)
Example git_operations_nul_message :
  git_operations "2026-01-01 12:00" git_fine (World [Line nul_line] [] None [] []) =
    (Exc ValueError, World [] [] None [] [git_status; git_add]).
Proof. reflexivity. Qed.

(** * Further properties

    Beyond the properties above: the edge and error behaviour of the
    functions, the kind of configuration on which the wizard runs without
    surprise, what ends up in config.json, and what a whole session can do.
    They are numbered X1, X2, ... *)

(** ** More facts on dicts, lists and stripped text *)

Lemma dict_get_forallb (P : value -> bool) k d v :
  forallb (fun kv => P kv.2) d = true -> dict_get k d = Some v -> P v = true.
Proof.
  induction d as [|[k' v'] d IH]; [done|]. cbn [dict_get forallb].
  intros [Hv Hd]%andb_true_iff. destruct (PyStr.eqb k k'); [|by apply IH].
  by intros [= <-].
Qed.

Lemma dict_set_forallb (P : value -> bool) k v d :
  P v = true -> forallb (fun kv => P kv.2) d = true ->
  forallb (fun kv => P kv.2) (dict_set k v d) = true.
Proof.
  intros Hv. induction d as [|[k' v'] d IH]; simpl; [by rewrite Hv|].
  intros [Hv' Hd]%andb_true_iff. destruct (PyStr.eqb k k'); simpl.
  - by rewrite Hv.
  - by rewrite Hv', IH.
Qed.

(** Assigning to a key the value it has changes nothing, and of two
    assignments to one key the second wins. *)
Lemma dict_set_id k v d : dict_get k d = Some v -> dict_set k v d = d.
Proof.
  induction d as [|[k' v'] d IH]; [done|]. cbn [dict_get dict_set].
  destruct (PyStr.eqb k k'); [by intros [= ->]|]. intros H. by rewrite IH.
Qed.

Lemma dict_set_set k v v' d : dict_set k v (dict_set k v' d) = dict_set k v d.
Proof.
  induction d as [|[k' v0] d IH]; cbn [dict_set].
  - by rewrite str_eqb_refl.
  - destruct (PyStr.eqb k k') eqn:E; cbn [dict_set]; rewrite E; [done|]. by rewrite IH.
Qed.

Lemma forallb_impl {A} (P Q : A -> bool) xs :
  (forall x, P x = true -> Q x = true) -> forallb P xs = true -> forallb Q xs = true.
Proof.
  intros H Hall. apply forallb_intro. intros x Hx. apply H.
  by eapply forallb_elem_of.
Qed.

Lemma fmap_delete_list {A B} (f : A -> B) p (xs : list A) :
  f <$> delete p xs = delete p (f <$> xs).
Proof.
  revert p. induction xs as [|x xs IH]; intros [|p]; try done.
  cbn [delete list_delete fmap list_fmap]. f_equal. apply IH.
Qed.

Lemma fmap_picked (f : value -> json) items order :
  f <$> picked items order = omap (fun i => (f <$> items) !! Z.to_nat i) order.
Proof.
  unfold picked. induction order as [|i order IH]; [done|].
  cbn [omap list_omap]. rewrite list_lookup_fmap.
  destruct (items !! Z.to_nat i); cbn [fmap option_fmap option_map list_fmap]; [|done].
  f_equal. exact IH.
Qed.

Lemma picked_length items order :
  (forall i, i ∈ order -> 0 <= i < Z.of_nat (length items)) ->
  length (picked items order) = length order.
Proof.
  unfold picked. induction order as [|i order IH]; intros Hall; [done|].
  cbn [omap list_omap].
  destruct (lookup_lt_is_Some_2 items (Z.to_nat i)) as [x Hx].
  { specialize (Hall i ltac:(left)). lia. }
  rewrite Hx. simpl. f_equal. apply IH. intros j Hj. apply Hall. by right.
Qed.

Lemma rstrip_cons c s :
  PyStr.rstrip (Str c s) =
    match PyStr.rstrip s with
    | EmptyStr => if PyStr.isspace c then EmptyStr else Str c EmptyStr
    | r => Str c r
    end.
Proof. reflexivity. Qed.

Lemma rstrip_rstrip s : PyStr.rstrip (PyStr.rstrip s) = PyStr.rstrip s.
Proof.
  induction s as [|c s IH]; [done|]. rewrite rstrip_cons.
  destruct (PyStr.rstrip s) as [|c' r] eqn:E.
  - destruct (PyStr.isspace c) eqn:Hc; [done|]. rewrite rstrip_cons. simpl PyStr.rstrip.
    by rewrite Hc.
  - by rewrite rstrip_cons, IH.
Qed.

Lemma lstrip_head s :
  match PyStr.lstrip s with
  | EmptyStr => True
  | Str c _ => PyStr.isspace c = false
  end.
Proof.
  induction s as [|c s IH]; [done|]. cbn [PyStr.lstrip].
  destruct (PyStr.isspace c) eqn:Hc; [done|]. by rewrite Hc.
Qed.

Lemma rstrip_head c s :
  PyStr.isspace c = false -> exists r, PyStr.rstrip (Str c s) = Str c r.
Proof.
  intros Hc. rewrite rstrip_cons. destruct (PyStr.rstrip s); [|by eexists].
  rewrite Hc. by eexists.
Qed.

(** Stripping a stripped text changes nothing. *)
Lemma strip_strip s : PyStr.strip (PyStr.strip s) = PyStr.strip s.
Proof.
  unfold PyStr.strip. pose proof (lstrip_head s) as Hhead.
  destruct (PyStr.lstrip s) as [|c t]; [done|].
  destruct (rstrip_head c t Hhead) as [r Hr]. rewrite Hr.
  cbn [PyStr.lstrip]. rewrite Hhead, <- Hr. apply rstrip_rstrip.
Qed.

Lemma trimmed_strip line :
  PyStr.strip line <> "" -> trimmed (Some (VStr (PyStr.strip line))).
Proof. intros H. exists (PyStr.strip line). by rewrite strip_strip. Qed.

Lemma field_after_trimmed line old :
  field_after line old = old \/ trimmed (field_after line old).
Proof.
  unfold field_after. destruct (str_eqb_spec (PyStr.strip line) ""); [by left|].
  right. by apply trimmed_strip.
Qed.

(** ** display_current_links, and a configuration with no links *)

(** X1 (display_current_links): the display changes nothing, however it
    ends; and on a configuration that has a list under "links" it ends
    normally exactly when every item of the list is a dict with a name and a
    URL of which the name, the URL and the icon can be printed, that is, are
    no text with a surrogate code point.  An item of another kind stops it
    with an exception. *)
Theorem display_current_links_shows config w :
  after (display_current_links config) w = w /\
  (forall items, links_of (store w) config = Some items ->
     (outcome (display_current_links config) w = Val tt <->
      forallb (shown (store w)) items = true)).
Proof.
  split; [apply display_current_links_readonly|].
  intros items Hl. split; [intros Hok; by apply (display_current_links_ok config w)|].
  intros Hall. unfold outcome. by rewrite (display_current_links_run w config items).
Qed.

Lemma no_links_falsy c d w :
  store w !! c = Some d ->
  from_option (truthy (store w)) false (dict_get "links" d) = false ->
  no_links (VRef c) w = (Val true, w).
Proof.
  intros Hc Hf. apply wp_eq. wp_prim. wp_run. rewrite Hc. wp_run.
  by rewrite Hf.
Qed.

(** X2 (display_current_links, remove_link, edit_link, reorder_links): when
    the configuration has nothing under "links", or an empty list, or any
    other value that counts as false, the display ends at once and the three
    functions return [False]; no line is read and nothing changes. *)
Theorem nothing_to_edit c d w :
  store w !! c = Some d ->
  from_option (truthy (store w)) false (dict_get "links" d) = false ->
  display_current_links (VRef c) w = (Val tt, w) /\
  remove_link (VRef c) w = (Val false, w) /\
  edit_link (VRef c) w = (Val false, w) /\
  reorder_links (VRef c) w = (Val false, w).
Proof.
  intros Hc Hf. split_and!; apply wp_eq.
  - unfold display_current_links. wp_prim. wp_run. rewrite Hc. wp_run.
    rewrite Hf. by wp_run.
  - unfold remove_link. wp_step. eapply wp_from_run; [by eapply no_links_falsy|].
    by wp_run.
  - unfold edit_link. wp_step. eapply wp_from_run; [by eapply no_links_falsy|].
    by wp_run.
  - unfold reorder_links. wp_step. eapply wp_from_run; [by eapply no_links_falsy|].
    by wp_run.
Qed.

(** X3 (add_new_link): the add needs a list under "links".  With a name
    and a URL that are not empty, on a configuration that has nothing under
    "links" the add ends with [KeyError], and on one that has something
    else than a list there with [AttributeError]; in both cases the three
    lines were read and the new record was built, and no list refers to
    it. *)
Theorem add_new_link_needs_a_list c d w (name url icon : text) rest :
  store w !! c = Some d ->
  stdin w = Line name :: Line url :: Line icon :: rest ->
  PyStr.strip name <> "" -> PyStr.strip url <> "" ->
  let w' := with_store (store w ++ [new_record name url icon]) (with_stdin rest w) in
  (dict_get "links" d = None -> add_new_link (VRef c) w = (Exc KeyError, w')) /\
  (forall v, dict_get "links" d = Some v -> (forall items, v <> VList items) ->
     add_new_link (VRef c) w = (Exc AttributeError, w')).
Proof.
  intros Hc Hin Hn Hu. cbv zeta. split.
  - intros Hd. apply wp_eq. unfold add_new_link. wp_prim.
    wp_run. rewrite Hin. wp_run. rewrite (eqb_empty_false _ Hn).
    wp_run. rewrite (eqb_empty_false _ Hu). wp_run.
    rewrite (lookup_app_l_Some _ _ _ _ Hc). wp_run. rewrite Hd. by wp_run.
  - intros v Hd Hv. apply wp_eq. unfold add_new_link. wp_prim.
    wp_run. rewrite Hin. wp_run. rewrite (eqb_empty_false _ Hn).
    wp_run. rewrite (eqb_empty_false _ Hu). wp_run.
    rewrite (lookup_app_l_Some _ _ _ _ Hc). wp_run. rewrite Hd. wp_run.
    destruct v; wp_run; try done. by destruct (Hv xs).
Qed.


(** ** A configuration as the wizard writes it *)

Lemma wizard_config_inv st config :
  wizard_config st config = true ->
  exists c d items,
    config = VRef c /\ st !! c = Some d /\ dict_get "links" d = Some (VList items) /\
    forallb (fun kv => is_field st kv.2) d = true /\
    forallb (is_flat_record st) items = true /\
    forallb (is_link st) items = true /\
    is_flat_record st (VRef c) = false.
Proof.
  unfold wizard_config. destruct config as [| | | | | |c]; try done.
  destruct (st !! c) as [d|] eqn:Hc; [|done].
  intros [Hd Hl]%andb_true_iff.
  destruct (dict_get "links" d) as [[| | | | |items|]|] eqn:Hlinks; try done.
  exists c, d, items. split_and!; try done.
  - apply (dict_get_forallb (is_field st) _ _ _ Hd Hlinks).
  - unfold is_flat_record. rewrite Hc. apply not_true_is_false. intros Hflat.
    by apply (dict_get_forallb is_scalar _ _ _ Hflat) in Hlinks.
Qed.

Lemma wizard_config_links_of st config :
  wizard_config st config = true ->
  exists items, links_of st config = Some items /\ forallb (is_link st) items = true.
Proof.
  intros H. destruct (wizard_config_inv _ _ H) as (c & d & items & -> & Hc & Hd & _ & _ & Hl & _).
  exists items. split; [|done]. unfold links_of. by rewrite Hc, Hd.
Qed.

(** The store may change in any way that keeps flat records flat and links
    links, the configuration keeping its fields or getting a new list of
    links. *)
Lemma wizard_config_update st st' c d d' :
  wizard_config st (VRef c) = true -> st !! c = Some d ->
  (forall v, is_flat_record st v = true -> is_flat_record st' v = true) ->
  (forall v, is_flat_record st v = true -> is_link st v = true -> is_link st' v = true) ->
  st' !! c = Some d' ->
  (d' = d \/ exists items', d' = dict_set "links" (VList items') d /\
                forallb (is_flat_record st') items' = true /\
                forallb (is_link st') items' = true) ->
  wizard_config st' (VRef c) = true.
Proof.
  intros Hwf Hc Hflat Hlink Hc' Hd'.
  destruct (wizard_config_inv _ _ Hwf) as (c0 & d0 & items & [= <-] & Hc0 & Hl & Hfields & Hfl & Hli & _).
  assert (d0 = d) as -> by congruence. clear Hc0.
  assert (forallb (fun kv => is_field st' kv.2) d = true) as Hfields'.
  { revert Hfields. apply forallb_impl. intros [k v]. simpl.
    destruct v; try done. simpl. by apply forallb_impl. }
  unfold wizard_config. rewrite Hc'.
  destruct Hd' as [->|(items' & -> & Hfl' & Hli')].
  - rewrite Hfields', Hl. simpl. apply forallb_intro. intros x Hx.
    apply Hlink; by eapply forallb_elem_of.
  - rewrite dict_get_set_eq, Hli', andb_true_r.
    by apply (dict_set_forallb (is_field st')).
Qed.

Lemma is_flat_record_other st st' c :
  is_flat_record st (VRef c) = false ->
  (forall a, a <> c -> st !! a = st' !! a \/ st !! a = None) ->
  forall v, is_flat_record st v = true -> is_flat_record st' v = true.
Proof.
  intros Hc Hsame v Hv. destruct (is_flat_record_inv _ _ Hv) as (a & r & -> & Ha & Hr).
  assert (a <> c) as Hne by (intros ->; congruence).
  unfold is_flat_record. destruct (Hsame a Hne) as [<-|?]; [|congruence].
  by rewrite Ha.
Qed.

Lemma is_link_other st st' c :
  is_flat_record st (VRef c) = false ->
  (forall a, a <> c -> st !! a = st' !! a \/ st !! a = None) ->
  forall v, is_flat_record st v = true -> is_link st v = true -> is_link st' v = true.
Proof.
  intros Hc Hsame v Hv. destruct (is_flat_record_inv _ _ Hv) as (a & r & -> & Ha & Hr).
  assert (a <> c) as Hne by (intros ->; congruence).
  unfold is_link. destruct (Hsame a Hne) as [<-|?]; [|congruence]. done.
Qed.

Lemma edited_is_Some k r r' : edited r r' -> is_Some (dict_get k r) -> is_Some (dict_get k r').
Proof.
  induction 1 as [|r r1 k' s _ _ IH]; [done|].
  intros H. by apply is_Some_dict_get_set, IH.
Qed.

Lemma new_record_is_record st a name url icon :
  st !! a = Some (new_record name url icon) ->
  is_flat_record st (VRef a) = true /\ is_link st (VRef a) = true.
Proof. intros Ha. unfold is_flat_record, is_link. by rewrite Ha. Qed.

Lemma add_effect_wizard config st st' :
  add_effect config st st' -> wizard_config st config = true ->
  wizard_config st' config = true.
Proof.
  intros Heff Hwf.
  destruct (wizard_config_inv _ _ Hwf) as (c & d & items & -> & Hc & Hl & Hfields & Hfl & Hli & Hnf).
  pose proof (lookup_lt_Some _ _ _ Hc) as Hlt.
  destruct Heff as [->|(name & url & icon & [->|Heff])]; [done| |].
  - apply (wizard_config_update st _ c d d); try done.
    + apply (is_flat_record_other _ _ c); [done|]. intros a _.
      destruct (st !! a) eqn:Ha; [left|by right]. by rewrite (lookup_app_l_Some _ _ _ _ Ha).
    + apply (is_link_other _ _ c); [done|]. intros a _.
      destruct (st !! a) eqn:Ha; [left|by right]. by rewrite (lookup_app_l_Some _ _ _ _ Ha).
    + by apply lookup_app_l_Some.
    + by left.
  - destruct Heff as (c' & d' & items' & [= <-] & Hc' & Hd' & ->).
    assert (d' = d) as -> by congruence.
    assert (items' = items) as -> by congruence. clear Hc' Hd'.
    assert (forall a, a <> c -> st !! a =
              <[c := dict_set "links" (VList (items ++ [VRef (length st)])) d]>
                (st ++ [new_record name url icon]) !! a \/ st !! a = None) as Hsame.
    { intros a Hne. rewrite list_lookup_insert_ne by done.
      destruct (st !! a) eqn:Ha; [left|by right]. by rewrite (lookup_app_l_Some _ _ _ _ Ha). }
    assert (length (st ++ [new_record name url icon]) = S (length st)) as Hlen.
    { rewrite length_app. simpl. lia. }
    eapply (wizard_config_update st _ c d); try done.
    + by apply (is_flat_record_other _ _ c).
    + by apply (is_link_other _ _ c).
    + apply list_lookup_insert_eq. lia.
    + right. eexists. split; [done|].
      edestruct (new_record_is_record
                  (<[c := dict_set "links" (VList (items ++ [VRef (length st)])) d]>
                     (st ++ [new_record name url icon])) (length st) name url icon) as [Hf Hk].
      { rewrite list_lookup_insert_ne by lia. by rewrite lookup_app_r, Nat.sub_diag by lia. }
      rewrite !forallb_app. cbn [forallb]. rewrite Hf, Hk. cbn [andb]. rewrite !andb_true_r. split.
      * revert Hfl. apply forallb_impl. by apply (is_flat_record_other _ _ c).
      * apply forallb_intro. intros x Hx. apply (is_link_other st _ c); try done;
          by eapply forallb_elem_of.
Qed.

Lemma edit_effect_wizard config st st' :
  edit_effect config st st' -> wizard_config st config = true ->
  wizard_config st' config = true.
Proof.
  intros Heff Hwf.
  destruct (wizard_config_inv _ _ Hwf) as (c & d & items & -> & Hc & Hl & Hfields & Hfl & Hli & Hnf).
  destruct Heff as [->|(a & r & r' & Ha & Hin & Hed & ->)]; [done|].
  assert (links_of st (VRef c) = Some items) as Hlinks.
  { unfold links_of. by rewrite Hc, Hl. }
  specialize (Hin _ Hlinks).
  assert (is_flat_record st (VRef a) = true) as Hfa by (by eapply forallb_elem_of).
  assert (a <> c) as Hne by (intros ->; congruence).
  pose proof (lookup_lt_Some _ _ _ Ha) as Hlt.
  apply (wizard_config_update st _ c d d); try done.
  - intros v Hv. destruct (is_flat_record_inv _ _ Hv) as (b & rb & -> & Hb & Hrb).
    unfold is_flat_record. destruct (decide (a = b)) as [<-|Hab].
    + rewrite list_lookup_insert_eq by done.
      assert (rb = r) as -> by congruence. by eapply edited_scalar.
    + rewrite list_lookup_insert_ne by done. by rewrite Hb.
  - intros v Hv Hk. destruct (is_link_inv _ _ Hk) as (b & rb & n & u & -> & Hb & Hn & Hu).
    unfold is_link. destruct (decide (a = b)) as [<-|Hab].
    + rewrite list_lookup_insert_eq by done.
      assert (rb = r) as -> by congruence.
      rewrite !bool_decide_eq_true_2; [done|eapply edited_is_Some; eauto..].
    + rewrite list_lookup_insert_ne by done. rewrite Hb.
      rewrite !bool_decide_eq_true_2; eauto.
  - by rewrite list_lookup_insert_ne.
  - by left.
Qed.

Lemma relink_effect_wizard config st st' :
  relink_effect config st st' -> wizard_config st config = true ->
  wizard_config st' config = true.
Proof.
  intros Heff Hwf.
  destruct (wizard_config_inv _ _ Hwf) as (c & d & items & -> & Hc & Hl & Hfields & Hfl & Hli & Hnf).
  destruct Heff as [->|(c' & d' & items' & [= <-] & Hc' & Hsub & ->)]; [done|].
  assert (d' = d) as -> by congruence. clear Hc'.
  pose proof (lookup_lt_Some _ _ _ Hc) as Hlt.
  assert (forall a, a <> c -> st !! a =
            <[c := dict_set "links" (VList items') d]> st !! a \/ st !! a = None) as Hsame.
  { intros a Hne. left. by rewrite list_lookup_insert_ne. }
  eapply (wizard_config_update st _ c d); try done.
  - by apply (is_flat_record_other _ _ c).
  - by apply (is_link_other _ _ c).
  - by apply list_lookup_insert_eq.
  - right. eexists. split; [done|]. specialize (Hsub _ Hl). split.
    + apply forallb_intro. intros x Hx. apply (is_flat_record_other st _ c); try done.
      eapply forallb_elem_of; [done|]. by apply Hsub.
    + apply forallb_intro. intros x Hx. apply (is_link_other st _ c); try done;
        (eapply forallb_elem_of; [done|]; by apply Hsub).
Qed.

(** ** What [json.dump] writes for such a configuration *)

Lemma denote_scalar_eq fuel st v :
  is_scalar v = true -> denote (S fuel) st v = Some (json_of_scalar v).
Proof. by destruct v. Qed.

Lemma denote_items_eq den (F : value -> json) xs :
  (forall x, x ∈ xs -> den x = Some (F x)) -> denote_items den xs = Some (F <$> xs).
Proof.
  induction xs as [|x xs IH]; intros H; [done|].
  simpl. rewrite (H x) by left. fold (denote_items den xs).
  rewrite IH; [done|]. intros y Hy. apply H. by right.
Qed.

Lemma denote_fields_eq den (F : value -> json) (d : dict) :
  (forall kv, kv ∈ d -> den kv.2 = Some (F kv.2)) ->
  denote_fields den d = Some ((fun kv => (kv.1, F kv.2)) <$> d).
Proof.
  induction d as [|[k x] d IH]; intros H; [done|].
  pose proof (H (k, x) ltac:(left)) as Hx. simpl in Hx.
  simpl. rewrite Hx. fold (denote_fields den d).
  rewrite IH; [done|]. intros y Hy. apply H. by right.
Qed.

Lemma denote_flat_record_eq fuel st v :
  is_flat_record st v = true -> denote (S (S fuel)) st v = Some (json_of_item st v).
Proof.
  intros Hv. destruct (is_flat_record_inv _ _ Hv) as (a & r & -> & Ha & Hr).
  rewrite denote_ref. unfold json_of_item. rewrite Ha. simpl default.
  rewrite (denote_fields_eq _ json_of_scalar); [done|].
  intros [k x] Hx. simpl. apply denote_scalar_eq.
  by apply (forallb_elem_of _ _ _ Hr) in Hx.
Qed.

Lemma denote_field_eq st c d v :
  st !! c = Some d -> is_flat_record st (VRef c) = false ->
  is_field st v = true -> denote (length st) st v = Some (json_of_field st v).
Proof.
  intros Hc Hnf Hv. pose proof (lookup_lt_Some _ _ _ Hc) as Hlt.
  destruct (length st) as [|[|n]] eqn:Hlen; [lia| |].
  - destruct v as [| | | | |xs|]; try done.
    destruct xs as [|x xs]; [done|]. simpl in Hv.
    apply andb_true_iff in Hv as [Hx _].
    destruct (is_flat_record_inv _ _ Hx) as (a & r & -> & Ha & Hr).
    pose proof (lookup_lt_Some _ _ _ Ha) as Hlt'. assert (a = c) as -> by lia.
    congruence.
  - destruct v as [| | | | |xs|]; try done.
    rewrite denote_list. unfold json_of_field.
    rewrite (denote_items_eq _ (json_of_item st)); [done|].
    intros x Hx. apply denote_flat_record_eq.
    by apply (forallb_elem_of _ _ _ Hv).
Qed.

(** What [json.dump] writes for a configuration of this kind. *)
Lemma wizard_config_document st c d :
  wizard_config st (VRef c) = true -> st !! c = Some d ->
  denote (S (length st)) st (VRef c) = Some (document_of st d).
Proof.
  intros Hwf Hc.
  destruct (wizard_config_inv _ _ Hwf)
    as (c0 & d0 & items & [= <-] & Hc0 & Hl & Hfields & Hfl & Hli & Hnf).
  assert (d0 = d) as -> by congruence.
  rewrite denote_ref, Hc. unfold document_of.
  rewrite (denote_fields_eq _ (json_of_field st)); [done|].
  intros [k x] Hx. simpl. apply (denote_field_eq st c d); try done.
  by apply (forallb_elem_of _ _ _ Hfields) in Hx.
Qed.

(** So a configuration of this kind can always be written. *)
Lemma wizard_config_denote st config :
  wizard_config st config = true ->
  is_Some (denote (S (length st)) st config).
Proof.
  intros Hwf. destruct (wizard_config_inv _ _ Hwf) as (c & d & items & -> & Hc & _).
  rewrite (wizard_config_document st c d Hwf Hc). by eexists.
Qed.


(** ** The editing functions on such a configuration *)

Lemma ends_with_mono {A} es es' (r : result A) :
  es ⊆ es' -> ends_with es r -> ends_with es' r.
Proof. intros Hsub. destruct r as [a|e]; [done|]. apply Hsub. Qed.

Lemma shown_config_inv st config :
  shown_config st config = true ->
  wizard_config st config = true /\
  exists items, links_of st config = Some items /\ forallb (shown st) items = true.
Proof.
  unfold shown_config. intros [Hwf Hall]%andb_true_iff. split; [done|].
  destruct (links_of st config) as [items|]; [by exists items|done].
Qed.

Lemma shown_config_intro st config items :
  wizard_config st config = true -> links_of st config = Some items ->
  forallb (shown st) items = true -> shown_config st config = true.
Proof. intros Hwf Hl Hall. unfold shown_config. by rewrite Hwf, Hl. Qed.

Lemma shown_other st st' c :
  is_flat_record st (VRef c) = false ->
  (forall a, a <> c -> st !! a = st' !! a \/ st !! a = None) ->
  forall v, is_flat_record st v = true -> shown st v = true -> shown st' v = true.
Proof.
  intros Hc Hsame v Hv. destruct (is_flat_record_inv _ _ Hv) as (a & r & -> & Ha & Hr).
  assert (a <> c) as Hne by (intros ->; congruence).
  unfold shown. destruct (Hsame a Hne) as [<-|?]; [|congruence]. done.
Qed.

(** A field after some assignments: what it was, or a stripped line that
    is not empty. *)
Lemma edited_get r r' k :
  edited r r' ->
  dict_get k r' = dict_get k r \/
  exists line : text, dict_get k r' = Some (VStr (PyStr.strip line)) /\ PyStr.strip line <> "".
Proof.
  induction 1 as [|r r1 k' line Hline _ IH]; [by left|].
  destruct (decide (k = k')) as [->|Hne].
  - right. exists line. split; [apply dict_get_set_eq|done].
  - by rewrite dict_get_set_ne.
Qed.

Lemma edited_encodable r r' k v :
  edited r r' -> dict_get k r = Some v -> encodable v = true ->
  exists v', dict_get k r' = Some v' /\ encodable v' = true.
Proof.
  intros He Hk Hv. destruct (edited_get r r' k He) as [->|(line & -> & _)].
  - by exists v.
  - eexists. split; [done|]. apply encodable_strip.
Qed.

Lemma edited_shown st a r r' :
  st !! a = Some r -> edited r r' -> shown st (VRef a) = true ->
  shown (<[a := r']> st) (VRef a) = true.
Proof.
  intros Ha He Hs. pose proof (lookup_lt_Some _ _ _ Ha) as Hlt.
  destruct (shown_inv _ _ Hs) as (a' & r0 & n & u & [= <-] & Ha' & Hn & Hu & En & Eu & Ei).
  assert (r0 = r) as -> by congruence.
  destruct (edited_encodable r r' "name" n He Hn En) as (n' & Hn' & En').
  destruct (edited_encodable r r' "url" u He Hu Eu) as (u' & Hu' & Eu').
  unfold shown. rewrite list_lookup_insert_eq by done. rewrite Hn', Hu', En', Eu'.
  cbn [andb]. destruct (edited_get r r' "icon" He) as [->|(line & -> & _)]; [done|].
  apply encodable_strip.
Qed.

Lemma new_record_shown st a (name url icon : text) :
  st !! a = Some (new_record name url icon) -> shown st (VRef a) = true.
Proof.
  intros Ha. unfold shown. rewrite Ha. unfold new_record. cbn [dict_get].
  simpl PyStr.eqb. cbv iota. cbn [default]. rewrite !encodable_strip. cbn [andb].
  destruct (PyStr.eqb (PyStr.strip icon) ""); [done|]. apply encodable_strip.
Qed.

Lemma add_effect_shown config st st' :
  add_effect config st st' -> shown_config st config = true ->
  shown_config st' config = true.
Proof.
  intros Heff [Hwf (items & Hl & Hall)]%shown_config_inv.
  pose proof (add_effect_wizard _ _ _ Heff Hwf) as Hwf'.
  destruct (wizard_config_inv _ _ Hwf) as (c & d & items0 & -> & Hc & Hd & _ & Hfl & _ & Hnf).
  assert (items0 = items) as ->.
  { unfold links_of in Hl. rewrite Hc, Hd in Hl. congruence. }
  pose proof (lookup_lt_Some _ _ _ Hc) as Hlt.
  destruct Heff as [->|(name & url & icon & [->|Heff])].
  - by apply (shown_config_intro _ _ items).
  - apply (shown_config_intro _ _ items); [done| |].
    + unfold links_of. by rewrite (lookup_app_l_Some _ _ _ _ Hc), Hd.
    + apply forallb_intro. intros x Hx.
      apply (shown_other st _ c); [done| |by eapply forallb_elem_of..].
      intros a _. destruct (st !! a) eqn:Ha; [left|by right].
      by rewrite (lookup_app_l_Some _ _ _ _ Ha).
  - destruct Heff as (c' & d' & items' & [= <-] & Hc' & Hd' & ->).
    assert (d' = d) as -> by congruence.
    assert (items' = items) as -> by congruence. clear Hc' Hd'.
    assert (length (st ++ [new_record name url icon]) = S (length st)) as Hlen.
    { rewrite length_app. simpl. lia. }
    apply (shown_config_intro _ _ (items ++ [VRef (length st)])); [done| |].
    + unfold links_of. rewrite list_lookup_insert_eq by lia. by rewrite dict_get_set_eq.
    + rewrite forallb_app. apply andb_true_iff. split.
      * apply forallb_intro. intros x Hx.
        apply (shown_other st _ c); [done| |by eapply forallb_elem_of..].
        intros a Hne. rewrite list_lookup_insert_ne by done.
        destruct (st !! a) eqn:Ha; [left|by right].
        by rewrite (lookup_app_l_Some _ _ _ _ Ha).
      * cbn [forallb]. rewrite andb_true_r. apply (new_record_shown _ _ name url icon).
        rewrite list_lookup_insert_ne by lia. by rewrite lookup_app_r, Nat.sub_diag by lia.
Qed.

Lemma edit_effect_shown config st st' :
  edit_effect config st st' -> shown_config st config = true ->
  shown_config st' config = true.
Proof.
  intros Heff [Hwf (items & Hl & Hall)]%shown_config_inv.
  pose proof (edit_effect_wizard _ _ _ Heff Hwf) as Hwf'.
  destruct (wizard_config_inv _ _ Hwf) as (c & d & items0 & -> & Hc & Hd & _ & Hfl & _ & Hnf).
  assert (items0 = items) as ->.
  { unfold links_of in Hl. rewrite Hc, Hd in Hl. congruence. }
  destruct Heff as [->|(a & r & r' & Ha & Hin & Hed & ->)].
  { by apply (shown_config_intro _ _ items). }
  specialize (Hin _ Hl).
  assert (is_flat_record st (VRef a) = true) as Hfa by (by eapply forallb_elem_of).
  assert (a <> c) as Hne by (intros ->; congruence).
  pose proof (lookup_lt_Some _ _ _ Ha) as Hlt.
  apply (shown_config_intro _ _ items); [done| |].
  - unfold links_of. rewrite list_lookup_insert_ne by done. by rewrite Hc, Hd.
  - apply forallb_intro. intros x Hx.
    pose proof (forallb_elem_of _ _ _ Hall Hx) as Hsx.
    destruct (shown_inv _ _ Hsx) as (b & rb & n & u & -> & Hb & _).
    destruct (decide (b = a)) as [->|Hba].
    + by apply (edited_shown st a r r').
    + unfold shown in *. by rewrite list_lookup_insert_ne by done.
Qed.

Lemma relink_effect_shown config st st' :
  relink_effect config st st' -> shown_config st config = true ->
  shown_config st' config = true.
Proof.
  intros Heff [Hwf (items & Hl & Hall)]%shown_config_inv.
  pose proof (relink_effect_wizard _ _ _ Heff Hwf) as Hwf'.
  destruct (wizard_config_inv _ _ Hwf) as (c & d & items0 & -> & Hc & Hd & _ & Hfl & _ & Hnf).
  assert (items0 = items) as ->.
  { unfold links_of in Hl. rewrite Hc, Hd in Hl. congruence. }
  destruct Heff as [->|(c' & d' & items' & [= <-] & Hc' & Hsub & ->)].
  { by apply (shown_config_intro _ _ items). }
  assert (d' = d) as -> by congruence. clear Hc'.
  pose proof (lookup_lt_Some _ _ _ Hc) as Hlt. specialize (Hsub _ Hd).
  apply (shown_config_intro _ _ items'); [done| |].
  - unfold links_of. rewrite list_lookup_insert_eq by done. by rewrite dict_get_set_eq.
  - apply forallb_intro. intros x Hx. apply Hsub in Hx.
    apply (shown_other st _ c); [done| |by eapply forallb_elem_of..].
    intros a Hne. left. by rewrite list_lookup_insert_ne.
Qed.

Ltac listed := solve [unfold ends_with, prompt_errors, git_errors; cbn [app]; repeat constructor].

Lemma add_new_link_ends config w items :
  links_of (store w) config = Some items ->
  ends_with prompt_errors (outcome (add_new_link config) w).
Proof.
  intros Hl. destruct (links_of_inv _ _ _ Hl) as (c & d & -> & Hc & Hd).
  change (wp (add_new_link (VRef c)) w (fun r _ => ends_with prompt_errors r)).
  unfold add_new_link, stripped_input.
  wp_run. destruct (stdin w) as [|[name|] ls]; wp_simpl; [listed| |listed]. wp_run.
  destruct (PyStr.eqb (PyStr.strip name) ""); wp_run; [done|].
  destruct ls as [|[url|] ls]; wp_simpl; [listed| |listed]. wp_run.
  destruct (PyStr.eqb (PyStr.strip url) ""); wp_run; [done|].
  destruct ls as [|[icon|] ls]; wp_simpl; [listed| |listed]. wp_run.
  wp_prim. wp_run.
  rewrite (lookup_app_l_Some _ _ _ _ Hc). wp_run. rewrite Hd. wp_run.
  rewrite (lookup_app_l_Some _ _ _ _ Hc). wp_run.
  by rewrite encodable_stripped.
Qed.

(** Bytes that do not decode at the prompt of [remove_link]: [False]. *)
Lemma remove_link_undecodable config items w rest :
  links_of (store w) config = Some items -> items <> [] ->
  forallb (shown (store w)) items = true ->
  stdin w = Undecodable :: rest ->
  remove_link config w = (Val false, with_stdin rest w).
Proof.
  intros Hl Hne Hall Hin.
  apply wp_eq. unfold remove_link.
  wp_step. eapply wp_from_run; [by apply no_links_run|].
  rewrite bool_decide_eq_false_2 by done.
  wp_step. eapply wp_from_run; [by eapply display_current_links_run|].
  wp_prim. wp_run. rewrite Hin. by wp_run.
Qed.

Lemma remove_link_unanswered config items w :
  links_of (store w) config = Some items -> items <> [] ->
  forallb (shown (store w)) items = true ->
  stdin w = [] ->
  remove_link config w = (Exc EOFError, w).
Proof.
  intros Hl Hne Hall Hin.
  apply wp_eq. unfold remove_link.
  wp_step. eapply wp_from_run; [by apply no_links_run|].
  rewrite bool_decide_eq_false_2 by done.
  wp_step. eapply wp_from_run; [by eapply display_current_links_run|].
  wp_prim. wp_run. rewrite Hin. by wp_run.
Qed.

Lemma remove_link_ends config w items :
  links_of (store w) config = Some items ->
  forallb (shown (store w)) items = true ->
  ends_with [EOFError] (outcome (remove_link config) w).
Proof.
  intros Hl Hall. unfold outcome.
  destruct (decide (items = [])) as [->|Hne].
  { assert (remove_link config w = (Val false, w)) as ->; [|done].
    apply wp_eq. unfold remove_link.
    wp_step. eapply wp_from_run; [by apply no_links_run|]. by wp_run. }
  destruct (stdin w) as [|[line|] rest] eqn:Hin.
  - rewrite (remove_link_unanswered config items w) by done. listed.
  - destruct (PyStr.int line) as [k|] eqn:Hk.
    + destruct (decide (1 <= k <= Z.of_nat (length items))) as [Hr|Hr].
      * destruct (links_of_inv _ _ _ Hl) as (c & d & -> & Hc & Hd).
        by rewrite (remove_link_run c d items w line rest k).
      * by rewrite (remove_link_out_of_range config items w line rest k).
    + by rewrite (remove_link_not_a_number config items w line rest).
  - by rewrite (remove_link_undecodable config items w rest).
Qed.

Lemma reorder_links_unread config items w :
  links_of (store w) config = Some items -> items <> [] ->
  forallb (shown (store w)) items = true ->
  match stdin w with
  | [] => reorder_links config w = (Exc EOFError, w)
  | Undecodable :: rest => reorder_links config w = (Val false, with_stdin rest w)
  | Line _ :: _ => True
  end.
Proof.
  intros Hl Hne Hall. destruct (links_of_inv _ _ _ Hl) as (c & d & -> & Hc & Hd).
  destruct (stdin w) as [|[line|] rest] eqn:Hin; [|done|].
  all: apply wp_eq; unfold reorder_links;
    (wp_step; eapply wp_from_run; [by apply no_links_run|]);
    rewrite bool_decide_eq_false_2 by done;
    (wp_step; eapply wp_from_run; [by eapply display_current_links_run|]);
    cbv beta iota; wp_step;
    unfold subscript at 1, len at 1, stripped_input, as_dict;
    wp_run; rewrite Hc; wp_run; rewrite Hd; wp_run; rewrite Hin; by wp_run.
Qed.

Lemma reorder_links_ends config w items :
  links_of (store w) config = Some items ->
  forallb (shown (store w)) items = true ->
  ends_with [EOFError] (outcome (reorder_links config) w).
Proof.
  intros Hl Hall. unfold outcome.
  destruct (decide (items = [])) as [->|Hne].
  { assert (reorder_links config w = (Val false, w)) as ->; [|done].
    apply wp_eq. unfold reorder_links.
    wp_step. eapply wp_from_run; [by apply no_links_run|]. by wp_run. }
  pose proof (reorder_links_unread config items w Hl Hne Hall) as Hun.
  destruct (links_of_inv _ _ _ Hl) as (c & d & -> & Hc & Hd).
  destruct (stdin w) as [|[line|] rest] eqn:Hin.
  - rewrite Hun. listed.
  - rewrite (reorder_links_run c d items w line rest) by done.
    destruct (entered_order line) as [order|]; [|done].
    by destruct (order_mismatch order (Z.of_nat (length items))).
  - by rewrite Hun.
Qed.

Lemma edit_link_ends config w items :
  links_of (store w) config = Some items ->
  forallb (shown (store w)) items = true ->
  ends_with [EOFError] (outcome (edit_link config) w).
Proof.
  intros Hl Hall. pose proof (edit_link_paths config w items Hl) as H.
  unfold wp in H. unfold outcome. destruct (edit_link config w) as [[b|e] w']; [done|].
  simpl in *. destruct H as [->|H]; [listed|congruence].
Qed.

(** X4 (add_new_link, edit_link, remove_link, reorder_links): on a
    configuration whose fields are scalars or lists of flat records, "links"
    being a list of records with a name and a URL that the display can
    show, each of [edit_link], [remove_link] and [reorder_links] ends with an
    answer or, when the input runs out, with [EOFError]; [add_new_link],
    whose prompts stand in no [try], ends with an answer, with [EOFError] or
    with the [UnicodeDecodeError] of a line that does not decode.  No other
    exception leaves them, and each leaves a configuration of the same
    kind, however it ends. *)
Theorem edits_end_well config w :
  shown_config (store w) config = true ->
  (ends_with prompt_errors (outcome (add_new_link config) w) /\
   shown_config (store (after (add_new_link config) w)) config = true) /\
  (ends_with [EOFError] (outcome (edit_link config) w) /\
   shown_config (store (after (edit_link config) w)) config = true) /\
  (ends_with [EOFError] (outcome (remove_link config) w) /\
   shown_config (store (after (remove_link config) w)) config = true) /\
  (ends_with [EOFError] (outcome (reorder_links config) w) /\
   shown_config (store (after (reorder_links config) w)) config = true).
Proof.
  intros Hwf. destruct (shown_config_inv _ _ Hwf) as (_ & items & Hl & Hall).
  split; [|split; [|split]]; split.
  - by eapply add_new_link_ends.
  - apply (add_effect_shown config (store w)); [apply (add_new_link_spec config w)|done].
  - by eapply edit_link_ends.
  - apply (edit_effect_shown config (store w)); [apply (edit_link_spec config w)|done].
  - by eapply remove_link_ends.
  - apply (relink_effect_shown config (store w)); [apply (remove_link_spec config w)|done].
  - by eapply reorder_links_ends.
  - apply (relink_effect_shown config (store w)); [apply (reorder_links_spec config w)|done].
Qed.

(** ** Stored texts, and operations in sequence *)

Lemma is_flat_record_app st more v :
  is_flat_record st v = true -> is_flat_record (st ++ more) v = true.
Proof.
  intros Hv. destruct (is_flat_record_inv _ _ Hv) as (a & r & -> & Ha & Hr).
  unfold is_flat_record. by rewrite (lookup_app_l_Some _ _ _ _ Ha).
Qed.

Lemma is_link_app st more v :
  is_link st v = true -> is_link (st ++ more) v = true.
Proof.
  intros Hv. destruct (is_link_inv _ _ Hv) as (a & r & n & u & -> & Ha & Hn & Hu).
  unfold is_link. rewrite (lookup_app_l_Some _ _ _ _ Ha).
  rewrite !bool_decide_eq_true_2; eauto.
Qed.

Lemma is_link_insert_links st c d v x :
  st !! c = Some d ->
  is_link st x = true -> is_link (<[c := dict_set "links" v d]> st) x = true.
Proof.
  intros Hc Hx. destruct (is_link_inv _ _ Hx) as (a & r & n & u & -> & Ha & Hn & Hu).
  unfold is_link. destruct (decide (a = c)) as [->|Hne].
  - rewrite list_lookup_insert_eq by (by eapply lookup_lt_Some).
    assert (r = d) as -> by congruence.
    rewrite !bool_decide_eq_true_2; [done|apply is_Some_dict_get_set; eauto..].
  - rewrite list_lookup_insert_ne by done. rewrite Ha.
    rewrite !bool_decide_eq_true_2; eauto.
Qed.

Lemma shown_app st more v : shown st v = true -> shown (st ++ more) v = true.
Proof.
  intros Hv. destruct (shown_inv _ _ Hv) as (a & r & n & u & -> & Ha & _).
  unfold shown in *. rewrite (lookup_app_l_Some _ _ _ _ Ha). by rewrite Ha in Hv.
Qed.

Lemma shown_insert_links st c d v x :
  st !! c = Some d ->
  shown st x = true -> shown (<[c := dict_set "links" v d]> st) x = true.
Proof.
  intros Hc Hx. destruct (shown_inv _ _ Hx) as (a & r & n & u & -> & Ha & Hn & Hu & En & Eu & Ei).
  unfold shown. destruct (decide (a = c)) as [->|Hne].
  - rewrite list_lookup_insert_eq by (by eapply lookup_lt_Some).
    assert (r = d) as -> by congruence.
    rewrite !dict_get_set_ne by done. by rewrite Hn, Hu, En, Eu, Ei.
  - rewrite list_lookup_insert_ne by done. by rewrite Ha, Hn, Hu, En, Eu, Ei.
Qed.

(** X5 (add_new_link, edit_link): the texts the wizard stores are stripped
    and not empty.  The record that a successful add appends has exactly the
    fields name, url and icon, each a non-empty text without white space at
    either end; after an edit each of these three fields of the selected
    record is what it was, or such a text. *)
Theorem wizard_stores_trimmed_text config w items :
  links_of (store w) config = Some items ->
  (forall (name url icon : text) rest,
     stdin w = Line name :: Line url :: Line icon :: rest ->
     outcome (add_new_link config) w = Val true ->
     exists r, store (after (add_new_link config) w) !! length (store w) = Some r /\
       keys r = ["name"; "url"; "icon"] /\
       trimmed (dict_get "name" r) /\ trimmed (dict_get "url" r) /\
       trimmed (dict_get "icon" r)) /\
  (forall (line n1 n2 n3 : text) rest k a r,
     forallb (is_link (store w)) items = true ->
     stdin w = Line line :: Line n1 :: Line n2 :: Line n3 :: rest ->
     PyStr.int line = Some k -> 1 <= k <= Z.of_nat (length items) ->
     items !! Z.to_nat (k - 1) = Some (VRef a) -> store w !! a = Some r ->
     exists r', store (after (edit_link config) w) !! a = Some r' /\
       forall f, f ∈ ["name"; "url"; "icon"] ->
         dict_get f r' = dict_get f r \/ trimmed (dict_get f r')).
Proof.
  intros Hl. destruct (links_of_inv _ _ _ Hl) as (c & d & -> & Hc & Hd). split.
  - intros name url icon rest Hin. unfold outcome, after.
    destruct (decide (PyStr.strip name = "")) as [Hn|Hn].
    { by rewrite (add_new_link_empty_name (VRef c) w name _ Hin Hn). }
    destruct (decide (PyStr.strip url = "")) as [Hu|Hu].
    { by rewrite (add_new_link_empty_url (VRef c) w name url _ Hin Hn Hu). }
    intros _. rewrite (add_new_link_run c d items w name url icon rest) by done.
    cbn [fst snd store with_store].
    pose proof (lookup_lt_Some _ _ _ Hc) as Hlt.
    exists (new_record name url icon).
    rewrite list_lookup_insert_ne by lia.
    rewrite lookup_app_r, Nat.sub_diag by lia.
    split_and!; [done|done|by apply trimmed_strip..|].
    unfold new_record. cbn [dict_get]. simpl PyStr.eqb. cbv iota.
    destruct (str_eqb_spec (PyStr.strip icon) ""); [|by apply trimmed_strip].
    by exists default_icon.
  - intros line n1 n2 n3 rest k a r _ _ _ _ _ Ha.
    destruct (edit_link_spec (VRef c) w) as [Hsame|(a0 & r0 & r0' & Ha0 & _ & Hed & Hst)].
    { exists r. unfold after. rewrite Hsame. split; [done|]. by left. }
    unfold after. rewrite Hst. pose proof (lookup_lt_Some _ _ _ Ha0) as Hlt.
    destruct (decide (a = a0)) as [->|Hne].
    + exists r0'. rewrite list_lookup_insert_eq by done. split; [done|].
      assert (r0 = r) as -> by congruence.
      intros f _. destruct (edited_get r r0' f Hed) as [->|(entry & -> & Hentry)]; [by left|].
      right. by apply trimmed_strip.
    + exists r. rewrite list_lookup_insert_ne by done. split; [done|]. by left.
Qed.

(** X6 (add_new_link, remove_link): an add followed by the removal of the
    last link, the one just added, gives back the list of links and every
    object as they were; the record that was added stays behind as an
    object that nothing refers to. *)
Theorem add_then_remove_last config w items (name url icon line : text) rest :
  links_of (store w) config = Some items ->
  forallb (shown (store w)) items = true ->
  stdin w = Line name :: Line url :: Line icon :: Line line :: rest ->
  PyStr.strip name <> "" -> PyStr.strip url <> "" ->
  PyStr.int line = Some (Z.of_nat (length items) + 1) ->
  let w1 := after (add_new_link config) w in
  let w2 := after (remove_link config) w1 in
  outcome (add_new_link config) w = Val true /\
  outcome (remove_link config) w1 = Val true /\
  links_of (store w2) config = Some items /\
  store w2 = store w ++ [new_record name url icon] /\
  stdin w2 = rest.
Proof.
  intros Hl Hall Hin Hn Hu Hk.
  destruct (links_of_inv _ _ _ Hl) as (c & d & -> & Hc & Hd).
  cbv zeta. unfold outcome, after.
  rewrite (add_new_link_run c d items w name url icon (Line line :: rest)) by done.
  set (st1 := store w ++ [new_record name url icon]).
  set (d1 := dict_set "links" (VList (items ++ [VRef (length (store w))])) d).
  pose proof (lookup_lt_Some _ _ _ Hc) as Hlt.
  assert (st1 !! c = Some d) as Hc1 by (by apply lookup_app_l_Some).
  assert (length st1 = S (length (store w))) as Hlen.
  { unfold st1. rewrite length_app. simpl. lia. }
  cbn [fst snd].
  rewrite (remove_link_run c d1 (items ++ [VRef (length (store w))]) _ line rest
             (Z.of_nat (length items) + 1)).
  - cbn [fst snd store with_store with_stdin stdin].
    replace (Z.to_nat (Z.of_nat (length items) + 1 - 1)) with (length items) by lia.
    assert (delete (length items) (items ++ [VRef (length (store w))]) = items) as ->.
    { rewrite delete_take_drop, take_app_length, drop_ge, app_nil_r; [done|].
      rewrite length_app. simpl. lia. }
    unfold d1. rewrite list_insert_insert_eq, dict_set_set, (dict_set_id _ _ _ Hd).
    rewrite (list_insert_id _ _ _ Hc1).
    split_and!; try done. unfold links_of. by rewrite Hc1, Hd.
  - cbn [store with_store]. apply list_lookup_insert_eq. lia.
  - apply dict_get_set_eq.
  - cbn [store with_store]. rewrite forallb_app. apply andb_true_iff. split.
    + apply forallb_intro. intros x Hx. apply shown_insert_links; [done|].
      unfold st1. apply shown_app. by eapply forallb_elem_of.
    + cbn [forallb]. rewrite andb_true_r. apply shown_insert_links; [done|].
      apply (new_record_shown _ _ name url icon). unfold st1. by rewrite list_lookup_middle.
  - done.
  - done.
  - rewrite length_app. simpl. lia.
Qed.

(** X7 (reorder_links): on a non-empty list of links the function answers
    [True] exactly when the line is a list of integers in which each of 1..n
    occurs and nothing else does, and [False] otherwise, the line being read
    in both cases.  On [True] the new list holds the items at the entered
    positions in the entered order, so it is as long as the entry; no other
    object changes; the list is a permutation of the old one when no
    position is entered twice, and nothing at all changes when the positions
    are entered in their current order. *)
Theorem reorder_links_accepts config w items (line : text) rest :
  links_of (store w) config = Some items -> items <> [] ->
  forallb (shown (store w)) items = true ->
  stdin w = Line line :: rest ->
  let w' := after (reorder_links config) w in
  let covers (order : list Z) :=
    forall i, i ∈ order <-> 0 <= i < Z.of_nat (length items) in
  (outcome (reorder_links config) w = Val true <->
     exists order, entered_order line = Some order /\ covers order) /\
  (outcome (reorder_links config) w = Val true \/
   reorder_links config w = (Val false, with_stdin rest w)) /\
  (forall order, entered_order line = Some order -> covers order ->
     links_of (store w') config = Some (picked items order) /\
     length (picked items order) = length order /\
     (forall a, VRef a <> config -> store w' !! a = store w !! a) /\
     stdin w' = rest /\
     (NoDup order -> picked items order ≡ₚ items) /\
     (order = seqZ 0 (Z.of_nat (length items)) -> store w' = store w)).
Proof.
  intros Hl Hne Hall Hin. destruct (links_of_inv _ _ _ Hl) as (c & d & -> & Hc & Hd).
  cbv zeta. unfold outcome, after.
  rewrite (reorder_links_run c d items w line rest) by done.
  destruct (entered_order line) as [order|].
  - pose proof (order_mismatch_false order (Z.of_nat (length items))) as [Hto Hfrom].
    destruct (order_mismatch order (Z.of_nat (length items))) eqn:Hm; simpl.
    + split_and!.
      * split; [done|]. intros (order' & [= <-] & Hcov).
        specialize (Hfrom Hcov). congruence.
      * by right.
      * intros order' [= <-] Hcov. specialize (Hfrom Hcov). congruence.
    + specialize (Hto eq_refl). split_and!.
      * split; [|done]. intros _. by exists order.
      * by left.
      * intros order' [= <-] Hcov. split_and!.
        -- by apply links_of_insert.
        -- apply picked_length. intros i Hi. by apply Hcov.
        -- intros a Ha. rewrite list_lookup_insert_ne; [done|congruence].
        -- done.
        -- by apply picked_permutation.
        -- intros ->. rewrite picked_all, dict_set_id by done.
           by rewrite list_insert_id.
  - simpl. split_and!; [|by right|done]. split; [done|]. by intros (order & ? & _).
Qed.



(** ** The document after an edit *)

Lemma json_of_item_other st st' c v :
  is_flat_record st (VRef c) = false ->
  (forall a r, st !! a = Some r -> a <> c -> st' !! a = Some r) ->
  is_flat_record st v = true -> json_of_item st' v = json_of_item st v.
Proof.
  intros Hnf Hsame Hv. destruct (is_flat_record_inv _ _ Hv) as (a & r & -> & Ha & Hr).
  assert (a <> c) as Hne by (intros ->; congruence).
  unfold json_of_item. by rewrite Ha, (Hsame a r Ha Hne).
Qed.

Lemma json_of_field_other st st' c v :
  is_flat_record st (VRef c) = false ->
  (forall a r, st !! a = Some r -> a <> c -> st' !! a = Some r) ->
  is_field st v = true -> json_of_field st' v = json_of_field st v.
Proof.
  intros Hnf Hsame Hv. destruct v as [| | | | |xs|]; try done.
  unfold json_of_field. f_equal. apply list_fmap_ext. intros i x Hx.
  apply (json_of_item_other st st' c); try done.
  apply (forallb_elem_of _ _ _ Hv). by eapply list_elem_of_lookup_2.
Qed.

Lemma fmap_dict_set (F : value -> json) k v d :
  (fun kv => (kv.1, F kv.2)) <$> dict_set k v d =
    json_set k (F v) ((fun kv => (kv.1, F kv.2)) <$> d).
Proof.
  induction d as [|[k' v'] d IH]; [done|]. cbn [dict_set fmap list_fmap json_set fst snd].
  destruct (PyStr.eqb k k'); [done|]. cbn [fmap list_fmap fst snd]. f_equal. apply IH.
Qed.

Lemma json_get_fmap (F : value -> json) k d :
  json_get k ((fun kv => (kv.1, F kv.2)) <$> d) = F <$> dict_get k d.
Proof.
  induction d as [|[k' v'] d IH]; [done|]. cbn [dict_get fmap list_fmap json_get fst snd].
  by destruct (PyStr.eqb k k').
Qed.

Section Document.
Variables (w : world) (c : loc) (d : dict) (items : list value).
Variable kvs : list (str * json).
Hypothesis Hwf : wizard_config (store w) (VRef c) = true.
Hypothesis Hc : store w !! c = Some d.
Hypothesis Hl : dict_get "links" d = Some (VList items).
Hypothesis Hshown : forallb (shown (store w)) items = true.
Hypothesis Hdoc : denote (S (length (store w))) (store w) (VRef c) = Some (JObj kvs).

Lemma document_members : kvs = (fun kv => (kv.1, json_of_field (store w) kv.2)) <$> d.
Proof.
  rewrite (wizard_config_document _ c d Hwf Hc) in Hdoc. by injection Hdoc as <-.
Qed.

Lemma document_links :
  json_get "links" kvs = Some (JArr (json_links kvs)) /\
  json_links kvs = json_of_item (store w) <$> items.
Proof.
  unfold json_links. rewrite document_members.
  by rewrite (json_get_fmap (json_of_field (store w))), Hl.
Qed.

(** The document after the list of links was replaced, the other objects
    being as they were. *)
Lemma relinked_document st' items' :
  (forall a r, store w !! a = Some r -> a <> c -> st' !! a = Some r) ->
  st' !! c = Some (dict_set "links" (VList items') d) ->
  wizard_config st' (VRef c) = true ->
  denote (S (length st')) st' (VRef c) =
    Some (JObj (json_set "links" (JArr (json_of_item st' <$> items')) kvs)).
Proof.
  intros Hsame Hc' Hwf'.
  destruct (wizard_config_inv _ _ Hwf)
    as (c0 & d0 & items0 & [= <-] & Hc0 & _ & Hfields & _ & _ & Hnf).
  assert (d0 = d) as -> by congruence. clear Hc0.
  rewrite (wizard_config_document st' c _ Hwf' Hc'). unfold document_of.
  rewrite (fmap_dict_set (json_of_field st')), document_members. do 3 f_equal.
  apply list_fmap_ext. intros i [k v] Hkv. cbn [fst snd]. f_equal.
  apply (json_of_field_other (store w) st' c); try done.
  apply list_elem_of_lookup_2 in Hkv. by apply (forallb_elem_of _ _ _ Hfields) in Hkv.
Qed.

Lemma items_document st' :
  (forall a r, store w !! a = Some r -> a <> c -> st' !! a = Some r) ->
  json_of_item st' <$> items = json_links kvs.
Proof.
  intros Hsame. rewrite (proj2 document_links).
  destruct (wizard_config_inv _ _ Hwf)
    as (c0 & d0 & items0 & [= <-] & Hc0 & Hl0 & _ & Hfl & _ & Hnf).
  assert (d0 = d) as -> by congruence.
  assert (items0 = items) as -> by congruence.
  apply list_fmap_ext. intros i x Hx.
  apply (json_of_item_other (store w) st' c); try done.
  apply (forallb_elem_of _ _ _ Hfl). by eapply list_elem_of_lookup_2.
Qed.

Lemma add_new_link_document (name url icon : text) rest :
  stdin w = Line name :: Line url :: Line icon :: rest ->
  PyStr.strip name <> "" -> PyStr.strip url <> "" ->
  let st' := store (after (add_new_link (VRef c)) w) in
  denote (S (length st')) st' (VRef c) =
    Some (JObj (json_set "links"
                  (JArr (json_links kvs ++ [new_record_json name url icon])) kvs)).
Proof.
  intros Hin Hn Hu. cbv zeta.
  pose proof (lookup_lt_Some _ _ _ Hc) as Hlt.
  assert (wizard_config (store (after (add_new_link (VRef c)) w)) (VRef c) = true) as Hwf'.
  { apply (add_effect_wizard (VRef c) (store w)); [apply (add_new_link_spec (VRef c) w)|done]. }
  revert Hwf'.
  unfold after. rewrite (add_new_link_run c d items w name url icon rest) by done.
  cbn [fst snd store with_store]. intros Hwf'.
  assert (forall a r, store w !! a = Some r -> a <> c ->
            <[c := dict_set "links" (VList (items ++ [VRef (length (store w))])) d]>
              (store w ++ [new_record name url icon]) !! a = Some r) as Hsame.
  { intros a r Ha Hne. rewrite list_lookup_insert_ne by done.
    by apply lookup_app_l_Some. }
  rewrite (relinked_document _ (items ++ [VRef (length (store w))])); [|done| |done].
  - rewrite fmap_app, (items_document _ Hsame). cbn [fmap list_fmap json_of_item].
    rewrite list_lookup_insert_ne by lia.
    by rewrite lookup_app_r, Nat.sub_diag by lia.
  - apply list_lookup_insert_eq. rewrite length_app. simpl. lia.
Qed.

Lemma remove_link_document (line : text) rest k :
  stdin w = Line line :: rest -> PyStr.int line = Some k ->
  1 <= k <= Z.of_nat (length (json_links kvs)) ->
  let st' := store (after (remove_link (VRef c)) w) in
  denote (S (length st')) st' (VRef c) =
    Some (JObj (json_set "links" (JArr (delete (Z.to_nat (k - 1)) (json_links kvs))) kvs)).
Proof.
  intros Hin Hk Hr. cbv zeta. rewrite (proj2 document_links), length_fmap in Hr.
  pose proof (lookup_lt_Some _ _ _ Hc) as Hlt.
  destruct (wizard_config_links_of _ _ Hwf) as (items0 & Hlinks & Hli).
  assert (items0 = items) as ->.
  { unfold links_of in Hlinks. rewrite Hc, Hl in Hlinks. congruence. }
  assert (wizard_config (store (after (remove_link (VRef c)) w)) (VRef c) = true) as Hwf'.
  { apply (relink_effect_wizard (VRef c) (store w));
      [apply (remove_link_spec (VRef c) w)|done]. }
  revert Hwf'.
  unfold after. rewrite (remove_link_run c d items w line rest k) by done.
  cbn [fst snd store with_store]. intros Hwf'.
  assert (forall a r, store w !! a = Some r -> a <> c ->
            <[c := dict_set "links" (VList (delete (Z.to_nat (k - 1)) items)) d]>
              (store w) !! a = Some r) as Hsame.
  { intros a r Ha Hne. by rewrite list_lookup_insert_ne. }
  rewrite (relinked_document _ (delete (Z.to_nat (k - 1)) items)); [|done| |done].
  - by rewrite fmap_delete_list, (items_document _ Hsame).
  - by apply list_lookup_insert_eq.
Qed.

Lemma reorder_links_document (line : text) rest order :
  stdin w = Line line :: rest -> entered_order line = Some order ->
  outcome (reorder_links (VRef c)) w = Val true ->
  let st' := store (after (reorder_links (VRef c)) w) in
  denote (S (length st')) st' (VRef c) =
    Some (JObj (json_set "links"
                  (JArr (omap (fun i => json_links kvs !! Z.to_nat i) order)) kvs)).
Proof.
  intros Hin Ho. cbv zeta. unfold outcome.
  pose proof (lookup_lt_Some _ _ _ Hc) as Hlt.
  destruct (wizard_config_links_of _ _ Hwf) as (items0 & Hlinks & Hli).
  assert (items0 = items) as ->.
  { unfold links_of in Hlinks. rewrite Hc, Hl in Hlinks. congruence. }
  destruct (decide (items = [])) as [->|Hne].
  { assert (reorder_links (VRef c) w = (Val false, w)) as ->; [|done].
    apply wp_eq. unfold reorder_links.
    wp_step. eapply wp_from_run; [by apply (no_links_run w (VRef c) [])|by wp_run]. }
  assert (wizard_config (store (after (reorder_links (VRef c)) w)) (VRef c) = true) as Hwf'.
  { apply (relink_effect_wizard (VRef c) (store w));
      [apply (reorder_links_spec (VRef c) w)|done]. }
  revert Hwf'.
  unfold after. rewrite (reorder_links_run c d items w line rest) by done.
  rewrite Ho. destruct (order_mismatch order (Z.of_nat (length items))); [done|].
  cbn [fst snd store with_store]. intros Hwf' _.
  assert (forall a r, store w !! a = Some r -> a <> c ->
            <[c := dict_set "links" (VList (picked items order)) d]>
              (store w) !! a = Some r) as Hsame.
  { intros a r Ha Hac. by rewrite list_lookup_insert_ne. }
  rewrite (relinked_document _ (picked items order)); [|done| |done].
  - by rewrite fmap_picked, (items_document _ Hsame).
  - by apply list_lookup_insert_eq.
Qed.

End Document.

(** X8 (add_new_link, remove_link, reorder_links, save_config): what
    [json.dump] writes after an edit, from what it would have written
    before.  For a configuration as the wizard writes and shows it, with the
    document [JObj kvs], the member "links" is an array; after a successful
    add the document is the same with the new record at the end of that
    array, after the removal of link [k] it is the same without the [k]-th
    element, and after a reorder that returned [True] it is the same with
    the elements at the entered positions; every other member is as it
    was. *)
Theorem edits_in_the_document config w kvs :
  shown_config (store w) config = true ->
  denote (S (length (store w))) (store w) config = Some (JObj kvs) ->
  let written (op : M bool) :=
    denote (S (length (store (after op w)))) (store (after op w)) config in
  let js := json_links kvs in
  json_get "links" kvs = Some (JArr js) /\
  (forall (name url icon : text) rest,
     stdin w = Line name :: Line url :: Line icon :: rest ->
     PyStr.strip name <> "" -> PyStr.strip url <> "" ->
     written (add_new_link config) =
       Some (JObj (json_set "links" (JArr (js ++ [new_record_json name url icon])) kvs))) /\
  (forall (line : text) rest k,
     stdin w = Line line :: rest -> PyStr.int line = Some k ->
     1 <= k <= Z.of_nat (length js) ->
     written (remove_link config) =
       Some (JObj (json_set "links" (JArr (delete (Z.to_nat (k - 1)) js)) kvs))) /\
  (forall (line : text) rest order,
     stdin w = Line line :: rest -> entered_order line = Some order ->
     outcome (reorder_links config) w = Val true ->
     written (reorder_links config) =
       Some (JObj (json_set "links" (JArr (omap (fun i => js !! Z.to_nat i) order)) kvs))).
Proof.
  intros [Hwf (items0 & Hlinks & Hall)]%shown_config_inv Hdoc. cbv zeta.
  destruct (wizard_config_inv _ _ Hwf) as (c & d & items & -> & Hc & Hl & _).
  assert (items0 = items) as ->.
  { unfold links_of in Hlinks. rewrite Hc, Hl in Hlinks. congruence. }
  split_and!.
  - apply (document_links w c d items kvs Hwf Hc Hl Hdoc).
  - intros name url icon rest. by apply (add_new_link_document w c d items kvs).
  - intros line rest k. by apply (remove_link_document w c d items kvs).
  - intros line rest order. by apply (reorder_links_document w c d items kvs).
Qed.

Lemma fmap_entered k line r :
  (fun kv => (kv.1, json_of_scalar kv.2)) <$> entered k line r =
    json_entered k line ((fun kv => (kv.1, json_of_scalar kv.2)) <$> r).
Proof.
  unfold entered, json_entered. destruct (PyStr.eqb (PyStr.strip line) ""); [done|].
  apply (fmap_dict_set json_of_scalar).
Qed.

(** X9 (edit_link, save_config): what [json.dump] writes after an edit of
    link [k] of a configuration as the wizard writes and shows it, when the
    selected record occurs once in the list: the document
    has the same members in the same order; under "links" the [k]-th element
    has each of name, url and icon set to the stripped entry where that is
    not empty, and every other element is as it was; and every scalar member
    of the document is as it was. *)
Theorem edit_link_in_the_document config w kvs items (line n1 n2 n3 : text) rest k a :
  shown_config (store w) config = true ->
  denote (S (length (store w))) (store w) config = Some (JObj kvs) ->
  links_of (store w) config = Some items ->
  stdin w = Line line :: Line n1 :: Line n2 :: Line n3 :: rest ->
  PyStr.int line = Some k -> 1 <= k <= Z.of_nat (length items) ->
  items !! Z.to_nat (k - 1) = Some (VRef a) ->
  (forall i, items !! i = Some (VRef a) -> i = Z.to_nat (k - 1)) ->
  let st' := store (after (edit_link config) w) in
  exists fs kvs',
    json_links kvs !! Z.to_nat (k - 1) = Some (JObj fs) /\
    denote (S (length st')) st' config = Some (JObj kvs') /\
    kvs'.*1 = kvs.*1 /\
    json_links kvs' =
      <[Z.to_nat (k - 1) :=
          JObj (json_entered "icon" n3 (json_entered "url" n2 (json_entered "name" n1 fs)))]>
        (json_links kvs) /\
    (forall key x, json_get key kvs = Some x -> json_scalar x = true ->
       json_get key kvs' = Some x).
Proof.
  intros [Hwf (items1 & Hlinks1 & Hall)]%shown_config_inv Hdoc Hlinks Hin Hk Hr Hx Honce.
  cbv zeta. assert (items1 = items) as -> by congruence. clear Hlinks1.
  destruct (wizard_config_inv _ _ Hwf)
    as (c & d & items0 & -> & Hc & Hl & Hfields & Hfl & Hli & Hnf).
  assert (items0 = items) as ->.
  { unfold links_of in Hlinks. rewrite Hc, Hl in Hlinks. congruence. }
  apply list_elem_of_lookup_2 in Hx as Hxin.
  pose proof (forallb_elem_of _ _ _ Hfl Hxin) as Hflat.
  destruct (is_flat_record_inv _ _ Hflat) as (a' & r & [= <-] & Ha & Hscalar).
  assert (a <> c) as Hac by (intros ->; congruence).
  pose proof (lookup_lt_Some _ _ _ Ha) as Hlt.
  assert (wizard_config (store (after (edit_link (VRef c)) w)) (VRef c) = true) as Hwf'.
  { apply (edit_effect_wizard (VRef c) (store w)); [apply (edit_link_spec (VRef c) w)|done]. }
  revert Hwf'. unfold after.
  rewrite (edit_link_run c d items w line n1 n2 n3 rest k a r) by done.
  cbn [fst snd store with_store].
  set (r' := entered "icon" n3 (entered "url" n2 (entered "name" n1 r))).
  set (st' := <[a := r']> (store w)). intros Hwf'.
  assert (st' !! c = Some d) as Hc' by (unfold st'; by rewrite list_lookup_insert_ne).
  pose proof (document_members w c d kvs Hwf Hc Hdoc) as Hkvs.
  pose proof (proj2 (document_links w c d items kvs Hwf Hc Hl Hdoc)) as Hjs.
  pose proof (wizard_config_document st' c d Hwf' Hc') as Hdoc'.
  pose proof (proj2 (document_links (with_store st' w) c d items _ Hwf' Hc' Hl Hdoc'))
    as Hjs'. cbn [store with_store] in Hjs'.
  exists ((fun kv => (kv.1, json_of_scalar kv.2)) <$> r),
         ((fun kv => (kv.1, json_of_field st' kv.2)) <$> d).
  split_and!.
  - rewrite Hjs, list_lookup_fmap, Hx. simpl. unfold json_of_record. by rewrite Ha.
  - exact Hdoc'.
  - rewrite Hkvs, <- !list_fmap_compose. done.
  - rewrite Hjs', Hjs. apply list_eq. intros i.
    rewrite list_lookup_fmap.
    destruct (decide (i = Z.to_nat (k - 1))) as [->|Hi].
    + rewrite list_lookup_insert_eq by (rewrite length_fmap; by eapply lookup_lt_Some).
      rewrite Hx. simpl. unfold st'. rewrite list_lookup_insert_eq by done. simpl.
      unfold json_of_record, r'. by rewrite !fmap_entered.
    + rewrite list_lookup_insert_ne by done. rewrite list_lookup_fmap.
      destruct (items !! i) as [x|] eqn:Hxi; [|done]. simpl. f_equal.
      apply list_elem_of_lookup_2 in Hxi as Hxiin.
      pose proof (forallb_elem_of _ _ _ Hfl Hxiin) as Hflat'.
      destruct (is_flat_record_inv _ _ Hflat') as (b & rb & -> & Hb & _).
      assert (b <> a) as Hba by (intros ->; by apply Hi, Honce).
      unfold json_of_item, st'. by rewrite list_lookup_insert_ne.
  - intros key x Hget Hsc. rewrite Hkvs in Hget.
    rewrite (json_get_fmap (json_of_field (store w))) in Hget.
    rewrite (json_get_fmap (json_of_field st')).
    destruct (dict_get key d) as [v|]; [|done]. simpl in *.
    injection Hget as <-. f_equal. by destruct v.
Qed.


(** ** From a document to a configuration *)

Lemma alloc_scalar j st :
  json_scalar j = true -> (alloc j st).2 = st /\ is_scalar (alloc j st).1 = true.
Proof. by destruct j. Qed.

Lemma alloc_fields_scalar kvs st :
  forallb (fun kv => json_scalar kv.2) kvs = true ->
  (alloc_fields kvs st).2 = st /\
  forallb (fun kv => is_scalar kv.2) (alloc_fields kvs st).1 = true /\
  forall k, is_Some (json_get k kvs) -> is_Some (dict_get k (alloc_fields kvs st).1).
Proof.
  induction kvs as [|[k j] kvs IH].
  { intros _. split_and!; [done..|]. by intros k [? ?]. }
  cbn [forallb alloc_fields json_get].
  intros [Hj Hkvs]%andb_true_iff. simpl in Hj.
  destruct (alloc_scalar j st Hj) as [Hst Hv].
  destruct (alloc j st) as [v st1]. cbn [fst snd] in Hst, Hv. subst st1.
  destruct (IH Hkvs) as (Hst' & Hd & Hget).
  destruct (alloc_fields kvs st) as [d st2]. cbn [fst snd] in *. subst st2.
  cbn [forallb dict_get fst snd]. split_and!; [done|by rewrite Hv|].
  intros k'. destruct (PyStr.eqb k' k); [by eauto|apply Hget].
Qed.

Lemma alloc_record j st :
  json_record j = true ->
  exists d, alloc j st = (VRef (length st), st ++ [d]) /\
    is_flat_record (st ++ [d]) (VRef (length st)) = true /\
    (json_link j = true -> is_link (st ++ [d]) (VRef (length st)) = true).
Proof.
  destruct j as [| | | | | |kvs]; try done. simpl json_record. intros Hkvs.
  rewrite alloc_obj. destruct (alloc_fields_scalar kvs st Hkvs) as (Hst & Hd & Hget).
  destruct (alloc_fields kvs st) as [d st']. cbn [fst snd] in *. subst st'.
  exists d. split; [done|]. unfold is_flat_record, is_link.
  rewrite list_lookup_middle by done. split; [done|].
  intros [Hn Hu]%andb_true_iff.
  apply bool_decide_eq_true_1 in Hn. apply bool_decide_eq_true_1 in Hu.
  rewrite !bool_decide_eq_true_2; auto.
Qed.

Lemma alloc_items_records xs st :
  forallb json_record xs = true ->
  exists ext,
    (alloc_items xs st).2 = st ++ ext /\
    forallb (is_flat_record (st ++ ext)) (alloc_items xs st).1 = true /\
    (forallb json_link xs = true ->
       forallb (is_link (st ++ ext)) (alloc_items xs st).1 = true).
Proof.
  revert st. induction xs as [|x xs IH]; intros st.
  { exists []. by rewrite app_nil_r. }
  cbn [forallb alloc_items]. intros [Hx Hxs]%andb_true_iff.
  destruct (alloc_record x st Hx) as (d & -> & Hf & Hk).
  destruct (IH (st ++ [d]) Hxs) as (ext & Hst & Hfs & Hks).
  destruct (alloc_items xs (st ++ [d])) as [vs st2]. cbn [fst snd] in *. subst st2.
  exists ([d] ++ ext). rewrite !app_assoc. cbn [forallb]. split_and!; [done| |].
  - rewrite Hfs, andb_true_r. by apply is_flat_record_app.
  - intros [Hx' Hxs']%andb_true_iff. rewrite (Hks Hxs'), andb_true_r.
    by apply is_link_app, Hk.
Qed.

Lemma is_field_app st more v : is_field st v = true -> is_field (st ++ more) v = true.
Proof.
  destruct v; try done. simpl. apply forallb_impl. intros x. apply is_flat_record_app.
Qed.

Lemma alloc_field j st :
  json_field j = true ->
  exists ext,
    (alloc j st).2 = st ++ ext /\ is_field (st ++ ext) (alloc j st).1 = true /\
    forall xs, j = JArr xs -> forallb json_link xs = true ->
      exists items, (alloc j st).1 = VList items /\
        forallb (is_link (st ++ ext)) items = true.
Proof.
  destruct j as [| | | | |xs|]; try done;
    try by (intros _; exists []; rewrite app_nil_r).
  simpl json_field. intros Hxs. rewrite alloc_arr.
  destruct (alloc_items_records xs st Hxs) as (ext & Hst & Hf & Hk).
  destruct (alloc_items xs st) as [vs st']. cbn [fst snd] in *. subst st'.
  exists ext. split_and!; [done..|]. intros ? [= <-] Hl. exists vs. split; [done|by apply Hk].
Qed.

Lemma alloc_fields_wizard kvs st :
  forallb (fun kv => json_field kv.2) kvs = true ->
  exists ext,
    (alloc_fields kvs st).2 = st ++ ext /\
    forallb (fun kv => is_field (st ++ ext) kv.2) (alloc_fields kvs st).1 = true /\
    forall xs, json_get "links" kvs = Some (JArr xs) -> forallb json_link xs = true ->
      exists items, dict_get "links" (alloc_fields kvs st).1 = Some (VList items) /\
        forallb (is_link (st ++ ext)) items = true.
Proof.
  revert st. induction kvs as [|[k j] kvs IH]; intros st.
  { exists []. by rewrite app_nil_r. }
  cbn [forallb alloc_fields json_get]. intros [Hj Hkvs]%andb_true_iff. simpl in Hj.
  destruct (alloc_field j st Hj) as (e1 & Hst1 & Hf1 & Hl1).
  destruct (alloc j st) as [v st1]. cbn [fst snd] in Hst1, Hf1, Hl1. subst st1.
  destruct (IH (st ++ e1) Hkvs) as (e2 & Hst2 & Hf2 & Hl2).
  destruct (alloc_fields kvs (st ++ e1)) as [d st2]. cbn [fst snd] in Hst2, Hf2, Hl2. subst st2.
  exists (e1 ++ e2). rewrite !app_assoc. cbn [fst snd forallb dict_get].
  split_and!; [done| |].
  - rewrite Hf2, andb_true_r. by apply is_field_app.
  - intros xs. destruct (PyStr.eqb "links" k).
    + intros [= ->] Hxs. destruct (Hl1 xs eq_refl Hxs) as (items & -> & Hitems).
      exists items. split; [done|].
      revert Hitems. apply forallb_impl. intros x. apply is_link_app.
    + apply Hl2.
Qed.

Lemma alloc_wizard j st :
  wizard_document j = true -> wizard_config (alloc j st).2 (alloc j st).1 = true.
Proof.
  destruct j as [| | | | | |kvs]; try done. simpl wizard_document.
  intros [Hkvs Hl]%andb_true_iff.
  destruct (json_get "links" kvs) as [[| | | | |xs|]|] eqn:Hget; try done.
  rewrite alloc_obj.
  destruct (alloc_fields_wizard kvs st Hkvs) as (ext & Hst & Hf & Hlinks).
  destruct (Hlinks xs Hget Hl) as (items & Hd & Hitems).
  destruct (alloc_fields kvs st) as [d st']. cbn [fst snd] in *. subst st'.
  unfold wizard_config. rewrite list_lookup_middle by done. rewrite Hd.
  apply andb_true_iff. split.
  - revert Hf. apply forallb_impl. intros [k v]. apply is_field_app.
  - revert Hitems. apply forallb_impl. intros x. apply is_link_app.
Qed.


(** ** More on git_operations *)

Lemma has_surrogate_append s t :
  PyStr.has_surrogate (PyStr.append s t) = PyStr.has_surrogate s || PyStr.has_surrogate t.
Proof.
  induction s as [|c s IH]; [done|]. cbn [PyStr.append PyStr.has_surrogate].
  by rewrite IH, orb_assoc.
Qed.

(** A [str] without surrogates is an argument that the system encoding
    takes. *)
Lemma not_refused_by_fs s :
  PyStr.has_surrogate s = false -> existsb refused_by_fs (PyStr.codes s) = false.
Proof.
  induction s as [|c s IH]; [done|]. cbn [PyStr.has_surrogate PyStr.codes existsb].
  intros [Hc Hs]%orb_false_iff. rewrite (IH Hs), orb_false_r.
  unfold refused_by_fs. by rewrite Hc.
Qed.

Section GitFrame.
Variable strftime_now : str.
Variable subprocess_outcome : list (list str) -> list str -> proc_result.

Let git : M bool := git_operations strftime_now subprocess_outcome.

Lemma commit_message_decoded (line : text) :
  PyStr.has_surrogate strftime_now = false ->
  PyStr.has_surrogate (commit_message strftime_now line) = false.
Proof.
  intros Hnow. unfold commit_message.
  destruct (PyStr.eqb (PyStr.strip line) "").
  - unfold default_commit_msg. by rewrite has_surrogate_append, Hnow.
  - pose proof (encodable_strip line) as H. simpl in H. by apply negb_true_iff in H.
Qed.

(** With a clock that writes no surrogate, no argument of a step is refused
    for its encoding. *)
Lemma step_outcome_encodable h (line : text) i :
  PyStr.has_surrogate strftime_now = false ->
  step_outcome subprocess_outcome h (commit_message strftime_now line) i <> Unencodable.
Proof.
  intros Hnow. pose proof (commit_message_decoded line Hnow) as Hmsg.
  apply not_refused_by_fs in Hmsg. unfold step_outcome, git_steps.
  destruct i as [|[|[|i]]]; simpl lookup; cbv iota; [done| |done|done].
  unfold run_outcome, git_commit. simpl argv_error. unfold argument_error.
  rewrite Hmsg. by destruct (existsb (fun c => (c =? 0)%N) _).
Qed.

(** What [git_operations] touches, and how it can end. *)
Lemma git_operations_frame w :
  store (after git w) = store w /\ config_file (after git w) = config_file w /\
  writes (after git w) = writes w /\
  (stdin (after git w) = stdin w \/ stdin (after git w) = tail (stdin w)) /\
  (exists n msg,
     (n <= 3)%nat /\
     commands (after git w) = commands w ++ git_status :: take n (git_steps msg)) /\
  ends_with (prompt_errors ++ git_errors ++ [UnicodeEncodeError]) (outcome git w) /\
  (PyStr.has_surrogate strftime_now = false -> ends_cleanly (outcome git w)).
Proof.
  unfold after, outcome, git, ends_cleanly.
  destruct (subprocess_outcome (commands w) git_status) eqn:Hs.
  - pose proof (git_operations_unanswered strftime_now subprocess_outcome w Hs) as Hun.
    destruct (stdin w) as [|[line|] rest] eqn:Hin.
    + rewrite Hun. simpl. rewrite ?Hin.
      split_and!;
        first [done | by left | by right | listed
              | exists 0%nat, ""; split; [lia|done] | intros _; listed].
    + rewrite (git_operations_run strftime_now subprocess_outcome w line rest Hin Hs).
      set (msg := commit_message strftime_now line).
      pose proof (step_outcome_encodable (commands w) line 0) as H0.
      pose proof (step_outcome_encodable (commands w) line 1) as H1.
      pose proof (step_outcome_encodable (commands w) line 2) as H2.
      fold msg in H0, H1, H2. cbv zeta.
      destruct (step_outcome subprocess_outcome (commands w) msg 0) as [[]| |];
        [destruct (step_outcome subprocess_outcome (commands w) msg 1) as [[]| |];
          [destruct (step_outcome subprocess_outcome (commands w) msg 2) as [[]| |]|..]|..];
        cbn [raised tried step_failure is_CalledProcessError fst snd]; simpl; rewrite ?Hin;
        (split_and!; first [done | by left | by right | listed | idtac]).
      all: first [ exists 3%nat, msg; split; [lia|done]
                 | exists 2%nat, msg; split; [lia|done]
                 | exists 1%nat, msg; split; [lia|done]
                 | exists 0%nat, msg; split; [lia|done]
                 | intros Hnow; first [ by destruct (H0 Hnow) | by destruct (H1 Hnow)
                                      | by destruct (H2 Hnow) | listed ] ].
    + rewrite Hun. simpl. rewrite ?Hin.
      split_and!;
        first [done | by left | by right | listed
              | exists 0%nat, ""; split; [lia|done] | intros _; listed].
  - rewrite git_operations_no_repo by auto. simpl.
    split_and!;
      first [done | by left | by right | listed
            | exists 0%nat, ""; split; [lia|done] | intros _; listed].
  - rewrite git_operations_no_repo by auto. simpl.
    split_and!;
      first [done | by left | by right | listed
            | exists 0%nat, ""; split; [lia|done] | intros _; listed].
  - rewrite git_operations_status_raises by done. simpl.
    split_and!;
      first [done | by left | by right | listed
            | exists 0%nat, ""; split; [lia|done] | intros _; listed].
Qed.

(** X10 (git_operations): however the function ends, it leaves the objects
    and config.json alone and reads at most one line; what it runs is the
    status check followed by the first [n] of add, commit and push, for some
    [n] up to 3; and it ends with an answer, at the prompt for the commit
    message ([EOFError], [UnicodeDecodeError]), or with what
    [subprocess.run] raises for a command that it cannot start
    ([FileNotFoundError], [OSError], and for an argument refused
    [ValueError] or [UnicodeEncodeError]): a [CalledProcessError] never
    leaves it. *)
Theorem git_operations_touches w :
  let w' := after git w in
  store w' = store w /\ config_file w' = config_file w /\ writes w' = writes w /\
  (stdin w' = stdin w \/ stdin w' = tail (stdin w)) /\
  (exists n msg,
     (n <= 3)%nat /\ commands w' = commands w ++ git_status :: take n (git_steps msg)) /\
  ends_with [EOFError; UnicodeDecodeError; FileNotFoundError; OSError; ValueError;
             UnicodeEncodeError] (outcome git w).
Proof.
  destruct (git_operations_frame w) as (H1 & H2 & H3 & H4 & H5 & H6 & _).
  by split_and!.
Qed.

(** X11 (git_operations): the status check catches a missing git, the three
    steps do not.  When the status check succeeds and one of add, commit and
    push then finds no git, the steps before it having succeeded, the
    function does not return: it ends with [FileNotFoundError], that step
    being the last one run. *)
Theorem git_operations_command_not_found w (line : text) rest i :
  stdin w = Line line :: rest ->
  subprocess_outcome (commands w) git_status = Completed ->
  let msg := commit_message strftime_now line in
  let step := step_outcome subprocess_outcome (commands w) msg in
  (i < 3)%nat -> (forall j, (j < i)%nat -> step j = Completed) -> step i = NotFound ->
  outcome git w = Exc FileNotFoundError /\
  commands (after git w) = commands w ++ git_status :: take (S i) (git_steps msg).
Proof.
  intros Hin Hs msg step Hi Hbefore Hfail. unfold outcome, after, git.
  rewrite (git_operations_run strftime_now subprocess_outcome w line rest Hin Hs).
  fold msg. fold step. cbv zeta.
  destruct i as [|[|[|i]]]; [| | |lia].
  - by rewrite Hfail.
  - rewrite (Hbefore 0%nat), Hfail by lia. done.
  - rewrite (Hbefore 0%nat), (Hbefore 1%nat), Hfail by lia. done.
Qed.

End GitFrame.

(** ** Runs that end cleanly *)

Lemma ends_with_cleanly {A} es (r : result A) :
  Forall (fun e => e ∈ prompt_errors ++ git_errors) es ->
  ends_with es r -> ends_cleanly r.
Proof.
  intros Hes. apply ends_with_mono. intros e He.
  by apply (proj1 (Forall_forall _ _) Hes).
Qed.

Ltac cleanly lem :=
  eapply ends_with_cleanly; [|eapply lem; eassumption];
  unfold prompt_errors; repeat constructor; listed.

Lemma menu_round_choice json_dumps strftime_now subprocess_outcome config w items :
  links_of (store w) config = Some items ->
  menu_round json_dumps strftime_now subprocess_outcome config w =
    menu_choice json_dumps strftime_now subprocess_outcome config w.
Proof.
  intros Hl. unfold menu_round.
  unfold bind at 1. rewrite (dot_get_links_run config w items Hl).
  simpl default. unfold len. unfold bind at 1. by unfold ret at 1.
Qed.

Section Cleanly.
Variable config : value.

Lemma runs_cleanly_ret {A} (a : A) : runs_cleanly config (ret a).
Proof. by intros w Hwf. Qed.

Lemma runs_cleanly_bind {A B} (m : M B) (k : B -> M A) :
  runs_cleanly config m -> (forall b, runs_cleanly config (k b)) ->
  runs_cleanly config (bind m k).
Proof.
  intros Hm Hk w Hwf. destruct (Hm w Hwf) as [Hwf1 Hr1].
  unfold after, outcome, bind in *.
  destruct (m w) as [[b|e] w1]; simpl in *; [|done].
  by apply Hk.
Qed.

Lemma runs_cleanly_input : runs_cleanly config input.
Proof.
  intros w Hwf. unfold after, outcome, input.
  destruct (stdin w) as [|[line|] rest]; simpl; (split; [done|]); first [done|listed].
Qed.

Lemma runs_cleanly_display : runs_cleanly config (display_current_links config).
Proof.
  intros w Hwf. destruct (shown_config_inv _ _ Hwf) as (_ & items & Hl & Hall).
  unfold after, outcome. by rewrite (display_current_links_run w config items).
Qed.

Lemma runs_cleanly_add : runs_cleanly config (add_new_link config).
Proof.
  intros w Hwf. destruct (shown_config_inv _ _ Hwf) as (_ & items & Hl & Hall). split.
  - apply (add_effect_shown config (store w)); [apply (add_new_link_spec config w)|done].
  - cleanly add_new_link_ends.
Qed.

Lemma runs_cleanly_edit : runs_cleanly config (edit_link config).
Proof.
  intros w Hwf. destruct (shown_config_inv _ _ Hwf) as (_ & items & Hl & Hall). split.
  - apply (edit_effect_shown config (store w)); [apply (edit_link_spec config w)|done].
  - cleanly edit_link_ends.
Qed.

Lemma runs_cleanly_remove : runs_cleanly config (remove_link config).
Proof.
  intros w Hwf. destruct (shown_config_inv _ _ Hwf) as (_ & items & Hl & Hall). split.
  - apply (relink_effect_shown config (store w)); [apply (remove_link_spec config w)|done].
  - cleanly remove_link_ends.
Qed.

Lemma runs_cleanly_reorder : runs_cleanly config (reorder_links config).
Proof.
  intros w Hwf. destruct (shown_config_inv _ _ Hwf) as (_ & items & Hl & Hall). split.
  - apply (relink_effect_shown config (store w)); [apply (reorder_links_spec config w)|done].
  - cleanly reorder_links_ends.
Qed.

Variable json_dumps : json -> str.
Variable strftime_now : str.
Variable subprocess_outcome : list (list str) -> list str -> proc_result.
Hypothesis strftime_decoded : PyStr.has_surrogate strftime_now = false.

Lemma runs_cleanly_save : runs_cleanly config (save_config json_dumps config).
Proof.
  intros w Hwf. destruct (shown_config_inv _ _ Hwf) as (Hwiz & _).
  destruct (wizard_config_denote _ _ Hwiz) as [j Hj].
  unfold after, outcome, save_config, bind, get_store. by rewrite Hj.
Qed.

Lemma runs_cleanly_git :
  runs_cleanly config (git_operations strftime_now subprocess_outcome).
Proof.
  intros w Hwf.
  destruct (git_operations_frame strftime_now subprocess_outcome w)
    as (Hst & _ & _ & _ & _ & _ & Hr).
  rewrite Hst. split; [done|]. by apply Hr.
Qed.

Lemma runs_cleanly_round :
  runs_cleanly config (menu_round json_dumps strftime_now subprocess_outcome config).
Proof.
  assert (runs_cleanly config
            (menu_choice json_dumps strftime_now subprocess_outcome config)) as Hrest.
  { pose proof runs_cleanly_input. pose proof runs_cleanly_display.
    pose proof runs_cleanly_add. pose proof runs_cleanly_edit.
    pose proof runs_cleanly_remove. pose proof runs_cleanly_reorder.
    pose proof runs_cleanly_save. pose proof runs_cleanly_git.
    unfold menu_choice, stripped_input, save_if.
    repeat first
      [ done
      | apply runs_cleanly_ret
      | apply runs_cleanly_bind; [|intros ?]
      | case_match ]. }
  intros w Hwf. destruct (shown_config_inv _ _ Hwf) as (_ & items & Hl & Hall).
  unfold after, outcome.
  rewrite (menu_round_choice json_dumps strftime_now subprocess_outcome config w items Hl).
  by apply Hrest.
Qed.

Lemma menu_loop_cleanly fuel w r w' :
  shown_config (store w) config = true ->
  menu_loop json_dumps strftime_now subprocess_outcome fuel config w = Some (r, w') ->
  shown_config (store w') config = true /\ ends_cleanly r.
Proof.
  revert w. induction fuel as [|fuel IH]; intros w Hwf; [done|]. simpl.
  destruct (runs_cleanly_round w Hwf) as [Hwf1 Hr1]. unfold after, outcome in *.
  destruct (menu_round _ _ _ config w) as [[[]|e] w1]; simpl in *.
  - by apply IH.
  - by intros [= <- <-].
  - by intros [= <- <-].
Qed.

End Cleanly.

(** ** Loading, saving, and whole sessions *)

Section Session.
Variable json_loads : str -> option json.
Variable json_dumps : json -> str.
Variable strftime_now : str.
Variable subprocess_outcome : list (list str) -> list str -> proc_result.

Let load := load_config json_loads.
Let save := save_config json_dumps.
Let round := menu_round json_dumps strftime_now subprocess_outcome.
Let loop := menu_loop json_dumps strftime_now subprocess_outcome.
Let main := main_menu json_loads json_dumps strftime_now subprocess_outcome.
Let run := script json_loads json_dumps strftime_now subprocess_outcome.

(** [load_config] only adds objects. *)
Lemma load_config_frame w :
  stdin (after load w) = stdin w /\ config_file (after load w) = config_file w /\
  writes (after load w) = writes w /\ commands (after load w) = commands w.
Proof.
  unfold after, load. destruct (config_file w) as [text|] eqn:Hf.
  - destruct (json_loads text) as [j|] eqn:Hj.
    + by rewrite (load_config_valid json_loads w text j Hf Hj).
    + by rewrite (load_config_invalid json_loads w text Hf Hj).
  - by rewrite (load_config_missing json_loads w Hf).
Qed.

Lemma load_config_wizard w :
  (forall text j, config_file w = Some text -> json_loads text = Some j ->
     wizard_document j = true) ->
  match load w with
  | (Val config, w') => wizard_config (store w') config = true
  | (Exc e, w') =>
      e = SystemExit 1 /\ exists text, config_file w = Some text /\ json_loads text = None
  end.
Proof.
  intros Hdoc. destruct (config_file w) as [text|] eqn:Hf.
  - destruct (json_loads text) as [j|] eqn:Hj.
    + unfold load. rewrite (load_config_valid json_loads w text j Hf Hj).
      apply alloc_wizard. by eapply Hdoc.
    + unfold load. rewrite (load_config_invalid json_loads w text Hf Hj). eauto.
  - unfold load. rewrite (load_config_missing json_loads w Hf). simpl.
    unfold wizard_config. by rewrite list_lookup_middle.
Qed.

Lemma json_encodable_of_scalar v : json_encodable (json_of_scalar v) = encodable v.
Proof. by destruct v. Qed.

Lemma json_shown_of_item st x : json_shown (json_of_item st x) = shown st x.
Proof.
  destruct x as [| | | | | |a]; try done. unfold json_of_item, shown.
  destruct (st !! a) as [r|]; [|reflexivity].
  change (default [] (Some r)) with r. unfold json_of_record, json_shown.
  rewrite !(json_get_fmap json_of_scalar).
  destruct (dict_get "name" r) as [n|]; [|reflexivity].
  destruct (dict_get "url" r) as [u|]; [|reflexivity]. cbn [fmap option_fmap option_map].
  rewrite !json_encodable_of_scalar.
  destruct (dict_get "icon" r) as [i|];
    cbn [fmap option_fmap option_map default from_option id];
    by rewrite ?json_encodable_of_scalar.
Qed.

(** A document whose links can be shown loads as a configuration whose
    links can be shown. *)
Lemma alloc_shown j st :
  shown_document j = true -> shown_config (alloc j st).2 (alloc j st).1 = true.
Proof.
  unfold shown_document. intros [Hdoc Hshown]%andb_true_iff.
  destruct j as [| | | | | |kvs]; try done.
  pose proof (alloc_wizard (JObj kvs) st Hdoc) as Hwf.
  pose proof (alloc_denote (JObj kvs) st) as Hden.
  destruct (alloc (JObj kvs) st) as [v st']. destruct Hden as [_ Hden]. cbn [fst snd] in *.
  destruct (wizard_config_inv _ _ Hwf) as (c & d & items & -> & Hc & Hl & _).
  pose proof (proj2 (document_links (with_store st' (World [] [] None [] [])) c d items kvs
                       Hwf Hc Hl Hden)) as Hjs.
  cbn [store with_store] in Hjs.
  apply (shown_config_intro _ _ items); [done| |].
  - unfold links_of. by rewrite Hc, Hl.
  - rewrite Hjs in Hshown. apply forallb_intro. intros x Hx.
    rewrite <- json_shown_of_item.
    apply (forallb_elem_of _ _ _ Hshown). by apply list_elem_of_fmap_2.
Qed.

Lemma load_config_shown w :
  (forall text j, config_file w = Some text -> json_loads text = Some j ->
     shown_document j = true) ->
  match load w with
  | (Val config, w') => shown_config (store w') config = true
  | (Exc e, w') =>
      e = SystemExit 1 /\ exists text, config_file w = Some text /\ json_loads text = None
  end.
Proof.
  intros Hdoc. destruct (config_file w) as [text|] eqn:Hf.
  - destruct (json_loads text) as [j|] eqn:Hj.
    + unfold load. rewrite (load_config_valid json_loads w text j Hf Hj).
      apply alloc_shown. by eapply Hdoc.
    + unfold load. rewrite (load_config_invalid json_loads w text Hf Hj). eauto.
  - unfold load. rewrite (load_config_missing json_loads w Hf). simpl.
    unfold shown_config, wizard_config, links_of. by rewrite list_lookup_middle.
Qed.

(** X12 (load_config): without config.json the configuration returned has
    an empty list of links; from a file that holds a document of the form
    [{"links": [records with a name and a URL], ...}] it is a configuration
    as the wizard writes it, the one the properties above start from. *)
Theorem load_config_well_formed w :
  (config_file w = None ->
     exists config w', load w = (Val config, w') /\
       wizard_config (store w') config = true /\
       links_of (store w') config = Some []) /\
  (forall text j, config_file w = Some text -> json_loads text = Some j ->
     wizard_document j = true ->
     exists config w', load w = (Val config, w') /\
       wizard_config (store w') config = true).
Proof.
  split.
  - intros Hf. unfold load. rewrite (load_config_missing json_loads w Hf).
    eexists _, _. split; [done|]. unfold wizard_config, links_of. simpl.
    by rewrite list_lookup_middle.
  - intros text j Hf Hj Hdoc. unfold load.
    rewrite (load_config_valid json_loads w text j Hf Hj).
    eexists _, _. split; [done|]. by apply alloc_wizard.
Qed.

Lemma save_config_run config w j :
  denote (S (length (store w))) (store w) config = Some j ->
  save config w =
    (Val tt, World (stdin w) (store w) (Some (json_dumps j)) (writes w ++ [json_dumps j])
               (commands w)).
Proof.
  intros Hj. unfold save, save_config, bind, get_store. by rewrite Hj.
Qed.

(** X13 (load_config, save_config): loading a file and saving at once writes
    back the document that was read: config.json then holds the dump of the
    document that [json.load] gave, written once, and the objects are those
    of the load. *)
Theorem load_then_save w text j :
  config_file w = Some text -> json_loads text = Some j ->
  exists config w1 w2,
    load w = (Val config, w1) /\
    save config w1 = (Val tt, w2) /\
    config_file w2 = Some (json_dumps j) /\
    writes w2 = writes w ++ [json_dumps j] /\
    store w2 = store w1 /\ stdin w2 = stdin w.
Proof.
  intros Hf Hj. unfold load. rewrite (load_config_valid json_loads w text j Hf Hj).
  pose proof (alloc_denote j (store w)) as H.
  destruct (alloc j (store w)) as [v st']. destruct H as [_ Hd]. simpl.
  eexists _, _, _. split; [done|]. split; [by apply save_config_run|]. done.
Qed.

(** X14 (save_config, load_config): what is saved is what the next start
    loads.  When the configuration is the document [j] and the JSON reader
    reads the dump of [j] as [j], a load after the save returns a
    configuration that is the document [j] again, built of new objects, the
    old ones being as they were. *)
Theorem save_then_load config w j :
  denote (S (length (store w))) (store w) config = Some j ->
  json_loads (json_dumps j) = Some j ->
  exists w1 config' w2,
    save config w = (Val tt, w1) /\
    load w1 = (Val config', w2) /\
    (exists new, store w2 = store w ++ new) /\
    denote (S (length (store w2))) (store w2) config' = Some j /\
    forall a d, store w !! a = Some d -> store w2 !! a = Some d.
Proof.
  intros Hd Hj. rewrite (save_config_run config w j Hd).
  set (w1 := World (stdin w) (store w) (Some (json_dumps j)) (writes w ++ [json_dumps j])
               (commands w)).
  pose proof (alloc_denote j (store w)) as H.
  pose proof (load_config_valid json_loads w1 (json_dumps j) j eq_refl Hj) as Hload.
  change (store w1) with (store w) in Hload.
  destruct (alloc j (store w)) as [v st']. destruct H as [[new ->] Hd'].
  cbn [fst snd] in Hload.
  exists w1, v, (with_store (store w ++ new) w1).
  split_and!; [done|done|by exists new|done|].
  intros a d Ha. by apply lookup_app_l_Some.
Qed.

(** X15 (main_menu): choice 8 ends the loop, and a choice that is none of
    1 to 8 does nothing: in both cases no object, file or command is
    touched.  After choice 8 only the choice has been read; after an unknown
    choice the round waits for Enter and asks for another round, or ends
    with [EOFError] when there is no line left, and with
    [UnicodeDecodeError] when what comes does not decode. *)
Theorem menu_round_idle_choices config w items (choice : text) rest :
  links_of (store w) config = Some items -> stdin w = Line choice :: rest ->
  (PyStr.strip choice = "8" ->
     round config w = (Val false, with_stdin rest w) /\
     forall fuel, loop (S fuel) config w = Some (Val tt, with_stdin rest w)) /\
  (~ PyStr.strip choice ∈ ["1"; "2"; "3"; "4"; "5"; "6"; "7"; "8"] ->
     round config w =
       match rest with
       | [] => (Exc EOFError, with_stdin [] w)
       | Line _ :: rest' => (Val true, with_stdin rest' w)
       | Undecodable :: rest' => (Exc UnicodeDecodeError, with_stdin rest' w)
       end).
Proof.
  intros Hl Hin.
  assert (forall r,
    (if PyStr.eqb (PyStr.strip choice) "1" then display_current_links config ;;; ret true
     else if PyStr.eqb (PyStr.strip choice) "2" then
       save_if json_dumps (add_new_link config) config ;;; ret true
     else if PyStr.eqb (PyStr.strip choice) "3" then
       save_if json_dumps (edit_link config) config ;;; ret true
     else if PyStr.eqb (PyStr.strip choice) "4" then
       save_if json_dumps (remove_link config) config ;;; ret true
     else if PyStr.eqb (PyStr.strip choice) "5" then
       save_if json_dumps (reorder_links config) config ;;; ret true
     else if PyStr.eqb (PyStr.strip choice) "6" then save_config json_dumps config ;;; ret true
     else if PyStr.eqb (PyStr.strip choice) "7" then
       save_config json_dumps config ;;;
       _ <- git_operations strftime_now subprocess_outcome ;;
       ret true
     else if PyStr.eqb (PyStr.strip choice) "8" then ret false
     else ret true) = ret r ->
    round config w =
      (if r then _ <- input ;; ret true else ret false) (with_stdin rest w)) as Hround.
  { intros r Hr. unfold round.
    rewrite (menu_round_choice json_dumps strftime_now subprocess_outcome config w items Hl).
    unfold menu_choice, stripped_input. unfold bind at 1 2. unfold input at 1. rewrite Hin.
    unfold ret at 1. unfold bind at 1. rewrite Hr. done. }
  split.
  - intros Hc. assert (round config w = (Val false, with_stdin rest w)) as Hr.
    { rewrite (Hround false); [done|]. by rewrite Hc. }
    split; [done|]. intros fuel. unfold loop. simpl. unfold round in Hr. by rewrite Hr.
  - intros Hc. rewrite (Hround true).
    + unfold bind, input. simpl. by destruct rest as [|[]].
    + repeat match goal with
             | |- context [PyStr.eqb (PyStr.strip (chars choice)) ?s] =>
                 destruct (str_eqb_spec (PyStr.strip choice) s) as [E|_];
                 [exfalso; apply Hc; rewrite E; repeat constructor|]
             end.
      done.
Qed.

Lemma menu_choice_read config w (choice : text) rest :
  stdin w = Line choice :: rest ->
  menu_choice json_dumps strftime_now subprocess_outcome config w =
    (continue <-
       (if PyStr.eqb (PyStr.strip choice) "1" then display_current_links config ;;; ret true
        else if PyStr.eqb (PyStr.strip choice) "2" then
          save_if json_dumps (add_new_link config) config ;;; ret true
        else if PyStr.eqb (PyStr.strip choice) "3" then
          save_if json_dumps (edit_link config) config ;;; ret true
        else if PyStr.eqb (PyStr.strip choice) "4" then
          save_if json_dumps (remove_link config) config ;;; ret true
        else if PyStr.eqb (PyStr.strip choice) "5" then
          save_if json_dumps (reorder_links config) config ;;; ret true
        else if PyStr.eqb (PyStr.strip choice) "6" then
          save_config json_dumps config ;;; ret true
        else if PyStr.eqb (PyStr.strip choice) "7" then
          save_config json_dumps config ;;;
          _ <- git_operations strftime_now subprocess_outcome ;;
          ret true
        else if PyStr.eqb (PyStr.strip choice) "8" then ret false
        else ret true) ;;
     if continue then _ <- input ;; ret true else ret false) (with_stdin rest w).
Proof.
  intros Hin. unfold menu_choice, stripped_input. unfold bind at 1 2.
  unfold input at 1. rewrite Hin. by unfold ret at 1.
Qed.

(** An edit that answers [True] is followed by the writing of the document
    it leaves. *)
Lemma save_if_true_run config (op : M bool) w1 j :
  outcome op w1 = Val true ->
  denote (S (length (store (after op w1)))) (store (after op w1)) config = Some j ->
  writes (after op w1) = writes w1 ->
  let w' := after (continue <- (save_if json_dumps op config ;;; ret true) ;;
                   if continue then _ <- input ;; ret true else ret false) w1 in
  config_file w' = Some (json_dumps j) /\ writes w' = writes w1 ++ [json_dumps j].
Proof.
  unfold outcome, after. intros Hop Hj Hw. cbv zeta. unfold save_if, bind.
  destruct (op w1) as [r w2]. simpl in Hop, Hj, Hw. subst r.
  pose proof (save_config_run config w2 j Hj) as Hsave. unfold save in Hsave.
  rewrite Hsave. unfold ret, input. cbn [stdin]. rewrite <- Hw.
  by destruct (stdin w2) as [|[]].
Qed.

Lemma split_not_nil sep s : PyStr.split sep s <> [].
Proof.
  destruct s as [|c s]; [done|]. cbn [PyStr.split].
  destruct ((c =? sep)%N); [done|]. by destruct (PyStr.split sep s).
Qed.

Lemma entered_order_not_nil line : entered_order line <> Some [].
Proof.
  unfold entered_order. pose proof (split_not_nil PyStr.comma (PyStr.strip line)) as Hne.
  destruct (PyStr.split PyStr.comma (PyStr.strip line)) as [|p ps]; [done|].
  intros H. apply length_mapM in H. done.
Qed.

(** X16 (main_menu with add_new_link, remove_link, reorder_links and
    save_config): what the menu leaves in config.json.  On a configuration
    as the wizard writes and shows it, with the document [JObj kvs]: choice 2 with a
    name and a URL that are not empty, choice 4 with the number of a link,
    and choice 5 with each of 1..n entered, each write config.json once, and
    what they write is the dump of the same document with, under "links",
    the new record added at the end, the chosen element removed, or the
    elements in the entered order. *)
Theorem menu_round_writes_the_edit config w kvs (choice : text) :
  shown_config (store w) config = true ->
  denote (S (length (store w))) (store w) config = Some (JObj kvs) ->
  let w' := after (round config) w in
  let js := json_links kvs in
  let saved (links : list json) :=
    config_file w' = Some (json_dumps (JObj (json_set "links" (JArr links) kvs))) /\
    writes w' = writes w ++ [json_dumps (JObj (json_set "links" (JArr links) kvs))] in
  (forall (name url icon : text) rest,
     stdin w = Line choice :: Line name :: Line url :: Line icon :: rest ->
     PyStr.strip choice = "2" ->
     PyStr.strip name <> "" -> PyStr.strip url <> "" ->
     saved (js ++ [new_record_json name url icon])) /\
  (forall (line : text) rest k,
     stdin w = Line choice :: Line line :: rest -> PyStr.strip choice = "4" ->
     PyStr.int line = Some k -> 1 <= k <= Z.of_nat (length js) ->
     saved (delete (Z.to_nat (k - 1)) js)) /\
  (forall (line : text) rest order,
     stdin w = Line choice :: Line line :: rest -> PyStr.strip choice = "5" ->
     entered_order line = Some order ->
     (forall i, i ∈ order <-> 0 <= i < Z.of_nat (length js)) ->
     saved (omap (fun i => js !! Z.to_nat i) order)).
Proof.
  intros [Hwf (items0 & Hlinks0 & Hall)]%shown_config_inv Hdoc. cbv zeta.
  destruct (wizard_config_inv _ _ Hwf) as (c & d & items & -> & Hc & Hl & _ & _ & Hli & _).
  assert (links_of (store w) (VRef c) = Some items) as Hlinks.
  { unfold links_of. by rewrite Hc, Hl. }
  assert (items0 = items) as -> by congruence. clear Hlinks0.
  pose proof (proj2 (document_links w c d items kvs Hwf Hc Hl Hdoc)) as Hjs.
  unfold round, after.
  rewrite (menu_round_choice json_dumps strftime_now subprocess_outcome _ w items Hlinks).
  split_and!.
  - intros name url icon rest Hin Hch Hn Hu.
    rewrite (menu_choice_read _ w choice _ Hin), Hch. simpl PyStr.eqb. cbv iota.
    set (w1 := with_stdin (Line name :: Line url :: Line icon :: rest) w).
    apply (save_if_true_run (VRef c) (add_new_link (VRef c)) w1).
    + unfold outcome. by rewrite (add_new_link_run c d items w1 name url icon rest).
    + by apply (add_new_link_document w1 c d items kvs Hwf Hc Hl Hdoc name url icon rest).
    + unfold after. by rewrite (add_new_link_run c d items w1 name url icon rest).
  - intros line rest k Hin Hch Hk Hr.
    rewrite (menu_choice_read _ w choice _ Hin), Hch. simpl PyStr.eqb. cbv iota.
    set (w1 := with_stdin (Line line :: rest) w).
    assert (1 <= k <= Z.of_nat (length items)) as Hr'.
    { by rewrite Hjs, length_fmap in Hr. }
    apply (save_if_true_run (VRef c) (remove_link (VRef c)) w1).
    + unfold outcome. by rewrite (remove_link_run c d items w1 line rest k).
    + by apply (remove_link_document w1 c d items kvs Hwf Hc Hl Hall Hdoc line rest k).
    + unfold after. by rewrite (remove_link_run c d items w1 line rest k).
  - intros line rest order Hin Hch Ho Hcov.
    rewrite (menu_choice_read _ w choice _ Hin), Hch. simpl PyStr.eqb. cbv iota.
    set (w1 := with_stdin (Line line :: rest) w).
    rewrite Hjs, length_fmap in Hcov.
    assert (items <> []) as Hne.
    { intros ->. destruct order as [|i order]; [by apply entered_order_not_nil in Ho|].
      specialize (proj1 (Hcov i) ltac:(left)). simpl. lia. }
    assert (order_mismatch order (Z.of_nat (length items)) = false) as Hm
      by (by apply order_mismatch_false).
    assert (reorder_links (VRef c) w1 =
              (Val true,
               with_store (<[c := dict_set "links" (VList (picked items order)) d]> (store w))
                 (with_stdin rest w1))) as Hrun.
    { rewrite (reorder_links_run c d items w1 line rest) by done. by rewrite Ho, Hm. }
    apply (save_if_true_run (VRef c) (reorder_links (VRef c)) w1).
    + unfold outcome. by rewrite Hrun.
    + apply (reorder_links_document w1 c d items kvs Hwf Hc Hl Hall Hdoc line rest order);
        [done|done|]. unfold outcome. by rewrite Hrun.
    + unfold after. by rewrite Hrun.
Qed.

Lemma alloc_not_object j st :
  (forall kvs, j <> JObj kvs) -> forall a, (alloc j st).1 <> VRef a.
Proof.
  intros Hj a. destruct j; try done.
  - rewrite alloc_arr. by destruct (alloc_items xs st).
  - by destruct (Hj kvs).
Qed.

Lemma alloc_fields_get_sizeless k kvs st j :
  json_get k kvs = Some j -> json_sizeless j = true ->
  exists v, dict_get k (alloc_fields kvs st).1 = Some v /\
    forall w, len v w = (Exc TypeError, w).
Proof.
  revert st. induction kvs as [|[k' j'] kvs IH]; intros st; [done|].
  cbn [json_get alloc_fields]. destruct (alloc j' st) as [v' st1] eqn:Hj'.
  specialize (IH st1). destruct (alloc_fields kvs st1) as [d st2].
  cbn [fst dict_get]. destruct (PyStr.eqb k k').
  - intros [= ->] Hj. exists v'. split; [done|].
    destruct j; try done; by injection Hj' as <- <-.
  - exact IH.
Qed.

(** X17 (main_menu): a config.json that holds valid JSON of another shape
    stops [main_menu] in its first round, before any prompt: no line is
    read, no file is written and no command is run.  When the document is
    not an object (an array, a text, a number, ...), [config.get] raises
    [AttributeError]; when it is an object whose "links" is null, a boolean
    or a number, [len] raises [TypeError]. *)
Theorem main_menu_needs_an_object w text j :
  config_file w = Some text -> json_loads text = Some j ->
  let stops_with (e : exn) :=
    forall fuel, exists w',
      main (S fuel) w = Some (Exc e, w') /\
      stdin w' = stdin w /\ config_file w' = config_file w /\ writes w' = writes w /\
      commands w' = commands w in
  ((forall kvs, j <> JObj kvs) -> stops_with AttributeError) /\
  (forall kvs x, j = JObj kvs -> json_get "links" kvs = Some x ->
     json_sizeless x = true -> stops_with TypeError).
Proof.
  intros Hf Hj. cbv zeta. split.
  - intros Hno fuel. unfold main, main_menu.
    rewrite (load_config_valid json_loads w text j Hf Hj).
    pose proof (alloc_not_object j (store w) Hno) as Hv.
    destruct (alloc j (store w)) as [v st']. simpl in *.
    exists (with_store st' w). split; [|done].
    unfold menu_round, dot_get, bind at 1.
    destruct v; try done. by destruct (Hv a).
  - intros kvs x -> Hx Hsz fuel. unfold main, main_menu.
    rewrite (load_config_valid json_loads w text _ Hf Hj).
    rewrite alloc_obj.
    destruct (alloc_fields_get_sizeless "links" kvs (store w) x Hx Hsz) as (v & Hv & Hlen).
    destruct (alloc_fields kvs (store w)) as [d st']. cbn [fst snd] in *.
    exists (with_store (st' ++ [d]) w). split; [|done].
    cbn [menu_loop].
    assert (menu_round json_dumps strftime_now subprocess_outcome (VRef (length st'))
              (with_store (st' ++ [d]) w) = (Exc TypeError, with_store (st' ++ [d]) w)) as ->;
      [|done].
    unfold menu_round, dot_get, as_dict, bind at 1 2 3, get_store. cbn [store with_store].
    rewrite list_lookup_middle by done. unfold ret at 1 2. cbn [fst snd]. rewrite Hv.
    unfold bind at 1. cbn [default from_option]. by rewrite Hlen.
Qed.

Lemma menu_loop_more fuel fuel' config w x :
  loop fuel config w = Some x -> (fuel <= fuel')%nat -> loop fuel' config w = Some x.
Proof.
  revert fuel' w. induction fuel as [|fuel IH]; intros fuel' w Hx Hle; [done|].
  destruct fuel' as [|fuel']; [lia|]. unfold loop in *. simpl in *.
  destruct (menu_round _ _ _ config w) as [[[]|e] w1]; [|done..].
  apply IH; [done|lia].
Qed.

(** On an input of finitely many lines the menu has one result. *)
Lemma main_menu_total w :
  exists r w', forall fuel, (length (stdin w) < fuel)%nat -> main fuel w = Some (r, w').
Proof.
  destruct (main_menu_ends json_loads json_dumps strftime_now subprocess_outcome w)
    as (r & w' & Hrun).
  exists r, w'. intros fuel Hfuel. unfold main, main_menu in *.
  destruct (load_config json_loads w) as [[config|e] w1]; [|done].
  eapply menu_loop_more; [exact Hrun|lia].
Qed.

(** X18 (main_menu): on an input of finitely many lines the menu has one
    result: it ends within one round more than there are lines, and every
    larger number of rounds allowed gives the same outcome and the same
    final world. *)
Theorem main_menu_result w :
  exists r w', forall fuel, (length (stdin w) < fuel)%nat -> main fuel w = Some (r, w').
Proof. apply main_menu_total. Qed.

(** X19 (main_menu): a session on a sound file ends, and ends cleanly.
    When config.json is missing, or holds invalid JSON, or a document of
    the form [{"links": [records with a name and a URL], ...}] whose links
    can be shown, and the clock writes no surrogate, then whatever is typed
    [main_menu] ends: by choice 8, with [SystemExit(1)] (exactly when the
    file holds invalid JSON), at a prompt that finds nothing it can read
    ([EOFError], [UnicodeDecodeError]), or with what [subprocess.run] raises
    for a git command that it cannot start ([FileNotFoundError], [OSError],
    and [ValueError] for a commit message with a NUL character).  No
    [KeyError], [TypeError], [IndexError], [AttributeError] or
    [UnicodeEncodeError] leaves it, and the configuration it ends with is
    still one as the wizard writes and shows it. *)
Theorem session_ends_cleanly w :
  PyStr.has_surrogate strftime_now = false ->
  (forall text j, config_file w = Some text -> json_loads text = Some j ->
     shown_document j = true) ->
  exists r w',
    (forall fuel, (length (stdin w) < fuel)%nat -> main fuel w = Some (r, w')) /\
    ends_with (SystemExit 1 :: prompt_errors ++ git_errors) r /\
    (r = Exc (SystemExit 1) <->
       exists text, config_file w = Some text /\ json_loads text = None) /\
    (r <> Exc (SystemExit 1) -> exists config, shown_config (store w') config = true).
Proof.
  intros Hnow Hdoc. destruct (main_menu_total w) as (r & w' & Hends).
  exists r, w'. split; [done|].
  specialize (Hends (S (length (stdin w))) ltac:(lia)). revert Hends.
  unfold main, main_menu. pose proof (load_config_shown w Hdoc) as Hload.
  unfold load in Hload.
  destruct (load_config json_loads w) as [[config|e] w1] eqn:Hrun_load.
  - intros Hrun.
    destruct (menu_loop_cleanly config json_dumps strftime_now subprocess_outcome Hnow
                _ w1 r w' Hload Hrun) as [Hwf Hr].
    split_and!.
    + destruct r as [[]|e]; [done|]. by right.
    + split.
      * intros ->. unfold ends_cleanly, ends_with, prompt_errors, git_errors in Hr.
        cbn [app] in Hr.
        repeat (apply elem_of_cons in Hr as [Hr'|Hr]; [discriminate Hr'|]).
        by apply elem_of_nil in Hr.
      * intros (text & Hf & Hj).
        by rewrite (load_config_invalid json_loads w text Hf Hj) in Hrun_load.
    + intros _. by exists config.
  - intros [= <- <-]. destruct Hload as [-> Hfile]. split_and!; [by left|done|done].
Qed.

End Session.


(** ** What a session leaves behind *)

#[local] Instance wizard_footprint_preorder : PreOrder wizard_footprint.
Proof.
  split.
  - intros w. split; [done|]. exists []. by rewrite app_nil_r.
  - intros w1 w2 w3 [Hf1 (cs1 & Hc1 & Hg1)] [Hf2 (cs2 & Hc2 & Hg2)]. split; [auto|].
    exists (cs1 ++ cs2). rewrite Hc2, Hc1, app_assoc. split; [done|].
    by apply Forall_app.
Qed.

Lemma wizard_footprint_same w w' :
  config_file w' = config_file w -> commands w' = commands w -> wizard_footprint w w'.
Proof.
  intros Hf Hc. split; [by rewrite Hf|]. exists []. by rewrite app_nil_r.
Qed.

Lemma wizard_footprint_input : preserves wizard_footprint input.
Proof.
  intros w. apply wizard_footprint_same; unfold after, input; by destruct (stdin w) as [|[]].
Qed.

Lemma wizard_footprint_put_store st : preserves wizard_footprint (put_store st).
Proof. intros w. by apply wizard_footprint_same. Qed.

Lemma wizard_footprint_save json_dumps config :
  preserves wizard_footprint (save_config json_dumps config).
Proof.
  intros w. unfold after, save_config, bind, get_store, write_config_file.
  split.
  - intros _. simpl. by case_match.
  - exists []. rewrite app_nil_r. simpl. by case_match.
Qed.

Lemma git_steps_commands msg n : Forall git_command (git_status :: take n (git_steps msg)).
Proof.
  apply Forall_cons. split; [by left|].
  apply Forall_take. unfold git_steps. repeat apply Forall_cons_2; try apply Forall_nil_2.
  - right. by left.
  - right. right. left. by exists msg.
  - do 3 right. done.
Qed.

Section SessionFrame.
Variable json_dumps : json -> str.
Variable strftime_now : str.
Variable subprocess_outcome : list (list str) -> list str -> proc_result.
Context (R : relation world) `{!PreOrder R}.
Hypothesis R_input : preserves R input.
Hypothesis R_put_store : forall st, preserves R (put_store st).
Hypothesis R_save : forall config, preserves R (save_config json_dumps config).
Hypothesis R_git : preserves R (git_operations strftime_now subprocess_outcome).

Lemma preserves_round config :
  preserves R (menu_round json_dumps strftime_now subprocess_outcome config).
Proof.
  unfold menu_round, save_if, stripped_input.
  repeat first
    [ done
    | lazymatch goal with |- PreOrder _ => apply _ end
    | apply preserves_display | apply preserves_add | apply preserves_edit
    | apply preserves_remove | apply preserves_reorder
    | apply preserves_ret | apply preserves_raise | apply preserves_get_store
    | apply preserves_bind; [| |intros ?]
    | progress unfold dot_get, len, as_dict
    | case_match ].
Qed.

Lemma preserves_loop fuel config w r w' :
  menu_loop json_dumps strftime_now subprocess_outcome fuel config w = Some (r, w') ->
  R w w'.
Proof.
  revert w. induction fuel as [|fuel IH]; intros w; [done|]. simpl.
  pose proof (preserves_round config w) as Hround. unfold after in Hround.
  destruct (menu_round _ _ _ config w) as [[[]|e] w1]; simpl in Hround.
  - intros Hrun. etrans; [exact Hround|]. by apply IH.
  - by intros [= <- <-].
  - by intros [= <- <-].
Qed.

End SessionFrame.

Section Footprint.
Variable json_loads : str -> option json.
Variable json_dumps : json -> str.
Variable strftime_now : str.
Variable subprocess_outcome : list (list str) -> list str -> proc_result.

Let git : M bool := git_operations strftime_now subprocess_outcome.
Let run := script json_loads json_dumps strftime_now subprocess_outcome.

Lemma wizard_footprint_git : preserves wizard_footprint git.
Proof.
  intros w. unfold git.
  destruct (git_operations_frame strftime_now subprocess_outcome w)
    as (_ & Hf & _ & _ & (n & msg & _ & Hc) & _).
  split; [by rewrite Hf|].
  eexists. split; [exact Hc|]. apply git_steps_commands.
Qed.

(** X20 (the script, main_menu, git_operations): whatever is typed and
    however the run ends, config.json is there at the end, and the only
    programs run are git status, git add config.json, git commit -m with
    some message, and git push. *)
Theorem script_footprint fuel w r w' :
  run fuel w = Some (r, w') ->
  is_Some (config_file w') /\
  exists cs, commands w' = commands w ++ cs /\ Forall git_command cs.
Proof.
  unfold run, script.
  set (w0 := match config_file w with
             | Some _ => w
             | None => (write_config_file (json_dumps (JObj [("links", JArr [])])) w).2
             end).
  assert (is_Some (config_file w0) /\ commands w0 = commands w) as [Hf0 Hc0].
  { unfold w0. destruct (config_file w) eqn:Hf; [by rewrite Hf|]. by split. }
  assert (match config_file w with
          | Some _ => main_menu json_loads json_dumps strftime_now subprocess_outcome fuel w
          | None => main_menu json_loads json_dumps strftime_now subprocess_outcome fuel
                      (write_config_file (json_dumps (JObj [("links", JArr [])])) w).2
          end = main_menu json_loads json_dumps strftime_now subprocess_outcome fuel w0) as ->.
  { unfold w0. by destruct (config_file w). }
  clearbody w0. unfold main_menu.
  assert (wizard_footprint w0 (after (load_config json_loads) w0)) as Hload.
  { destruct (load_config_frame json_loads w0) as (_ & Hf & _ & Hc).
    by apply wizard_footprint_same. }
  unfold after in Hload.
  destruct (load_config json_loads w0) as [[config|e] w1]; simpl in Hload.
  - intros Hrun.
    apply (preserves_loop json_dumps strftime_now subprocess_outcome wizard_footprint
             wizard_footprint_input wizard_footprint_put_store
             (wizard_footprint_save json_dumps) wizard_footprint_git) in Hrun.
    assert (wizard_footprint w0 w') as [Hf Hc] by (by etrans).
    split; [auto|]. by rewrite <- Hc0.
  - intros [= <- <-]. destruct Hload as [Hf Hc]. split; [auto|]. by rewrite <- Hc0.
Qed.

End Footprint.


(** ** The further properties at work on the sample data *)

(** The two sample links are shown. *)
Lemma display_current_links_shows_witness :
  outcome (display_current_links sample_config) (sample_world []) = Val tt.
Proof.
  apply (proj2 (proj2 (display_current_links_shows sample_config (sample_world []))
                  [VRef 0%nat; VRef 1%nat] eq_refl)).
  reflexivity.
Defined.

(** A configuration without "links", and one with an empty list. *)
Lemma nothing_to_edit_witness :
  remove_link (VRef 0%nat) (World (typing ["1"]) [[]] None [] []) =
    (Val false, World (typing ["1"]) [[]] None [] []) /\
  reorder_links (VRef 0%nat) (World (typing ["1"]) [[("links", VList [])]] None [] []) =
    (Val false, World (typing ["1"]) [[("links", VList [])]] None [] []).
Proof.
  split.
  - apply (nothing_to_edit 0 [] (World (typing ["1"]) [[]] None [] []) eq_refl eq_refl).
  - apply (nothing_to_edit 0 [("links", VList [])]
             (World (typing ["1"]) [[("links", VList [])]] None [] []) eq_refl eq_refl).
Defined.

(** An add to a configuration that is an empty dict. *)
Lemma add_new_link_needs_a_list_witness :
  add_new_link (VRef 0%nat)
    (World (typing ["Docs"; "https://docs.example"; ""]) [[]] None [] []) =
    (Exc KeyError,
     World [] [[]; link "Docs" "https://docs.example" "fas fa-link"] None [] []).
Proof.
  apply (proj1 (add_new_link_needs_a_list 0 []
                  (World (typing ["Docs"; "https://docs.example"; ""]) [[]] None [] [])
                  (text_of "Docs") (text_of "https://docs.example") (text_of "") []
                  eq_refl eq_refl
                  ltac:(by vm_compute) ltac:(by vm_compute))).
  reflexivity.
Defined.

(** An edit that is cut short by the end of the input, and a reorder. *)
Lemma edits_end_well_witness :
  shown_config sample_store sample_config = true /\
  ends_with [EOFError] (outcome (edit_link sample_config) (sample_world ["1"; "Manual"])) /\
  shown_config (store (after (reorder_links sample_config) (sample_world ["2,1"])))
    sample_config = true.
Proof.
  pose proof (edits_end_well sample_config (sample_world ["1"; "Manual"]) eq_refl)
    as (_ & [He _] & _).
  pose proof (edits_end_well sample_config (sample_world ["2,1"]) eq_refl)
    as (_ & _ & _ & [_ Hr]).
  split; [reflexivity|]. split; [exact He|exact Hr].
Defined.

(** A name typed with blanks around it, and no icon. *)
Lemma wizard_stores_trimmed_text_witness :
  exists r,
    store (after (add_new_link sample_config)
             (sample_world [" Wiki "; "https://wiki.example"; ""])) !! 3%nat = Some r /\
    keys r = ["name"; "url"; "icon"] /\
    trimmed (dict_get "name" r) /\ trimmed (dict_get "url" r) /\
    trimmed (dict_get "icon" r).
Proof.
  apply (proj1 (wizard_stores_trimmed_text sample_config
                  (sample_world [" Wiki "; "https://wiki.example"; ""])
                  [VRef 0%nat; VRef 1%nat] eq_refl)
           (text_of " Wiki ") (text_of "https://wiki.example") (text_of "") []);
    [reflexivity | by vm_compute].
Defined.

(** A third link is added and removed again. *)
Lemma add_then_remove_last_witness :
  links_of
    (store (after (remove_link sample_config)
              (after (add_new_link sample_config)
                 (sample_world ["Wiki"; "https://wiki.example"; ""; "3"]))))
    sample_config = Some [VRef 0%nat; VRef 1%nat].
Proof.
  apply (add_then_remove_last sample_config
           (sample_world ["Wiki"; "https://wiki.example"; ""; "3"])
           [VRef 0%nat; VRef 1%nat]
           (text_of "Wiki") (text_of "https://wiki.example") (text_of "") (text_of "3") []);
    [reflexivity | reflexivity | reflexivity | by vm_compute | by vm_compute | reflexivity].
Defined.

(** The two links exchanged. *)
Lemma reorder_links_accepts_witness :
  outcome (reorder_links sample_config) (sample_world ["2,1"]) = Val true /\
  links_of (store (after (reorder_links sample_config) (sample_world ["2,1"])))
    sample_config = Some [VRef 1%nat; VRef 0%nat].
Proof.
  pose proof (reorder_links_accepts sample_config (sample_world ["2,1"])
                [VRef 0%nat; VRef 1%nat] (text_of "2,1") [] eq_refl ltac:(discriminate)
                eq_refl eq_refl) as (Htrue & _ & Hnew).
  assert (forall i, i ∈ [1; 0] <-> 0 <= i < Z.of_nat (length [VRef 0%nat; VRef 1%nat]))
    as Hcov.
  { intros i. rewrite !elem_of_cons, elem_of_nil. simpl. lia. }
  split.
  - apply (proj2 Htrue). exists [1; 0]. split; [reflexivity|exact Hcov].
  - apply (Hnew [1; 0] eq_refl Hcov).
Defined.

(** What is written once the first sample link is removed. *)
Lemma edits_in_the_document_witness :
  denote 4 (store (after (remove_link sample_config) (sample_world ["1"]))) sample_config =
    Some (JObj [("links",
                 JArr [JObj [("name", JStr "Blog"); ("url", JStr "https://blog.example");
                             ("icon", JStr "fas fa-pen")]])]).
Proof.
  destruct (edits_in_the_document sample_config (sample_world ["1"])
              [("links",
                JArr [JObj [("name", JStr "Docs"); ("url", JStr "https://docs.example");
                            ("icon", JStr "fas fa-book")];
                      JObj [("name", JStr "Blog"); ("url", JStr "https://blog.example");
                            ("icon", JStr "fas fa-pen")]])]
              eq_refl eq_refl) as (_ & _ & Hremove & _).
  apply (Hremove (text_of "1") [] 1 eq_refl eq_refl). simpl. lia.
Defined.

(** What is written once the second sample link is renamed. *)
Lemma edit_link_in_the_document_witness :
  exists kvs',
    denote 4 (store (after (edit_link sample_config)
                       (sample_world ["2"; " Journal "; ""; ""]))) sample_config =
      Some (JObj kvs') /\
    json_links kvs' =
      [JObj [("name", JStr "Docs"); ("url", JStr "https://docs.example");
             ("icon", JStr "fas fa-book")];
       JObj [("name", JStr "Journal"); ("url", JStr "https://blog.example");
             ("icon", JStr "fas fa-pen")]].
Proof.
  destruct (edit_link_in_the_document sample_config
              (sample_world ["2"; " Journal "; ""; ""])
              [("links",
                JArr [JObj [("name", JStr "Docs"); ("url", JStr "https://docs.example");
                            ("icon", JStr "fas fa-book")];
                      JObj [("name", JStr "Blog"); ("url", JStr "https://blog.example");
                            ("icon", JStr "fas fa-pen")]])]
              [VRef 0%nat; VRef 1%nat]
              (text_of "2") (text_of " Journal ") (text_of "") (text_of "") [] 2 1%nat
              eq_refl eq_refl eq_refl eq_refl eq_refl ltac:(simpl; lia) eq_refl
              ltac:(intros [|[|i]] H; [discriminate H | reflexivity | discriminate H]))
    as (fs & kvs' & Hfs & Hd & _ & Hl & _).
  injection Hfs as <-. exists kvs'. split; [exact Hd|exact Hl].
Defined.

(** No file, and a file with an empty list of links. *)
Lemma load_config_well_formed_witness :
  (exists config w',
     load_config sample_loads (World [] [] None [] []) = (Val config, w') /\
     wizard_config (store w') config = true /\
     links_of (store w') config = Some []) /\
  (exists config w',
     load_config sample_loads (World [] [] (Some "{links:[]}") [] []) = (Val config, w') /\
     wizard_config (store w') config = true).
Proof.
  split.
  - apply (proj1 (load_config_well_formed sample_loads (World [] [] None [] []))).
    reflexivity.
  - apply (proj2 (load_config_well_formed sample_loads
                    (World [] [] (Some "{links:[]}") [] []))
             "{links:[]}" (JObj [("links", JArr [])]));
      reflexivity.
Defined.

(** A file that holds "{}" is written back as "{}". *)
Lemma load_then_save_witness :
  exists config w1 w2,
    load_config sample_loads (World [] [] (Some "{}") [] []) = (Val config, w1) /\
    save_config sample_dumps config w1 = (Val tt, w2) /\
    config_file w2 = Some "{}" /\
    writes w2 = ["{}"] /\
    store w2 = store w1 /\ stdin w2 = [].
Proof.
  apply (load_then_save sample_loads sample_dumps (World [] [] (Some "{}") [] [])
           "{}" (JObj []));
    reflexivity.
Defined.

(** An empty list of links, saved and loaded again. *)
Lemma save_then_load_witness :
  exists w1 config' w2,
    save_config sample_dumps (VRef 0%nat) (World [] [[("links", VList [])]] None [] []) =
      (Val tt, w1) /\
    load_config sample_loads w1 = (Val config', w2) /\
    (exists new, store w2 = [[("links", VList [])]] ++ new) /\
    denote (S (length (store w2))) (store w2) config' = Some (JObj [("links", JArr [])]) /\
    forall a d, [[("links", VList [])]] !! a = Some d -> store w2 !! a = Some d.
Proof.
  apply (save_then_load sample_loads sample_dumps (VRef 0%nat)
           (World [] [[("links", VList [])]] None [] []) (JObj [("links", JArr [])]));
    reflexivity.
Defined.

(** git is there for the status check and gone for the add. *)
Lemma git_operations_command_not_found_witness :
  outcome (git_operations "2026-01-01 12:00" git_vanishes) (sample_world ["msg"]) =
    Exc FileNotFoundError /\
  commands (after (git_operations "2026-01-01 12:00" git_vanishes) (sample_world ["msg"])) =
    [git_status; git_add].
Proof.
  apply (git_operations_command_not_found "2026-01-01 12:00" git_vanishes
           (sample_world ["msg"]) (text_of "msg") [] 0%nat eq_refl eq_refl);
    [lia | intros j Hj; lia | reflexivity].
Defined.

(** Choice 8, and a choice that is no choice. *)
Lemma menu_round_idle_choices_witness :
  menu_round sample_dumps "" git_fine sample_config (sample_world [" 8 "; "1"]) =
    (Val false, sample_world ["1"]) /\
  menu_round sample_dumps "" git_fine sample_config (sample_world ["nine"; ""; "8"]) =
    (Val true, sample_world ["8"]).
Proof.
  split.
  - apply (proj1 (menu_round_idle_choices sample_dumps "" git_fine sample_config
                    (sample_world [" 8 "; "1"]) [VRef 0%nat; VRef 1%nat]
                    (text_of " 8 ") (typing ["1"])
                    eq_refl eq_refl)).
    reflexivity.
  - apply (proj2 (menu_round_idle_choices sample_dumps "" git_fine sample_config
                    (sample_world ["nine"; ""; "8"]) [VRef 0%nat; VRef 1%nat]
                    (text_of "nine") (typing [""; "8"]) eq_refl eq_refl)).
    change (PyStr.strip (text_of "nine")) with "nine". intros H.
    repeat (apply elem_of_cons in H as [H|H]; [discriminate H|]).
    by apply elem_of_nil in H.
Defined.

(** Choice 4 and then 1, and choice 2 for a third link, with a writer that
    shows the names. *)
Lemma menu_round_writes_the_edit_witness :
  config_file (after (menu_round dumps_names "" git_fine sample_config)
                 (sample_world ["4"; "1"; ""])) = Some "Blog" /\
  config_file (after (menu_round dumps_names "" git_fine sample_config)
                 (sample_world ["2"; "Wiki"; "https://wiki.example"; ""; ""])) =
    Some "Docs,Blog,Wiki".
Proof.
  split.
  - apply (proj1 (proj2 (menu_round_writes_the_edit dumps_names "" git_fine sample_config
                           (sample_world ["4"; "1"; ""])
                           [("links",
                             JArr [JObj [("name", JStr "Docs");
                                         ("url", JStr "https://docs.example");
                                         ("icon", JStr "fas fa-book")];
                                   JObj [("name", JStr "Blog");
                                         ("url", JStr "https://blog.example");
                                         ("icon", JStr "fas fa-pen")]])]
                           (text_of "4") eq_refl eq_refl))
             (text_of "1") (typing [""]) 1 eq_refl eq_refl eq_refl ltac:(simpl; lia)).
  - apply (proj1 (menu_round_writes_the_edit dumps_names "" git_fine sample_config
                    (sample_world ["2"; "Wiki"; "https://wiki.example"; ""; ""])
                    [("links",
                      JArr [JObj [("name", JStr "Docs");
                                  ("url", JStr "https://docs.example");
                                  ("icon", JStr "fas fa-book")];
                            JObj [("name", JStr "Blog");
                                  ("url", JStr "https://blog.example");
                                  ("icon", JStr "fas fa-pen")]])]
                    (text_of "2") eq_refl eq_refl)
             (text_of "Wiki") (text_of "https://wiki.example") (text_of "") (typing [""])
             eq_refl eq_refl
             ltac:(by vm_compute) ltac:(by vm_compute)).
Defined.

(** A file that holds an array, and one that holds [{"links": null}]. *)
Lemma main_menu_needs_an_object_witness :
  (exists w',
     main_menu (loads_as (JArr [])) sample_dumps "" git_fine 1
       (World (typing ["1"]) [] (Some "[]") [] []) = Some (Exc AttributeError, w') /\
     stdin w' = typing ["1"] /\ config_file w' = Some "[]" /\ writes w' = [] /\
     commands w' = []) /\
  (exists w',
     main_menu (loads_as (JObj [("links", JNull)])) sample_dumps "" git_fine 1
       (World (typing ["1"]) [] (Some "{links:null}") [] []) = Some (Exc TypeError, w') /\
     stdin w' = typing ["1"] /\ config_file w' = Some "{links:null}" /\ writes w' = [] /\
     commands w' = []).
Proof.
  split.
  - apply (proj1 (main_menu_needs_an_object (loads_as (JArr [])) sample_dumps "" git_fine
                    (World (typing ["1"]) [] (Some "[]") [] []) "[]" (JArr []) eq_refl eq_refl)).
    discriminate.
  - apply (proj2 (main_menu_needs_an_object (loads_as (JObj [("links", JNull)]))
                    sample_dumps "" git_fine
                    (World (typing ["1"]) [] (Some "{links:null}") [] []) "{links:null}"
                    (JObj [("links", JNull)]) eq_refl eq_refl)
             [("links", JNull)] JNull eq_refl eq_refl eq_refl).
Defined.

(** Two and five rounds allowed for an input of one line. *)
Lemma main_menu_result_witness :
  main_menu sample_loads sample_dumps "" git_fine 2 (World (typing ["8"]) [] None [] []) =
  main_menu sample_loads sample_dumps "" git_fine 5 (World (typing ["8"]) [] None [] []).
Proof.
  destruct (main_menu_result sample_loads sample_dumps "" git_fine
              (World (typing ["8"]) [] None [] [])) as (r & w' & Hrun).
  rewrite (Hrun 2%nat), (Hrun 5%nat); [reflexivity | simpl; lia | simpl; lia].
Defined.

(** A link is added to an empty list, and the input ends at "Press Enter". *)
Lemma session_ends_cleanly_witness :
  exists r w',
    main_menu sample_loads sample_dumps "" git_fine 5
      (World (typing ["2"; "Docs"; "https://docs.example"; ""]) [] (Some "{links:[]}") [] []) =
      Some (r, w') /\
    ends_with (SystemExit 1 :: prompt_errors ++ git_errors) r.
Proof.
  destruct (session_ends_cleanly sample_loads sample_dumps "" git_fine
              (World (typing ["2"; "Docs"; "https://docs.example"; ""]) []
                 (Some "{links:[]}") [] [])
              eq_refl
              ltac:(intros text j [= <-] [= <-]; reflexivity))
    as (r & w' & Hrun & Hends & _).
  exists r, w'. split; [|exact Hends]. apply Hrun. simpl. lia.
Defined.

(** No config.json; the user saves and commits, and leaves. *)
Lemma script_footprint_witness :
  exists r w',
    script sample_loads sample_dumps "2026-01-01 12:00" git_fine 10
      (World (typing ["7"; ""; ""; "8"]) [] None [] []) = Some (r, w') /\
    is_Some (config_file w') /\
    exists cs, commands w' = [] ++ cs /\ Forall git_command cs.
Proof.
  eexists _, _. split; [by vm_compute|].
  apply (script_footprint sample_loads sample_dumps "2026-01-01 12:00" git_fine 10
           (World (typing ["7"; ""; ""; "8"]) [] None [] []) (Val tt)).
  by vm_compute.
Defined.

